(** * Structured-grid concatenation (pyvista, [StructuredGridFilters.concatenate])

    A shallow embedding of [concatenate] from
    [src/pyvista/core/unstructuredgridfilters.py] together with the numpy
    array operations it calls, and the properties of the routine.

    Conventions of the embedding:
    - a Python [int] is a [Z]; a Python [float] is an exact rational [Q]
      (rounding, infinities and NaN are outside the model);
    - an n-dimensional numpy array is its shape and the sequence of its
      elements in Fortran order (first index fastest), the order in which
      [reshape(..., order='F')] and [ravel(order='F')] read and write;
    - an exception is a value of type [error]; a computation that may raise
      returns [result A]. *)

From Stdlib Require Import String.
From Stdlib Require Import List ZArith QArith Qabs Lia Lqa Bool Arith PeanoNat Permutation.
Import ListNotations.

Local Open Scope nat_scope.

(** ** Exceptions *)

Definition dims := (Z * Z * Z)%type.

(** Exceptions raised by numpy and by Python's own containers. *)
Inductive library_error : Type :=
| AxisError      (* numpy: axis out of bounds for the array *)
| IndexError     (* index out of range, take from an empty axis *)
| ValueError     (* shapes that do not fit *)
| KeyError.      (* missing dictionary key *)

(** The [RuntimeError]s of [concatenate], told apart by their message, and
    the exceptions that escape from the libraries. *)
Inductive error : Type :=
| InvalidAxis
| DimensionMismatch (d1 d2 : dims)
| PointFieldNameMismatch
| CellFieldNameMismatch
| SeamCoincidenceMismatch (axis : Z) (tolerance : Q)
| SeamFieldMismatch (axis : Z) (name : string)
| LibraryError (e : library_error).

Inductive result (A : Type) : Type :=
| Ok (a : A)
| Raise (e : error).

Arguments Ok {A} a.
Arguments Raise {A} e.

Definition bind {A B : Type} (r : result A) (k : A -> result B) : result B :=
  match r with
  | Ok a => k a
  | Raise e => Raise e
  end.

Notation "x <- r ;; k" := (bind r (fun x => k))
  (at level 61, r at next level, right associativity).
Notation "r ;;; k" := (bind r (fun _ => k))
  (at level 61, right associativity).

Definition raise_lib {A : Type} (e : library_error) : result A :=
  Raise (LibraryError e).

(** ** Index arithmetic *)

(** Python's index normalisation: [-n <= i < n], negative indices count
    from the end; [e] is raised out of range. *)
Definition normalize_index (e : library_error) (n : nat) (i : Z) : result nat :=
  if ((0 <=? i) && (i <? Z.of_nat n))%Z then Ok (Z.to_nat i)
  else if ((- Z.of_nat n <=? i) && (i <? 0))%Z then Ok (Z.to_nat (i + Z.of_nat n))
  else raise_lib e.

Definition prod (l : list nat) : nat := fold_right Nat.mul 1 l.

(** Product of the extents before axis [a]: the stride of axis [a] in
    Fortran order. *)
Definition stride (sh : list nat) (a : nat) : nat := prod (firstn a sh).

(** Extent of axis [a]. *)
Definition extent (sh : list nat) (a : nat) : nat := nth a sh 0.

(** Product of the extents after axis [a]. *)
Definition outer (sh : list nat) (a : nat) : nat := prod (skipn (S a) sh).

Definition set_nth {A : Type} (a : nat) (v : A) (l : list A) : list A :=
  firstn a l ++ v :: skipn (S a) l.

Section Blocks.
Context {A : Type}.

(** [block m o l]: the [o]-th run of [m] consecutive elements of [l]. *)
Definition block (m o : nat) (l : list A) : list A :=
  firstn m (skipn (o * m) l).

(** [per_block cnt f]: the results of [f] on the block numbers
    [0 .. cnt-1], laid end to end. *)
Definition per_block (cnt : nat) (f : nat -> list A) : list A :=
  flat_map f (seq 0 cnt).

(** A sequence in Fortran order, seen from an axis of stride [s] and
    extent [n], is [cnt] blocks of [n] layers of [s] elements.  The three
    functions below act on every block. *)

(** Layer [t] of every block. *)
Definition take_layer (s n cnt t : nat) (l : list A) : list A :=
  per_block cnt (fun o => block s t (block (s * n) o l)).

(** Layers [lo .. lo + c - 1] of every block. *)
Definition slice_layers (s n cnt lo c : nat) (l : list A) : list A :=
  per_block cnt (fun o => firstn (c * s) (skipn (lo * s) (block (s * n) o l))).

(** Every block of [l1] followed by the same block of [l2]. *)
Definition join_layers (s n1 n2 cnt : nat) (l1 l2 : list A) : list A :=
  per_block cnt (fun o => block (s * n1) o l1 ++ block (s * n2) o l2).
End Blocks.

(** ** numpy arrays *)

Record ndarray : Type := mk_ndarray {
  shape : list nat;
  data : list Q
}.

Definition ndim (a : ndarray) : nat := length (shape a).

(** [numpy.take(a, indices=i, axis=axis)] with a scalar index. *)
Definition np_take (a : ndarray) (i : Z) (axis : Z) : result ndarray :=
  ax <- normalize_index AxisError (ndim a) axis ;;
  t <- normalize_index IndexError (extent (shape a) ax) i ;;
  Ok {| shape := firstn ax (shape a) ++ skipn (S ax) (shape a);
        data := take_layer (stride (shape a) ax) (extent (shape a) ax)
                  (outer (shape a) ax) t (data a) |}.

(** A Python [slice(start, stop, None)]. *)
Record pyslice : Type := mk_slice {
  slice_start : option Z;
  slice_stop : option Z
}.

(** Clamp a slice bound to [0 .. n] the way Python does for a positive
    step. *)
Definition clamp_bound (n : nat) (z : Z) : nat :=
  if (z <? 0)%Z then Z.to_nat (z + Z.of_nat n)
  else Nat.min (Z.to_nat z) n.

Definition slice_lo (n : nat) (s : pyslice) : nat :=
  match slice_start s with
  | None => 0
  | Some z => clamp_bound n z
  end.

Definition slice_hi (n : nat) (s : pyslice) : nat :=
  match slice_stop s with
  | None => n
  | Some z => clamp_bound n z
  end.

(** Basic slicing of one axis: [a[:, ..., s, ...]]. *)
Definition slice_axis (a : ndarray) (ax : nat) (s : pyslice) : ndarray :=
  let n := extent (shape a) ax in
  let lo := slice_lo n s in
  let cnt := slice_hi n s - lo in
  {| shape := set_nth ax cnt (shape a);
     data := slice_layers (stride (shape a) ax) n (outer (shape a) ax) lo cnt
               (data a) |}.

Fixpoint getitem_from (ax : nat) (a : ndarray) (spec : list pyslice) : result ndarray :=
  match spec with
  | [] => Ok a
  | s :: rest =>
      if ax <? ndim a then getitem_from (S ax) (slice_axis a ax s) rest
      else raise_lib IndexError
  end.

(** [a[spec]] for a sequence of slices, one per leading axis; numpy (before
    1.23) indexes with a list of slices as with the tuple of them. *)
Definition getitem (a : ndarray) (spec : list pyslice) : result ndarray :=
  getitem_from 0 a spec.

Definition list_eqb (l1 l2 : list nat) : bool :=
  if list_eq_dec Nat.eq_dec l1 l2 then true else false.

(** [numpy.concatenate((a, b), axis=axis)]: the axis is checked first,
    then the number of dimensions, then the extents off the axis. *)
Definition np_concatenate (a b : ndarray) (axis : Z) : result ndarray :=
  if ndim a =? 0 then raise_lib ValueError else
  ax <- normalize_index AxisError (ndim a) axis ;;
  if negb (ndim a =? ndim b) then raise_lib ValueError else
  if negb (list_eqb (set_nth ax 0 (shape a)) (set_nth ax 0 (shape b)))
  then raise_lib ValueError else
  Ok {| shape := set_nth ax (extent (shape a) ax + extent (shape b) ax) (shape a);
        data := join_layers (stride (shape a) ax) (extent (shape a) ax)
                  (extent (shape b) ax) (outer (shape a) ax) (data a) (data b) |}.

Local Open Scope Q_scope.

(** Default relative tolerance of [numpy.allclose]. *)
Definition rtol : Q := 1 # 100000.

(** [numpy.isclose] on one pair: [|a - b| <= atol + rtol * |b|]. *)
Definition isclose (atol a b : Q) : bool :=
  Qle_bool (Qabs (a - b)) (atol + rtol * Qabs b).

(** [numpy.allclose(a, b, atol=atol)].  Shapes that differ would be
    broadcast by numpy; [concatenate] only calls it on equal shapes. *)
Definition np_allclose (a b : ndarray) (atol : Q) : result bool :=
  if list_eqb (shape a) (shape b)
  then Ok (forallb (fun p => isclose atol (fst p) (snd p)) (combine (data a) (data b)))
  else raise_lib ValueError.

(** [numpy.array_equal(a, b)]: same shape and equal elements. *)
Definition np_array_equal (a b : ndarray) : bool :=
  list_eqb (shape a) (shape b) &&
  forallb (fun p => Qeq_bool (fst p) (snd p)) (combine (data a) (data b)).

Local Close Scope Q_scope.

(** The array holds as many elements as its shape says. *)
Definition well_shaped (a : ndarray) : Prop := length (data a) = prod (shape a).

(** [array.reshape(sh, order='F')] of a one-dimensional array. *)
Definition reshape_F (sh : list nat) (l : list Q) : result ndarray :=
  if length l =? prod sh then Ok {| shape := sh; data := l |}
  else raise_lib ValueError.

(** [a.ravel(order='F')]. *)
Definition ravel_F (a : ndarray) : list Q := data a.

(** ** Python dictionaries of named arrays *)

(** A dictionary keeps its keys in insertion order. *)
Definition dict : Type := list (string * list Q).

Definition keys (d : dict) : list string := map fst d.

Fixpoint dict_get (d : dict) (k : string) : result (list Q) :=
  match d with
  | [] => raise_lib KeyError
  | (k', v) :: rest => if String.eqb k' k then Ok v else dict_get rest k
  end.

(** [d[k] = v]: replaces the value of an existing key in place, appends a
    new key. *)
Fixpoint dict_set (k : string) (v : list Q) (d : dict) : dict :=
  match d with
  | [] => [(k, v)]
  | (k', v') :: rest =>
      if String.eqb k' k then (k, v) :: rest else (k', v') :: dict_set k v rest
  end.

(** [d.update(e)]. *)
Definition dict_update (d e : dict) : dict :=
  fold_left (fun acc kv => dict_set (fst kv) (snd kv) acc) e d.

Definition mem_key (k : string) (l : list string) : bool :=
  existsb (String.eqb k) l.

(** [set(l1) == set(l2)]. *)
Definition key_set_eqb (l1 l2 : list string) : bool :=
  forallb (fun k => mem_key k l2) l1 && forallb (fun k => mem_key k l1) l2.

(** ** Structured grids *)

Definition point : Type := (Q * Q * Q)%type.

Definition px (p : point) : Q := fst (fst p).
Definition py (p : point) : Q := snd (fst p).
Definition pz (p : point) : Q := snd p.

(** Modelled from the spec: the grid object [pyvista.StructuredGrid], whose
    class is not under src.  Section 3 of the specification gives its
    attributes; [field_arrays] are the arrays attached to the grid as a
    whole. *)
Record Grid : Type := mk_grid {
  dimensions : dims;
  points : list point;
  point_arrays : dict;
  cell_arrays : dict;
  field_arrays : dict
}.

Definition dims_list (d : dims) : list Z :=
  let '(a, b, c) := d in [a; b; c].

Definition dims_of_list (l : list Z) : dims :=
  (nth 0 l 0%Z, nth 1 l 0%Z, nth 2 l 0%Z).

(** A shape handed to [reshape]; numpy refuses negative extents (a lone
    -1, which it would infer, is not a dimension the toolkit reports). *)
Definition shape_of (l : list Z) : result (list nat) :=
  if forallb (fun z => (0 <=? z)%Z) l then Ok (map Z.to_nat l)
  else raise_lib ValueError.

(** The elements of an (N, 3) array of points in Fortran order: the x
    column, then the y column, then the z column. *)
Definition stack3 (pts : list point) : list Q :=
  map px pts ++ map py pts ++ map pz pts.

Fixpoint zip3 (xs ys zs : list Q) : list point :=
  match xs, ys, zs with
  | x :: xs', y :: ys', z :: zs' => (x, y, z) :: zip3 xs' ys' zs'
  | _, _, _ => []
  end.

(** [a.reshape((-1, 3), order='F')] as a list of rows. *)
Definition unstack3 (l : list Q) : result (list point) :=
  let n := length l / 3 in
  if length l =? 3 * n
  then Ok (zip3 (block n 0 l) (block n 1 l) (block n 2 l))
  else raise_lib ValueError.

(** Modelled from the spec: the property [points_matrix] of the grid class
    (not under src): the points re-indexed into the (i, j, k) lattice,
    Fortran order across i, j, k, the three coordinates along a fourth,
    last axis. *)
Definition points_matrix (g : Grid) : result ndarray :=
  sh <- shape_of (dims_list (dimensions g)) ;;
  reshape_F (sh ++ [3]) (stack3 (points g)).

(** Modelled from the spec: the method [_reshape_point_array] of the grid
    class (not under src): a per-point array in its (i, j, k) lattice
    shape. *)
Definition _reshape_point_array (g : Grid) (array : list Q) : result ndarray :=
  sh <- shape_of (dims_list (dimensions g)) ;;
  reshape_F sh array.

(** Number of cells along an axis with [d] points; a degenerate axis
    contributes a 1. *)
Definition cell_extent (d : Z) : Z :=
  if (d - 1 =? 0)%Z then 1%Z else (d - 1)%Z.

(** Modelled from the spec: the method [_reshape_cell_array] of the grid
    class (not under src): a per-cell array in its lattice shape, one cell
    fewer than points along each axis. *)
Definition _reshape_cell_array (g : Grid) (array : list Q) : result ndarray :=
  sh <- shape_of (map cell_extent (dims_list (dimensions g))) ;;
  reshape_F sh array.

(** Modelled from the spec: the constructor [pyvista.StructuredGrid()]
    (not under src): an empty grid. *)
Definition StructuredGrid_new : Grid :=
  {| dimensions := (0, 0, 0)%Z; points := []; point_arrays := [];
     cell_arrays := []; field_arrays := [] |}.

Definition set_dimensions (l : list Z) (g : Grid) : Grid :=
  {| dimensions := dims_of_list l; points := points g;
     point_arrays := point_arrays g; cell_arrays := cell_arrays g;
     field_arrays := field_arrays g |}.

Definition set_points (p : list point) (g : Grid) : Grid :=
  {| dimensions := dimensions g; points := p;
     point_arrays := point_arrays g; cell_arrays := cell_arrays g;
     field_arrays := field_arrays g |}.

Definition update_point_arrays (d : dict) (g : Grid) : Grid :=
  {| dimensions := dimensions g; points := points g;
     point_arrays := dict_update (point_arrays g) d; cell_arrays := cell_arrays g;
     field_arrays := field_arrays g |}.

Definition update_cell_arrays (d : dict) (g : Grid) : Grid :=
  {| dimensions := dimensions g; points := points g;
     point_arrays := point_arrays g; cell_arrays := dict_update (cell_arrays g) d;
     field_arrays := field_arrays g |}.

(** ** [StructuredGridFilters.concatenate] *)

Definition slice_all : pyslice := {| slice_start := None; slice_stop := None |}.

(** [slice(0, -1, None)]. *)
Definition slice_drop_last : pyslice :=
  {| slice_start := Some 0%Z; slice_stop := Some (-1)%Z |}.

(** The loop over [enumerate(zip(dataset.dimensions, other.dimensions))]. *)
Fixpoint check_dimensions (i : Z) (pairs : list (Z * Z)) (axis : Z) (e : error)
  : result unit :=
  match pairs with
  | [] => Ok tt
  | (dim1, dim2) :: rest =>
      if (i =? axis)%Z then check_dimensions (i + 1) rest axis e
      else if negb (dim1 =? dim2)%Z then Raise e
      else check_dimensions (i + 1) rest axis e
  end.

(** [slice_spec = [slice(None, None, None)] * 3; slice_spec[axis] = slice(0, -1, None)]. *)
Definition make_slice_spec (axis : Z) : result (list pyslice) :=
  i <- normalize_index IndexError 3 axis ;;
  Ok (set_nth i slice_drop_last [slice_all; slice_all; slice_all]).

(** The loop over [dataset.point_arrays.items()]; [acc] is
    [new_point_data]. *)
Fixpoint join_point_arrays (dataset other : Grid) (axis : Z)
    (slice_spec : list pyslice) (items : dict) (acc : dict) : result dict :=
  match items with
  | [] => Ok acc
  | (name, point_array) :: rest =>
      arr_1 <- _reshape_point_array dataset point_array ;;
      other_array <- dict_get (point_arrays other) name ;;
      arr_2 <- _reshape_point_array other other_array ;;
      t1 <- np_take arr_1 (-1) axis ;;
      t2 <- np_take arr_2 0 axis ;;
      if negb (np_array_equal t1 t2) then Raise (SeamFieldMismatch axis name) else
      s1 <- getitem arr_1 slice_spec ;;
      joined <- np_concatenate s1 arr_2 axis ;;
      join_point_arrays dataset other axis slice_spec rest
        (dict_set name (ravel_F joined) acc)
  end.

(** [new_dims = np.array(dataset.dimensions);
     new_dims[axis] += other.dimensions[axis] - 1].  Dimensions are C ints,
    far from the range where the 64-bit addition would wrap. *)
Definition compute_new_dims (d1 d2 : dims) (axis : Z) : result (list Z) :=
  i <- normalize_index IndexError 3 axis ;;
  Ok (set_nth i (nth i (dims_list d1) 0 + (nth i (dims_list d2) 0 - 1))%Z
        (dims_list d1)).

(** The loop over [dataset.cell_arrays.items()]; [acc] is
    [new_cell_data]. *)
Fixpoint join_cell_arrays (dataset other : Grid) (axis : Z)
    (items : dict) (acc : dict) : result dict :=
  match items with
  | [] => Ok acc
  | (name, cell_array) :: rest =>
      arr_1 <- _reshape_cell_array dataset cell_array ;;
      other_array <- dict_get (cell_arrays other) name ;;
      arr_2 <- _reshape_cell_array other other_array ;;
      joined <- np_concatenate arr_1 arr_2 axis ;;
      join_cell_arrays dataset other axis rest
        (dict_set name (ravel_F joined) acc)
  end.

Definition concatenate (dataset other : Grid) (axis : Z) (tolerance : Q)
  : result Grid :=
  if (axis >? 2)%Z then Raise InvalidAxis else
  (* check dimensions are compatible *)
  check_dimensions 0
    (combine (dims_list (dimensions dataset)) (dims_list (dimensions other)))
    axis (DimensionMismatch (dimensions dataset) (dimensions other)) ;;;
  (* check point/cell variables are the same *)
  if negb (key_set_eqb (keys (point_arrays dataset)) (keys (point_arrays other)))
  then Raise PointFieldNameMismatch else
  if negb (key_set_eqb (keys (cell_arrays dataset)) (keys (cell_arrays other)))
  then Raise CellFieldNameMismatch else
  (* check that points are coincident (within tolerance) along seam *)
  pm1 <- points_matrix dataset ;;
  last1 <- np_take pm1 (-1) axis ;;
  pm2 <- points_matrix other ;;
  first2 <- np_take pm2 0 axis ;;
  close <- np_allclose last1 first2 tolerance ;;
  if negb close then Raise (SeamCoincidenceMismatch axis tolerance) else
  (* slice to cut off the repeated grid face *)
  slice_spec <- make_slice_spec axis ;;
  (* concatenate points, cutting off duplicate *)
  s1 <- getitem pm1 slice_spec ;;
  new_points <- np_concatenate s1 pm2 axis ;;
  (* concatenate point arrays, cutting off duplicate *)
  new_point_data <-
    join_point_arrays dataset other axis slice_spec (point_arrays dataset) [] ;;
  new_dims <- compute_new_dims (dimensions dataset) (dimensions other) axis ;;
  (* concatenate cell arrays *)
  new_cell_data <-
    join_cell_arrays dataset other axis (cell_arrays dataset) [] ;;
  (* assemble output *)
  let joined := StructuredGrid_new in
  let joined := set_dimensions new_dims joined in
  pts <- unstack3 (data new_points) ;;
  let joined := set_points pts joined in
  let joined := update_point_arrays new_point_data joined in
  let joined := update_cell_arrays new_cell_data joined in
  Ok joined.

(** ** The data model of the specification *)

(** Number of points along each axis. *)
Definition point_shape (g : Grid) : list nat :=
  map Z.to_nat (dims_list (dimensions g)).

(** Number of cells along each axis. *)
Definition cell_shape (g : Grid) : list nat :=
  map (fun d => Z.to_nat (cell_extent d)) (dims_list (dimensions g)).

Definition n_points (g : Grid) : nat := prod (point_shape g).
Definition n_cells (g : Grid) : nat := prod (cell_shape g).

(** [dimensions[i]]. *)
Definition dim_at (g : Grid) (i : nat) : Z := nth i (dims_list (dimensions g)) 0%Z.

(** The invariant of a grid (specification, section 3): positive
    dimensions, one point per lattice node, one value per point in every
    point field and one value per cell in every cell field; the fields
    are mappings, so no name occurs twice. *)
Record valid_grid (g : Grid) : Prop := mk_valid {
  valid_dims : Forall (fun d => (1 <= d)%Z) (dims_list (dimensions g));
  valid_points : length (points g) = n_points g;
  valid_point_arrays :
    Forall (fun kv => length (snd kv) = n_points g) (point_arrays g);
  valid_cell_arrays :
    Forall (fun kv => length (snd kv) = n_cells g) (cell_arrays g);
  valid_point_names : NoDup (keys (point_arrays g));
  valid_cell_names : NoDup (keys (cell_arrays g))
}.

(** The part of the invariant that concerns the lattice of points. *)
Record valid_point_data (g : Grid) : Prop := mk_valid_point_data {
  lattice_dims : Forall (fun d => (1 <= d)%Z) (dims_list (dimensions g));
  lattice_points : length (points g) = n_points g;
  lattice_point_arrays :
    Forall (fun kv => length (snd kv) = n_points g) (point_arrays g);
  lattice_point_names : NoDup (keys (point_arrays g));
  lattice_cell_names : NoDup (keys (cell_arrays g))
}.

(** The points of the grid whose index along [axis] is [t], in the order
    of the remaining two indices. *)
Definition layer (g : Grid) (axis t : nat) : list point :=
  take_layer (stride (point_shape g) axis) (extent (point_shape g) axis)
    (outer (point_shape g) axis) t (points g).

(** Last layer of points along [axis]. *)
Definition last_layer (g : Grid) (axis : nat) : list point :=
  layer g axis (extent (point_shape g) axis - 1).

(** First layer of points along [axis]. *)
Definition first_layer (g : Grid) (axis : nat) : list point :=
  layer g axis 0.

(** The dimensions agree on every axis but [axis]. *)
Definition dims_compatible (d1 d2 : dims) (axis : Z) : bool :=
  forallb (fun i => (Z.of_nat i =? axis)%Z
                    || (nth i (dims_list d1) 0 =? nth i (dims_list d2) 0)%Z)
    [0; 1; 2].

(** The three coordinates of [p] are close to those of [q]. *)
Definition close3 (atol : Q) (p q : point) : bool :=
  isclose atol (px p) (px q) && isclose atol (py p) (py q)
  && isclose atol (pz p) (pz q).

(** The comparison [concatenate] makes at the seam. *)
Definition seam_close (base other : Grid) (axis : nat) (tolerance : Q) : bool :=
  forallb (fun pq => close3 tolerance (fst pq) (snd pq))
    (combine (last_layer base axis) (first_layer other axis)).

(** The three pairs of corresponding coordinates of two points. *)
Definition coord_pairs (p q : point) : list (Q * Q) :=
  [(px p, px q); (py p, py q); (pz p, pz q)].

(** Every coordinate of every point of the last layer of [base] along
    [axis], paired with the same coordinate of the corresponding point of
    the first layer of [other]. *)
Definition seam_pairs (base other : Grid) (axis : nat) : list (Q * Q) :=
  flat_map (fun pq => coord_pairs (fst pq) (snd pq))
    (combine (last_layer base axis) (first_layer other axis)).

(** A sequence laid out on shape [sh1], without its last layer along
    [axis], followed along that axis by a sequence laid out on [sh2]. *)
Definition join_dropping_seam {A : Type} (sh1 sh2 : list nat) (axis : nat)
    (l1 l2 : list A) : list A :=
  join_layers (stride sh1 axis) (extent sh1 axis - 1) (extent sh2 axis)
    (outer sh1 axis)
    (slice_layers (stride sh1 axis) (extent sh1 axis) (outer sh1 axis)
       0 (extent sh1 axis - 1) l1)
    l2.

(** A sequence laid out on [sh1] followed along [axis] by one laid out on
    [sh2], nothing dropped. *)
Definition join_keeping {A : Type} (sh1 sh2 : list nat) (axis : nat)
    (l1 l2 : list A) : list A :=
  join_layers (stride sh1 axis) (extent sh1 axis) (extent sh2 axis)
    (outer sh1 axis) l1 l2.

(** The values of a named array, [[]] when the name is missing. *)
Definition values (d : dict) (k : string) : list Q :=
  match dict_get d k with
  | Ok v => v
  | Raise _ => []
  end.

(** The values of a point field of [base], given as the item [kv] of its
    dictionary, on the last layer of [base] are equal to the values of the
    field of that name on the first layer of [other]. *)
Definition field_seam_equal (base other : Grid) (axis : nat)
    (kv : string * list Q) : bool :=
  let sh1 := point_shape base in
  let sh2 := point_shape other in
  forallb (fun p => Qeq_bool (fst p) (snd p))
    (combine
       (take_layer (stride sh1 axis) (extent sh1 axis) (outer sh1 axis)
          (extent sh1 axis - 1) (snd kv))
       (take_layer (stride sh2 axis) (extent sh2 axis) (outer sh2 axis)
          0 (values (point_arrays other) (fst kv)))).

(** The grid that joins [base] and [other] along [axis]. *)
Definition merged_grid (base other : Grid) (axis : nat) : Grid :=
  {| dimensions :=
       dims_of_list
         (set_nth axis (dim_at base axis + (dim_at other axis - 1))%Z
            (dims_list (dimensions base)));
     points :=
       join_dropping_seam (point_shape base) (point_shape other) axis
         (points base) (points other);
     point_arrays :=
       map (fun kv =>
              (fst kv,
               join_dropping_seam (point_shape base) (point_shape other) axis
                 (snd kv) (values (point_arrays other) (fst kv))))
         (point_arrays base);
     cell_arrays :=
       map (fun kv =>
              (fst kv,
               join_keeping (cell_shape base) (cell_shape other) axis
                 (snd kv) (values (cell_arrays other) (fst kv))))
         (cell_arrays base);
     field_arrays := [] |}.

(** Layers [lo .. lo + c - 1] along [axis] of a sequence laid out on the
    lattice of points of [G]. *)
Definition sub_layers {A : Type} (G : Grid) (axis lo c : nat) (l : list A) : list A :=
  slice_layers (stride (point_shape G) axis) (extent (point_shape G) axis)
    (outer (point_shape G) axis) lo c l.

(** [d] with [v] along [axis]. *)
Definition with_dim (d : dims) (axis : nat) (v : Z) : dims :=
  dims_of_list (set_nth axis v (dims_list d)).

(** Modelled from the spec: a split of [G] along [axis] into two
    sub-grids that share the layer [seam] (section 8).  In the repository
    the sub-grids come from [extract_subset], which hands the work to the
    external toolkit.  [A] holds the layers [0 .. seam], [B] the layers
    [seam .. n-1], of the points and of every point field; both are grids
    that satisfy the invariant and carry cell fields of the same names. *)
Record is_split (G : Grid) (axis seam : nat) (A B : Grid) : Prop := mk_split {
  split_seam : seam < extent (point_shape G) axis;
  split_dims_A :
    dimensions A = with_dim (dimensions G) axis (Z.of_nat (seam + 1));
  split_dims_B :
    dimensions B
    = with_dim (dimensions G) axis (Z.of_nat (extent (point_shape G) axis - seam));
  split_points_A : points A = sub_layers G axis 0 (seam + 1) (points G);
  split_points_B :
    points B = sub_layers G axis seam (extent (point_shape G) axis - seam) (points G);
  split_point_arrays_A :
    point_arrays A
    = map (fun kv => (fst kv, sub_layers G axis 0 (seam + 1) (snd kv)))
        (point_arrays G);
  split_point_arrays_B :
    point_arrays B
    = map (fun kv =>
             (fst kv,
              sub_layers G axis seam (extent (point_shape G) axis - seam) (snd kv)))
        (point_arrays G);
  split_cell_names :
    forall k, In k (keys (cell_arrays A)) <-> In k (keys (cell_arrays B));
  split_valid_A : valid_grid A;
  split_valid_B : valid_grid B
}.

(** What [concatenate] does on grids that satisfy the invariant, in the
    words of the specification (section 4.1): validate, first violation
    wins, then merge. *)
Definition concatenate_spec (base other : Grid) (axis : nat) (tolerance : Q)
  : result Grid :=
  if negb (dims_compatible (dimensions base) (dimensions other) (Z.of_nat axis))
  then Raise (DimensionMismatch (dimensions base) (dimensions other))
  else if negb (key_set_eqb (keys (point_arrays base)) (keys (point_arrays other)))
  then Raise PointFieldNameMismatch
  else if negb (key_set_eqb (keys (cell_arrays base)) (keys (cell_arrays other)))
  then Raise CellFieldNameMismatch
  else if negb (seam_close base other axis tolerance)
  then Raise (SeamCoincidenceMismatch (Z.of_nat axis) tolerance)
  else
    match find (fun kv => negb (field_seam_equal base other axis kv))
            (point_arrays base) with
    | Some kv => Raise (SeamFieldMismatch (Z.of_nat axis) (fst kv))
    | None => Ok (merged_grid base other axis)
    end.

(** The errors of the specification (section 7); an exception that
    escapes from numpy or from a Python container is not one of them. *)
Definition specified_error (e : error) : Prop :=
  match e with
  | LibraryError _ => False
  | _ => True
  end.

(** The exceptions that come out of numpy or a Python container. *)
Definition is_library_error (e : error) : Prop :=
  match e with
  | LibraryError _ => True
  | _ => False
  end.

(** Where an error of [concatenate] can come from, and what it carries:
    the invalid-axis error means an axis above 2, the dimension error
    carries the dimensions of the two grids, the seam errors carry the axis
    (and the tolerance, or the name of a point field of the base grid). *)
Definition error_context (base other : Grid) (axis : Z) (tolerance : Q)
    (e : error) : Prop :=
  match e with
  | InvalidAxis => (2 < axis)%Z
  | DimensionMismatch d1 d2 =>
      (axis <= 2)%Z /\ d1 = dimensions base /\ d2 = dimensions other
  | SeamCoincidenceMismatch axis' tolerance' =>
      (axis <= 2)%Z /\ axis' = axis /\ tolerance' = tolerance
  | SeamFieldMismatch axis' name =>
      (axis <= 2)%Z /\ axis' = axis /\ In name (keys (point_arrays base))
  | _ => (axis <= 2)%Z
  end.

(** [g] with other grid-level arrays. *)
Definition with_field_arrays (f : dict) (g : Grid) : Grid :=
  {| dimensions := dimensions g; points := points g;
     point_arrays := point_arrays g; cell_arrays := cell_arrays g;
     field_arrays := f |}.

(** [g] with other cell fields. *)
Definition with_cell_arrays (c : dict) (g : Grid) : Grid :=
  {| dimensions := dimensions g; points := points g;
     point_arrays := point_arrays g; cell_arrays := c;
     field_arrays := field_arrays g |}.

(** ** Example grids *)

Definition qpoint (x y z : Z) : point := (inject_Z x, inject_Z y, inject_Z z).

(** The grids A and B of the concrete scenario of the specification
    (section 8), here with a point field and a cell field. *)
Definition grid_A : Grid :=
  {| dimensions := (2, 2, 1)%Z;
     points := [qpoint 0 0 0; qpoint 1 0 0; qpoint 0 1 0; qpoint 1 1 0];
     point_arrays := [("t"%string, [1; 2; 3; 4]%Q)];
     cell_arrays := [("c"%string, [7]%Q)];
     field_arrays := [("note"%string, [42]%Q)] |}.

Definition grid_B : Grid :=
  {| dimensions := (2, 2, 1)%Z;
     points := [qpoint 1 0 0; qpoint 2 0 0; qpoint 1 1 0; qpoint 2 1 0];
     point_arrays := [("t"%string, [2; 5; 4; 6]%Q)];
     cell_arrays := [("c"%string, [8]%Q)];
     field_arrays := [] |}.

Definition grid_AB : Grid :=
  {| dimensions := (3, 2, 1)%Z;
     points := [qpoint 0 0 0; qpoint 1 0 0; qpoint 2 0 0;
                qpoint 0 1 0; qpoint 1 1 0; qpoint 2 1 0];
     point_arrays := [("t"%string, [1; 2; 5; 3; 4; 6]%Q)];
     cell_arrays := [("c"%string, [7; 8]%Q)];
     field_arrays := [] |}.

(** A grid of one point at the origin. *)
Definition grid_origin : Grid :=
  {| dimensions := (1, 1, 1)%Z; points := [qpoint 0 0 0];
     point_arrays := []; cell_arrays := []; field_arrays := [] |}.

(** A grid like [grid_B] with differently named point field and one more
    row of points along the second axis. *)
Definition grid_C : Grid :=
  {| dimensions := (2, 3, 1)%Z;
     points := [qpoint 1 0 0; qpoint 2 0 0; qpoint 1 1 0; qpoint 2 1 0;
                qpoint 1 2 0; qpoint 2 2 0];
     point_arrays := [("u"%string, [2; 5; 4; 6; 8; 9]%Q)];
     cell_arrays := [("c"%string, [8; 9]%Q)];
     field_arrays := [] |}.

(** [grid_A] with the names of [grid_C]: same dimensions as [grid_A],
    another point-field name. *)
Definition grid_D : Grid :=
  {| dimensions := (2, 2, 1)%Z;
     points := points grid_A;
     point_arrays := [("u"%string, [2; 5; 4; 6]%Q)];
     cell_arrays := cell_arrays grid_B;
     field_arrays := [] |}.

(** Two rows of two points, far from the origin; the last point of the
    first row is 1 away from the first point of the second. *)
Definition grid_far_1 : Grid :=
  {| dimensions := (2, 1, 1)%Z;
     points := [qpoint 0 0 0; qpoint 200001 0 0];
     point_arrays := []; cell_arrays := []; field_arrays := [] |}.

Definition grid_far_2 : Grid :=
  {| dimensions := (2, 1, 1)%Z;
     points := [qpoint 200000 0 0; qpoint 400000 0 0];
     point_arrays := []; cell_arrays := []; field_arrays := [] |}.

Definition grid_far_12 : Grid :=
  {| dimensions := (3, 1, 1)%Z;
     points := [qpoint 0 0 0; qpoint 200000 0 0; qpoint 400000 0 0];
     point_arrays := []; cell_arrays := []; field_arrays := [] |}.

(** [grid_A] joined with itself along its degenerate third axis, as
    [concatenate] returns it: two cell values for a grid of one cell. *)
Definition grid_AA : Grid :=
  {| dimensions := (2, 2, 1)%Z;
     points := [qpoint 0 0 0; qpoint 1 0 0; qpoint 0 1 0; qpoint 1 1 0];
     point_arrays := [("t"%string, [1; 2; 3; 4]%Q)];
     cell_arrays := [("c"%string, [7; 7]%Q)];
     field_arrays := [] |}.

(** [grid_B] with its cell field under another name. *)
Definition grid_E : Grid :=
  {| dimensions := (2, 2, 1)%Z;
     points := points grid_B;
     point_arrays := point_arrays grid_B;
     cell_arrays := [("k"%string, [8]%Q)];
     field_arrays := [] |}.

(** [g] with other point and cell fields. *)
Definition with_arrays (p c : dict) (g : Grid) : Grid :=
  {| dimensions := dimensions g; points := points g;
     point_arrays := p; cell_arrays := c;
     field_arrays := field_arrays g |}.

(** Layer [t] along [axis] of a sequence laid out on the shape [sh]. *)
Definition field_layer {A : Type} (sh : list nat) (axis t : nat) (l : list A) : list A :=
  take_layer (stride sh axis) (extent sh axis) (outer sh axis) t l.

(** The conditions under which two grids can be joined along [axis]: the
    five validations of [concatenate], in the order it makes them. *)
Record joinable (base other : Grid) (axis : nat) (tolerance : Q) : Prop := mk_joinable {
  joinable_dims :
    forall i, i < 3 -> i <> axis -> dim_at base i = dim_at other i;
  joinable_point_names :
    forall k, In k (keys (point_arrays base)) <-> In k (keys (point_arrays other));
  joinable_cell_names :
    forall k, In k (keys (cell_arrays base)) <-> In k (keys (cell_arrays other));
  joinable_seam :
    Forall (fun ab => (Qabs (fst ab - snd ab) <= tolerance + rtol * Qabs (snd ab))%Q)
      (seam_pairs base other axis);
  joinable_fields :
    Forall (fun kv => field_seam_equal base other axis kv = true) (point_arrays base)
}.

(** [grid_A] and [grid_B] with three point fields each, in different
    orders; along the first axis the fields [p] and [q] differ at the
    seam, [t] does not. *)
Definition grid_F : Grid :=
  {| dimensions := (2, 2, 1)%Z;
     points := points grid_A;
     point_arrays := [("t"%string, [1; 2; 3; 4]%Q); ("p"%string, [0; 0; 0; 0]%Q);
                      ("q"%string, [0; 9; 0; 9]%Q)];
     cell_arrays := []; field_arrays := [] |}.

Definition grid_G : Grid :=
  {| dimensions := (2, 2, 1)%Z;
     points := points grid_B;
     point_arrays := [("q"%string, [3; 1; 3; 1]%Q); ("t"%string, [2; 5; 4; 6]%Q);
                      ("p"%string, [1; 5; 0; 5]%Q)];
     cell_arrays := []; field_arrays := [] |}.

(** A single column of two points, the first column of [grid_B], with
    its values of the point field [t] and no cell field. *)
Definition grid_column : Grid :=
  {| dimensions := (1, 2, 1)%Z;
     points := [qpoint 1 0 0; qpoint 1 1 0];
     point_arrays := [("t"%string, [2; 4]%Q)];
     cell_arrays := []; field_arrays := [] |}.

(** [grid_B] without its cell field. *)
Definition grid_B0 : Grid := with_arrays (point_arrays grid_B) [] grid_B.

(** [grid_G] with its point fields in yet another order. *)
Definition grid_G' : Grid :=
  with_arrays
    [("p"%string, [1; 5; 0; 5]%Q); ("q"%string, [3; 1; 3; 1]%Q);
     ("t"%string, [2; 5; 4; 6]%Q)]
    [] grid_G.

(** The exceptions of numpy and of list indexing: every library error but
    the missing key of a dictionary. *)
Definition is_array_error (e : error) : Prop :=
  match e with
  | LibraryError KeyError => False
  | LibraryError _ => True
  | _ => False
  end.

(** A third grid that continues [grid_B] along the first axis, and the
    three grids joined. *)
Definition grid_H : Grid :=
  {| dimensions := (2, 2, 1)%Z;
     points := [qpoint 2 0 0; qpoint 3 0 0; qpoint 2 1 0; qpoint 3 1 0];
     point_arrays := [("t"%string, [5; 7; 6; 8]%Q)];
     cell_arrays := [("c"%string, [9]%Q)];
     field_arrays := [] |}.

Definition grid_ABH : Grid :=
  {| dimensions := (4, 2, 1)%Z;
     points := [qpoint 0 0 0; qpoint 1 0 0; qpoint 2 0 0; qpoint 3 0 0;
                qpoint 0 1 0; qpoint 1 1 0; qpoint 2 1 0; qpoint 3 1 0];
     point_arrays := [("t"%string, [1; 2; 5; 7; 3; 4; 6; 8]%Q)];
     cell_arrays := [("c"%string, [7; 8; 9]%Q)];
     field_arrays := [] |}.

(** * Facts *)

(** ** Blocks of a list *)

Section BlockFacts.
Context {A : Type}.
Implicit Types l : list A.

Lemma firstn_add (a b : nat) l :
  firstn (a + b) l = firstn a l ++ firstn b (skipn a l).
Proof.
  revert l; induction a as [|a IH]; intros l; simpl.
  - reflexivity.
  - destruct l as [|x l]; simpl.
    + now rewrite firstn_nil.
    + now rewrite IH.
Qed.

Lemma per_block_S (cnt : nat) (f : nat -> list A) :
  per_block (S cnt) f = per_block cnt f ++ f cnt.
Proof.
  unfold per_block. rewrite seq_S, flat_map_app. simpl.
  now rewrite app_nil_r.
Qed.

Lemma per_block_ext (cnt : nat) (f g : nat -> list A) :
  (forall o, o < cnt -> f o = g o) -> per_block cnt f = per_block cnt g.
Proof.
  induction cnt as [|cnt IH]; intros H.
  - reflexivity.
  - rewrite !per_block_S, IH, H by auto. reflexivity.
Qed.

Lemma per_block_length (cnt m : nat) (f : nat -> list A) :
  (forall o, o < cnt -> length (f o) = m) ->
  length (per_block cnt f) = cnt * m.
Proof.
  induction cnt as [|cnt IH]; intros H.
  - reflexivity.
  - rewrite per_block_S, length_app, IH, H by auto. lia.
Qed.

Lemma block_length (m o : nat) l :
  S o * m <= length l -> length (block m o l) = m.
Proof.
  intros H. unfold block. rewrite length_firstn, length_skipn. lia.
Qed.

Lemma block_app_l (m o : nat) l1 l2 :
  S o * m <= length l1 -> block m o (l1 ++ l2) = block m o l1.
Proof.
  intros H. unfold block.
  rewrite skipn_app, firstn_app, length_skipn.
  replace (m - (length l1 - o * m)) with 0 by lia.
  replace (o * m - length l1) with 0 by lia.
  simpl. now rewrite app_nil_r.
Qed.

Lemma block_app_r (m c o : nat) l1 l2 :
  length l1 = c * m -> block m (c + o) (l1 ++ l2) = block m o l2.
Proof.
  intros H. unfold block.
  rewrite skipn_app.
  rewrite (skipn_all2 l1) by lia. simpl.
  f_equal. f_equal. lia.
Qed.

Lemma block_all (m : nat) l : length l = m -> block m 0 l = l.
Proof.
  intros H. unfold block. simpl. subst m. apply firstn_all.
Qed.

Lemma per_block_blocks_firstn (m cnt : nat) l :
  per_block cnt (fun o => block m o l) = firstn (cnt * m) l.
Proof.
  induction cnt as [|cnt IH].
  - reflexivity.
  - rewrite per_block_S, IH. unfold block.
    replace (S cnt * m) with (cnt * m + m) by lia.
    now rewrite firstn_add.
Qed.

(** Cutting a list into blocks and laying them end to end gives the
    list back. *)
Lemma per_block_blocks (m cnt : nat) l :
  length l = cnt * m -> per_block cnt (fun o => block m o l) = l.
Proof.
  intros H. rewrite per_block_blocks_firstn, <- H. apply firstn_all.
Qed.

(** The blocks of a sequence laid out block by block are the blocks it
    was made of. *)
Lemma block_per_block (m cnt o : nat) (f : nat -> list A) :
  (forall o', o' < cnt -> length (f o') = m) ->
  o < cnt -> block m o (per_block cnt f) = f o.
Proof.
  induction cnt as [|cnt IH]; intros Hlen Ho.
  - lia.
  - rewrite per_block_S.
    assert (Hpre : length (per_block cnt f) = cnt * m)
      by (apply per_block_length; auto).
    destruct (Nat.eq_dec o cnt) as [->|Hne].
    + replace cnt with (cnt + 0) at 1 by lia.
      rewrite block_app_r by assumption.
      apply block_all. apply Hlen. lia.
    + rewrite block_app_l.
      * apply IH; [auto | lia].
      * rewrite Hpre. nia.
Qed.

Lemma per_block_add (c1 c2 : nat) (f : nat -> list A) :
  per_block (c1 + c2) f = per_block c1 f ++ per_block c2 (fun o => f (c1 + o)).
Proof.
  induction c2 as [|c2 IH].
  - rewrite Nat.add_0_r. simpl. now rewrite app_nil_r.
  - rewrite Nat.add_succ_r, !per_block_S, IH. now rewrite app_assoc.
Qed.
End BlockFacts.

Lemma map_block {A B : Type} (f : A -> B) (m o : nat) (l : list A) :
  map f (block m o l) = block m o (map f l).
Proof.
  unfold block. now rewrite <- firstn_map, <- skipn_map.
Qed.

Lemma map_per_block {A B : Type} (f : A -> B) (cnt : nat) (g : nat -> list A) :
  map f (per_block cnt g) = per_block cnt (fun o => map f (g o)).
Proof.
  induction cnt as [|cnt IH].
  - reflexivity.
  - now rewrite !per_block_S, map_app, IH.
Qed.

(** ** Layers *)

Section LayerFacts.
Context {A : Type}.
Implicit Types l : list A.

Variables s cnt : nat.

Lemma sub_block_length (n o : nat) l :
  length l = cnt * (s * n) -> o < cnt -> length (block (s * n) o l) = s * n.
Proof.
  intros H Ho. apply block_length. rewrite H. nia.
Qed.

Lemma take_layer_length (n t : nat) l :
  length l = cnt * (s * n) -> t < n ->
  length (take_layer s n cnt t l) = cnt * s.
Proof.
  intros H Ht. apply per_block_length. intros o Ho.
  apply block_length. rewrite sub_block_length by assumption. nia.
Qed.

Lemma slice_layers_length (n lo c : nat) l :
  length l = cnt * (s * n) -> lo + c <= n ->
  length (slice_layers s n cnt lo c l) = cnt * (s * c).
Proof.
  intros H Hc. apply per_block_length. intros o Ho.
  rewrite length_firstn, length_skipn, sub_block_length by assumption. nia.
Qed.

Lemma join_layers_length (n1 n2 : nat) l1 l2 :
  length l1 = cnt * (s * n1) -> length l2 = cnt * (s * n2) ->
  length (join_layers s n1 n2 cnt l1 l2) = cnt * (s * (n1 + n2)).
Proof.
  intros H1 H2. apply per_block_length. intros o Ho.
  rewrite length_app, !sub_block_length by assumption. lia.
Qed.

(** The slice [:] keeps every layer. *)
Lemma slice_layers_all (n : nat) l :
  length l = cnt * (s * n) -> slice_layers s n cnt 0 n l = l.
Proof.
  intros H. unfold slice_layers.
  transitivity (per_block cnt (fun o => block (s * n) o l)).
  - apply per_block_ext. intros o Ho. simpl.
    rewrite firstn_all2; [reflexivity|].
    rewrite sub_block_length by assumption. lia.
  - apply per_block_blocks. lia.
Qed.

Lemma block_join_layers (n1 n2 o : nat) l1 l2 :
  length l1 = cnt * (s * n1) -> length l2 = cnt * (s * n2) -> o < cnt ->
  block (s * (n1 + n2)) o (join_layers s n1 n2 cnt l1 l2)
  = block (s * n1) o l1 ++ block (s * n2) o l2.
Proof.
  intros H1 H2 Ho. unfold join_layers.
  apply (block_per_block (s * (n1 + n2)) cnt o
           (fun o => block (s * n1) o l1 ++ block (s * n2) o l2)); [|assumption].
  intros o' Ho'. rewrite length_app, !sub_block_length by assumption. lia.
Qed.

Lemma block_slice_layers (n lo c o : nat) l :
  length l = cnt * (s * n) -> lo + c <= n -> o < cnt ->
  block (s * c) o (slice_layers s n cnt lo c l)
  = firstn (c * s) (skipn (lo * s) (block (s * n) o l)).
Proof.
  intros H Hc Ho. unfold slice_layers.
  apply (block_per_block (s * c) cnt o
           (fun o => firstn (c * s) (skipn (lo * s) (block (s * n) o l))));
    [|assumption].
  intros o' Ho'.
  rewrite length_firstn, length_skipn, sub_block_length by assumption. nia.
Qed.

(** A layer of the first part of a join is a layer of the first
    operand. *)
Lemma take_layer_join_l (n1 n2 t : nat) l1 l2 :
  length l1 = cnt * (s * n1) -> length l2 = cnt * (s * n2) -> t < n1 ->
  take_layer s (n1 + n2) cnt t (join_layers s n1 n2 cnt l1 l2)
  = take_layer s n1 cnt t l1.
Proof.
  intros H1 H2 Ht. apply per_block_ext. intros o Ho.
  rewrite block_join_layers by assumption.
  apply block_app_l. rewrite sub_block_length by assumption. nia.
Qed.

(** A layer of the second part of a join is a layer of the second
    operand. *)
Lemma take_layer_join_r (n1 n2 t : nat) l1 l2 :
  length l1 = cnt * (s * n1) -> length l2 = cnt * (s * n2) ->
  take_layer s (n1 + n2) cnt (n1 + t) (join_layers s n1 n2 cnt l1 l2)
  = take_layer s n2 cnt t l2.
Proof.
  intros H1 H2. apply per_block_ext. intros o Ho.
  rewrite block_join_layers by assumption.
  apply block_app_r. rewrite sub_block_length by assumption. lia.
Qed.

Lemma take_layer_slice (n lo c t : nat) l :
  length l = cnt * (s * n) -> lo + c <= n -> t < c ->
  take_layer s c cnt t (slice_layers s n cnt lo c l)
  = take_layer s n cnt (lo + t) l.
Proof.
  intros H Hc Ht. apply per_block_ext. intros o Ho.
  rewrite block_slice_layers by assumption.
  unfold block at 1 3.
  rewrite skipn_firstn_comm, firstn_firstn, skipn_skipn.
  replace (Nat.min s (c * s - t * s)) with s by nia.
  f_equal. f_equal. lia.
Qed.

Lemma slice_layers_slice (n lo1 c1 lo2 c2 : nat) l :
  length l = cnt * (s * n) -> lo1 + c1 <= n -> lo2 + c2 <= c1 ->
  slice_layers s c1 cnt lo2 c2 (slice_layers s n cnt lo1 c1 l)
  = slice_layers s n cnt (lo1 + lo2) c2 l.
Proof.
  intros H Hc1 Hc2. apply per_block_ext. intros o Ho.
  rewrite block_slice_layers by assumption.
  rewrite skipn_firstn_comm, firstn_firstn, skipn_skipn.
  replace (Nat.min (c2 * s) (c1 * s - lo2 * s)) with (c2 * s) by nia.
  f_equal. f_equal. lia.
Qed.

(** Cutting every block at layer [lo] and joining the two parts gives
    the sequence back. *)
Lemma join_layers_split (n lo : nat) l :
  length l = cnt * (s * n) -> lo <= n ->
  join_layers s lo (n - lo) cnt
    (slice_layers s n cnt 0 lo l) (slice_layers s n cnt lo (n - lo) l)
  = l.
Proof.
  intros H Hlo. unfold join_layers.
  transitivity (per_block cnt (fun o => block (s * n) o l)).
  - apply per_block_ext. intros o Ho.
    rewrite !block_slice_layers by (assumption || lia).
    simpl skipn.
    rewrite (firstn_all2 (n:=(n - lo) * s)).
    + apply firstn_skipn.
    + rewrite length_skipn, sub_block_length by assumption. nia.
  - apply per_block_blocks. lia.
Qed.
End LayerFacts.

(** ** Layers of mapped and of stacked sequences *)

Lemma per_block_app_blocks {A B : Type} (G : list A -> list B)
    (m c1 c2 : nat) (l1 l2 : list A) :
  length l1 = c1 * m ->
  per_block (c1 + c2) (fun o => G (block m o (l1 ++ l2)))
  = per_block c1 (fun o => G (block m o l1))
    ++ per_block c2 (fun o => G (block m o l2)).
Proof.
  intros H. rewrite per_block_add. f_equal.
  - apply per_block_ext. intros o Ho. f_equal.
    apply block_app_l. rewrite H. nia.
  - apply per_block_ext. intros o Ho. f_equal.
    now apply block_app_r.
Qed.

Section LayerMaps.
Context {A B : Type}.
Variable f : A -> B.
Variables s cnt : nat.

Lemma take_layer_map (n t : nat) (l : list A) :
  take_layer s n cnt t (map f l) = map f (take_layer s n cnt t l).
Proof.
  unfold take_layer. rewrite map_per_block.
  apply per_block_ext. intros o _. now rewrite !map_block.
Qed.

Lemma slice_layers_map (n lo c : nat) (l : list A) :
  slice_layers s n cnt lo c (map f l) = map f (slice_layers s n cnt lo c l).
Proof.
  unfold slice_layers. rewrite map_per_block.
  apply per_block_ext. intros o _.
  now rewrite <- firstn_map, <- skipn_map, map_block.
Qed.

Lemma join_layers_map (n1 n2 : nat) (l1 l2 : list A) :
  join_layers s n1 n2 cnt (map f l1) (map f l2)
  = map f (join_layers s n1 n2 cnt l1 l2).
Proof.
  unfold join_layers. rewrite map_per_block.
  apply per_block_ext. intros o _. now rewrite map_app, !map_block.
Qed.
End LayerMaps.

Section LayerApp.
Context {A : Type}.
Variables s c1 c2 : nat.

Lemma take_layer_app (n t : nat) (l1 l2 : list A) :
  length l1 = c1 * (s * n) ->
  take_layer s n (c1 + c2) t (l1 ++ l2)
  = take_layer s n c1 t l1 ++ take_layer s n c2 t l2.
Proof.
  intros H. unfold take_layer.
  now rewrite (per_block_app_blocks (block s t)).
Qed.

Lemma slice_layers_app (n lo c : nat) (l1 l2 : list A) :
  length l1 = c1 * (s * n) ->
  slice_layers s n (c1 + c2) lo c (l1 ++ l2)
  = slice_layers s n c1 lo c l1 ++ slice_layers s n c2 lo c l2.
Proof.
  intros H. unfold slice_layers.
  now rewrite (per_block_app_blocks (fun b => firstn (c * s) (skipn (lo * s) b))).
Qed.

Lemma join_layers_app (n1 n2 : nat) (a1 a2 b1 b2 : list A) :
  length a1 = c1 * (s * n1) -> length b1 = c1 * (s * n2) ->
  join_layers s n1 n2 (c1 + c2) (a1 ++ a2) (b1 ++ b2)
  = join_layers s n1 n2 c1 a1 b1 ++ join_layers s n1 n2 c2 a2 b2.
Proof.
  intros Ha Hb. unfold join_layers. rewrite per_block_add. f_equal.
  - apply per_block_ext. intros o Ho.
    rewrite !block_app_l; [reflexivity | rewrite Hb; nia | rewrite Ha; nia].
  - apply per_block_ext. intros o Ho.
    now rewrite !block_app_r.
Qed.
End LayerApp.

Lemma stack3_length (pts : list point) : length (stack3 pts) = 3 * length pts.
Proof.
  unfold stack3. rewrite !length_app, !length_map. lia.
Qed.

Section Stack3.
Variables s cnt : nat.

Lemma take_layer_stack3 (n t : nat) (pts : list point) :
  length pts = cnt * (s * n) ->
  take_layer s n (cnt + (cnt + cnt)) t (stack3 pts)
  = stack3 (take_layer s n cnt t pts).
Proof.
  intros H. unfold stack3.
  rewrite !take_layer_app by (rewrite length_map; assumption).
  now rewrite !take_layer_map.
Qed.

Lemma slice_layers_stack3 (n lo c : nat) (pts : list point) :
  length pts = cnt * (s * n) ->
  slice_layers s n (cnt + (cnt + cnt)) lo c (stack3 pts)
  = stack3 (slice_layers s n cnt lo c pts).
Proof.
  intros H. unfold stack3.
  rewrite !slice_layers_app by (rewrite length_map; assumption).
  now rewrite !slice_layers_map.
Qed.

Lemma join_layers_stack3 (n1 n2 : nat) (p1 p2 : list point) :
  length p1 = cnt * (s * n1) -> length p2 = cnt * (s * n2) ->
  join_layers s n1 n2 (cnt + (cnt + cnt)) (stack3 p1) (stack3 p2)
  = stack3 (join_layers s n1 n2 cnt p1 p2).
Proof.
  intros H1 H2. unfold stack3.
  rewrite !join_layers_app by (rewrite length_map; assumption).
  now rewrite !join_layers_map.
Qed.
End Stack3.

Lemma zip3_map (pts : list point) :
  zip3 (map px pts) (map py pts) (map pz pts) = pts.
Proof.
  induction pts as [|[[x y] z] pts IH]; simpl.
  - reflexivity.
  - now rewrite IH.
Qed.

(** Re-indexing the points into the lattice and back returns them. *)
Lemma unstack3_stack3 (pts : list point) : unstack3 (stack3 pts) = Ok pts.
Proof.
  unfold unstack3. rewrite stack3_length.
  replace (3 * length pts / 3) with (length pts)
    by (rewrite Nat.mul_comm, Nat.div_mul; lia).
  rewrite Nat.eqb_refl. f_equal.
  unfold stack3.
  rewrite block_app_l by (rewrite length_map; lia).
  rewrite block_all by apply length_map.
  replace 1 with (1 + 0) at 1 by lia.
  rewrite (block_app_r (length pts) 1 0) by (rewrite length_map; lia).
  rewrite block_app_l by (rewrite length_map; lia).
  rewrite block_all by apply length_map.
  rewrite app_assoc.
  replace 2 with (2 + 0) at 1 by lia.
  rewrite (block_app_r (length pts) 2 0)
    by (rewrite length_app, !length_map; lia).
  rewrite block_all by apply length_map.
  apply zip3_map.
Qed.

(** ** Shapes and indices *)

Lemma normalize_index_nat (e : library_error) (n a : nat) :
  a < n -> normalize_index e n (Z.of_nat a) = Ok a.
Proof.
  intros H. unfold normalize_index.
  replace ((0 <=? Z.of_nat a)%Z && (Z.of_nat a <? Z.of_nat n)%Z) with true.
  - now rewrite Nat2Z.id.
  - symmetry. apply andb_true_iff. split; [apply Z.leb_le | apply Z.ltb_lt]; lia.
Qed.

Lemma normalize_index_last (e : library_error) (n : nat) :
  1 <= n -> normalize_index e n (-1) = Ok (n - 1).
Proof.
  intros H. unfold normalize_index.
  change (0 <=? -1)%Z with false. change (-1 <? 0)%Z with true.
  cbn [andb].
  destruct (Z.leb_spec (- Z.of_nat n) (-1)); [|exfalso; lia].
  cbn [andb]. f_equal. lia.
Qed.

Lemma prod_app (l1 l2 : list nat) : prod (l1 ++ l2) = prod l1 * prod l2.
Proof.
  induction l1 as [|x l1 IH]; simpl.
  - lia.
  - rewrite IH. lia.
Qed.

Lemma shape_split (sh : list nat) (a : nat) :
  a < length sh -> sh = firstn a sh ++ extent sh a :: skipn (S a) sh.
Proof.
  revert sh; induction a as [|a IH]; intros [|x sh] H; simpl in *; try lia.
  - reflexivity.
  - f_equal. apply IH. lia.
Qed.

(** The number of elements, seen from an axis: blocks of layers. *)
Lemma prod_axis (sh : list nat) (a : nat) :
  a < length sh -> prod sh = outer sh a * (stride sh a * extent sh a).
Proof.
  intros H. rewrite (shape_split sh a H) at 1.
  rewrite prod_app. unfold stride, outer. simpl. lia.
Qed.

Lemma stride_app (sh c : list nat) (a : nat) :
  a <= length sh -> stride (sh ++ c) a = stride sh a.
Proof.
  intros H. unfold stride. rewrite firstn_app.
  replace (a - length sh) with 0 by lia. simpl. now rewrite app_nil_r.
Qed.

Lemma extent_app (sh c : list nat) (a : nat) :
  a < length sh -> extent (sh ++ c) a = extent sh a.
Proof.
  intros H. unfold extent. now apply app_nth1.
Qed.

Lemma outer_app (sh c : list nat) (a : nat) :
  a < length sh -> outer (sh ++ c) a = outer sh a * prod c.
Proof.
  intros H. unfold outer. rewrite skipn_app, prod_app.
  replace (S a - length sh) with 0 by lia. reflexivity.
Qed.

Section SetNth.
Context {A : Type}.

Lemma length_set_nth (a : nat) (v : A) (l : list A) :
  a < length l -> length (set_nth a v l) = length l.
Proof.
  intros H. unfold set_nth.
  rewrite length_app, length_firstn, length_cons, length_skipn. lia.
Qed.

Lemma firstn_set_nth (a : nat) (v : A) (l : list A) :
  a <= length l -> firstn a (set_nth a v l) = firstn a l.
Proof.
  intros H. unfold set_nth. rewrite firstn_app, length_firstn.
  replace (a - Nat.min a (length l)) with 0 by lia.
  simpl. rewrite app_nil_r. rewrite firstn_firstn. f_equal. lia.
Qed.

Lemma skipn_set_nth (a : nat) (v : A) (l : list A) :
  a <= length l -> skipn (S a) (set_nth a v l) = skipn (S a) l.
Proof.
  intros H. unfold set_nth. rewrite skipn_app, length_firstn.
  replace (S a - Nat.min a (length l)) with 1 by lia.
  rewrite skipn_all2 by (rewrite length_firstn; lia). reflexivity.
Qed.

Lemma nth_set_nth (a : nat) (v d : A) (l : list A) :
  a <= length l -> nth a (set_nth a v l) d = v.
Proof.
  intros H. unfold set_nth. rewrite app_nth2; rewrite length_firstn.
  - replace (a - Nat.min a (length l)) with 0 by lia. reflexivity.
  - lia.
Qed.

Lemma nth_set_nth_other (a i : nat) (v d : A) (l : list A) :
  a < length l -> i <> a -> nth i (set_nth a v l) d = nth i l d.
Proof.
  intros H Hi. unfold set_nth.
  destruct (Nat.lt_ge_cases i a) as [Hlt|Hge].
  - rewrite app_nth1 by (rewrite length_firstn; lia).
    rewrite nth_firstn.
    destruct (Nat.ltb_spec i a); [reflexivity | lia].
  - rewrite app_nth2 by (rewrite length_firstn; lia).
    rewrite length_firstn.
    replace (i - Nat.min a (length l)) with (S (i - S a)) by lia.
    cbn [nth]. rewrite nth_skipn. f_equal. lia.
Qed.

Lemma set_nth_set_nth (a : nat) (v w : A) (l : list A) :
  a <= length l -> set_nth a w (set_nth a v l) = set_nth a w l.
Proof.
  intros H. unfold set_nth at 1 3.
  now rewrite firstn_set_nth, skipn_set_nth.
Qed.
End SetNth.

(** ** numpy operations on well-shaped arrays *)

Lemma list_eqb_refl (l : list nat) : list_eqb l l = true.
Proof.
  unfold list_eqb. destruct (list_eq_dec Nat.eq_dec l l); congruence.
Qed.

Lemma list_eqb_eq (l1 l2 : list nat) : list_eqb l1 l2 = true -> l1 = l2.
Proof.
  unfold list_eqb. destruct (list_eq_dec Nat.eq_dec l1 l2); congruence.
Qed.

Section ArrayFacts.
Variable arr : ndarray.
Variable a : nat.
Hypothesis Ha : a < ndim arr.

Let s := stride (shape arr) a.
Let n := extent (shape arr) a.
Let cnt := outer (shape arr) a.

Lemma well_shaped_blocks :
  well_shaped arr -> length (data arr) = cnt * (s * n).
Proof.
  unfold well_shaped. intros ->. now apply prod_axis.
Qed.

Lemma np_take_last :
  1 <= n ->
  np_take arr (-1) (Z.of_nat a)
  = Ok {| shape := firstn a (shape arr) ++ skipn (S a) (shape arr);
          data := take_layer s n cnt (n - 1) (data arr) |}.
Proof.
  intros Hn. unfold np_take.
  rewrite normalize_index_nat by assumption. cbn [bind].
  rewrite normalize_index_last by assumption. reflexivity.
Qed.

Lemma np_take_first :
  1 <= n ->
  np_take arr 0 (Z.of_nat a)
  = Ok {| shape := firstn a (shape arr) ++ skipn (S a) (shape arr);
          data := take_layer s n cnt 0 (data arr) |}.
Proof.
  intros Hn. unfold np_take.
  rewrite normalize_index_nat by assumption. cbn [bind].
  rewrite (normalize_index_nat IndexError _ 0) by assumption. reflexivity.
Qed.

Lemma slice_axis_all : well_shaped arr -> slice_axis arr a slice_all = arr.
Proof.
  intros Hw. unfold slice_axis, slice_lo, slice_hi. cbn [slice_start slice_stop slice_all].
  rewrite Nat.sub_0_r.
  rewrite slice_layers_all by now apply well_shaped_blocks.
  unfold set_nth. rewrite <- shape_split by assumption.
  now destruct arr.
Qed.

Lemma slice_axis_drop_last :
  slice_axis arr a slice_drop_last
  = {| shape := set_nth a (n - 1) (shape arr);
       data := slice_layers s n cnt 0 (n - 1) (data arr) |}.
Proof.
  unfold slice_axis, slice_lo, slice_hi, clamp_bound.
  cbn [slice_start slice_stop slice_drop_last].
  change (0 <? 0)%Z with false. change (-1 <? 0)%Z with true. cbn iota.
  change (Z.to_nat 0) with 0. rewrite Nat.min_0_l, Nat.sub_0_r.
  fold n. replace (Z.to_nat (-1 + Z.of_nat n)) with (n - 1) by lia.
  reflexivity.
Qed.

Lemma well_shaped_drop_last :
  well_shaped arr -> well_shaped (slice_axis arr a slice_drop_last).
Proof.
  intros Hw. rewrite slice_axis_drop_last. unfold well_shaped. cbn [data shape].
  rewrite slice_layers_length by (try apply well_shaped_blocks; auto; lia).
  rewrite (prod_axis (set_nth a (n - 1) (shape arr)) a)
    by (rewrite length_set_nth; assumption).
  unfold outer, stride, extent.
  rewrite skipn_set_nth, firstn_set_nth, nth_set_nth by (unfold ndim in Ha; lia).
  reflexivity.
Qed.
End ArrayFacts.

Lemma ndim_slice_axis (arr : ndarray) (a : nat) (sl : pyslice) :
  a < ndim arr -> ndim (slice_axis arr a sl) = ndim arr.
Proof.
  intros H. unfold ndim, slice_axis. cbn [shape]. now apply length_set_nth.
Qed.

(** Indexing with the slices of [make_slice_spec] cuts the last layer off
    along the axis and nothing else. *)
Lemma getitem_slice_spec (arr : ndarray) (a : nat) :
  well_shaped arr -> 3 <= ndim arr -> a < 3 ->
  getitem arr (set_nth a slice_drop_last [slice_all; slice_all; slice_all])
  = Ok (slice_axis arr a slice_drop_last).
Proof.
  intros Hw Hd Ha. unfold getitem.
  assert (H0 : (0 <? ndim arr) = true) by (apply Nat.ltb_lt; lia).
  assert (H1 : (1 <? ndim arr) = true) by (apply Nat.ltb_lt; lia).
  assert (H2 : (2 <? ndim arr) = true) by (apply Nat.ltb_lt; lia).
  destruct a as [|[|[|a]]]; [| | |lia]; cbn [set_nth firstn skipn app getitem_from].
  - rewrite H0, ndim_slice_axis, H1 by lia.
    rewrite (slice_axis_all (slice_axis arr 0 slice_drop_last))
      by (try apply well_shaped_drop_last; try rewrite ndim_slice_axis; auto; lia).
    rewrite ndim_slice_axis, H2 by lia.
    rewrite (slice_axis_all (slice_axis arr 0 slice_drop_last))
      by (try apply well_shaped_drop_last; try rewrite ndim_slice_axis; auto; lia).
    reflexivity.
  - rewrite H0, slice_axis_all, H1 by (auto; lia).
    rewrite ndim_slice_axis, H2 by lia.
    rewrite (slice_axis_all (slice_axis arr 1 slice_drop_last))
      by (try apply well_shaped_drop_last; try rewrite ndim_slice_axis; auto; lia).
    reflexivity.
  - rewrite H0, slice_axis_all, H1, slice_axis_all, H2 by (auto; lia).
    reflexivity.
Qed.

Lemma np_concatenate_ok (a1 a2 : ndarray) (ax : nat) :
  ndim a1 = ndim a2 -> ax < ndim a1 ->
  firstn ax (shape a1) = firstn ax (shape a2) ->
  skipn (S ax) (shape a1) = skipn (S ax) (shape a2) ->
  np_concatenate a1 a2 (Z.of_nat ax)
  = Ok {| shape := set_nth ax (extent (shape a1) ax + extent (shape a2) ax) (shape a1);
          data := join_layers (stride (shape a1) ax) (extent (shape a1) ax)
                    (extent (shape a2) ax) (outer (shape a1) ax)
                    (data a1) (data a2) |}.
Proof.
  intros Hd Hax Hf Hs. unfold np_concatenate.
  destruct (Nat.eqb_spec (ndim a1) 0); [lia|].
  rewrite normalize_index_nat by assumption. cbn [bind].
  rewrite <- Hd, Nat.eqb_refl. cbn [negb].
  unfold set_nth at 1 2. rewrite Hf, Hs, list_eqb_refl. reflexivity.
Qed.

(** ** Dictionaries *)

Lemma mem_key_In (k : string) (l : list string) : mem_key k l = true <-> In k l.
Proof.
  unfold mem_key. rewrite existsb_exists. split.
  - intros [x [Hx Hk]]. apply String.eqb_eq in Hk. now subst.
  - intros H. exists k. split; [assumption | apply String.eqb_refl].
Qed.

(** [key_set_eqb] is equality of the two sets of names. *)
Lemma key_set_eqb_spec (l1 l2 : list string) :
  key_set_eqb l1 l2 = true <-> (forall k, In k l1 <-> In k l2).
Proof.
  unfold key_set_eqb. rewrite andb_true_iff, !forallb_forall. split.
  - intros [H1 H2] k. split; intros H.
    + apply mem_key_In. now apply H1.
    + apply mem_key_In. now apply H2.
  - intros H. split; intros k Hk; apply mem_key_In; now apply H.
Qed.

Lemma dict_get_In (d : dict) (k : string) :
  In k (keys d) -> exists v, dict_get d k = Ok v /\ In (k, v) d.
Proof.
  induction d as [|[k' v'] d IH]; simpl; intros H.
  - contradiction.
  - destruct (String.eqb_spec k' k) as [->|Hne].
    + exists v'. auto.
    + destruct H as [H|H]; [contradiction|].
      destruct (IH H) as [v [Hv Hin]]. exists v. auto.
Qed.

Lemma dict_set_new (k : string) (v : list Q) (d : dict) :
  ~ In k (keys d) -> dict_set k v d = d ++ [(k, v)].
Proof.
  induction d as [|[k' v'] d IH]; simpl; intros H.
  - reflexivity.
  - destruct (String.eqb_spec k' k) as [->|Hne].
    + exfalso. auto.
    + rewrite IH by auto. reflexivity.
Qed.

Lemma keys_app (d1 d2 : dict) : keys (d1 ++ d2) = keys d1 ++ keys d2.
Proof. apply map_app. Qed.

(** Updating an empty dictionary with a dictionary gives that
    dictionary. *)
Lemma dict_update_from (acc d : dict) :
  NoDup (keys (acc ++ d)) -> dict_update acc d = acc ++ d.
Proof.
  revert acc; induction d as [|[k v] d IH]; intros acc H; unfold dict_update; simpl.
  - now rewrite app_nil_r.
  - rewrite dict_set_new.
    + change (dict_update (acc ++ [(k, v)]) d = acc ++ (k, v) :: d).
      rewrite IH; rewrite <- app_assoc; [reflexivity | assumption].
    + rewrite keys_app in H. simpl in H. apply NoDup_remove_2 in H.
      intros Hin. apply H. apply in_or_app. now left.
Qed.

(** ** Grids that satisfy the invariant *)

Lemma length_point_shape (g : Grid) : length (point_shape g) = 3.
Proof.
  unfold point_shape. now destruct (dimensions g) as [[? ?] ?].
Qed.

Lemma length_cell_shape (g : Grid) : length (cell_shape g) = 3.
Proof.
  unfold cell_shape. now destruct (dimensions g) as [[? ?] ?].
Qed.

Lemma cell_extent_pos (d : Z) : (1 <= d)%Z -> (1 <= cell_extent d)%Z.
Proof.
  intros H. unfold cell_extent. destruct (Z.eqb_spec (d - 1) 0); lia.
Qed.

Lemma shape_of_nonneg (l : list Z) :
  Forall (fun d => (0 <= d)%Z) l -> shape_of l = Ok (map Z.to_nat l).
Proof.
  intros H. unfold shape_of.
  replace (forallb (fun z => (0 <=? z)%Z) l) with true; [reflexivity|].
  symmetry. apply forallb_forall. rewrite Forall_forall in H.
  intros z Hz. apply Z.leb_le. now apply H.
Qed.

Section ValidGrid.
Variable g : Grid.
Hypothesis Hv : valid_grid g.

Lemma shape_of_dimensions :
  shape_of (dims_list (dimensions g)) = Ok (point_shape g).
Proof.
  apply shape_of_nonneg. eapply Forall_impl; [|apply (valid_dims g Hv)].
  simpl. intros; lia.
Qed.

Lemma shape_of_cell_dimensions :
  shape_of (map cell_extent (dims_list (dimensions g))) = Ok (cell_shape g).
Proof.
  unfold cell_shape.
  rewrite <- (map_map cell_extent Z.to_nat). apply shape_of_nonneg.
  apply Forall_map. eapply Forall_impl; [|apply (valid_dims g Hv)].
  simpl. intros d Hd. apply cell_extent_pos in Hd. lia.
Qed.

Lemma extent_point_shape (a : nat) :
  a < 3 -> Z.of_nat (extent (point_shape g) a) = dim_at g a /\ 1 <= extent (point_shape g) a.
Proof.
  intros Ha. pose proof (valid_dims g Hv) as Hd.
  unfold extent, point_shape, dim_at.
  destruct (dimensions g) as [[dx dy] dz]. simpl in *.
  inversion_clear Hd as [|? ? Hx Hd']. inversion_clear Hd' as [|? ? Hy Hd''].
  inversion_clear Hd'' as [|? ? Hz _].
  destruct a as [|[|[|a]]]; simpl; lia.
Qed.

Lemma extent_cell_shape (a : nat) : a < 3 -> 1 <= extent (cell_shape g) a.
Proof.
  intros Ha. pose proof (valid_dims g Hv) as Hd.
  unfold extent, cell_shape.
  destruct (dimensions g) as [[dx dy] dz]. simpl in *.
  inversion_clear Hd as [|? ? Hx Hd']. inversion_clear Hd' as [|? ? Hy Hd''].
  inversion_clear Hd'' as [|? ? Hz _].
  apply cell_extent_pos in Hx, Hy, Hz.
  destruct a as [|[|[|a]]]; simpl; lia.
Qed.

Lemma points_matrix_valid :
  points_matrix g
  = Ok {| shape := point_shape g ++ [3]; data := stack3 (points g) |}.
Proof.
  unfold points_matrix. rewrite shape_of_dimensions. cbn [bind].
  unfold reshape_F.
  rewrite stack3_length, prod_app, (valid_points g Hv). unfold n_points.
  replace (3 * prod (point_shape g) =? prod (point_shape g) * prod [3]) with true;
    [reflexivity|].
  symmetry. apply Nat.eqb_eq. simpl. lia.
Qed.

Lemma reshape_point_array_valid (v : list Q) :
  length v = n_points g ->
  _reshape_point_array g v = Ok {| shape := point_shape g; data := v |}.
Proof.
  intros H. unfold _reshape_point_array. rewrite shape_of_dimensions. cbn [bind].
  unfold reshape_F. rewrite H. unfold n_points. now rewrite Nat.eqb_refl.
Qed.

Lemma reshape_cell_array_valid (v : list Q) :
  length v = n_cells g ->
  _reshape_cell_array g v = Ok {| shape := cell_shape g; data := v |}.
Proof.
  intros H. unfold _reshape_cell_array. rewrite shape_of_cell_dimensions. cbn [bind].
  unfold reshape_F. rewrite H. unfold n_cells. now rewrite Nat.eqb_refl.
Qed.
End ValidGrid.

(** ** The dimension check *)

(** The loop over the zipped dimensions accepts exactly the pairs of
    dimension triples that agree off the axis. *)
Lemma check_dimensions_spec (d1 d2 : dims) (axis : Z) (e : error) :
  check_dimensions 0 (combine (dims_list d1) (dims_list d2)) axis e
  = if dims_compatible d1 d2 axis then Ok tt else Raise e.
Proof.
  destruct d1 as [[x1 y1] z1], d2 as [[x2 y2] z2].
  unfold dims_compatible. cbn -[Z.eqb].
  destruct (0 =? axis)%Z, (1 =? axis)%Z, (2 =? axis)%Z,
    (x1 =? x2)%Z, (y1 =? y2)%Z, (z1 =? z2)%Z; reflexivity.
Qed.

Lemma dims_compatible_nth (d1 d2 : dims) (axis : Z) :
  dims_compatible d1 d2 axis = true <->
  (forall i, i < 3 -> Z.of_nat i <> axis ->
             nth i (dims_list d1) 0%Z = nth i (dims_list d2) 0%Z).
Proof.
  unfold dims_compatible. rewrite forallb_forall. split.
  - intros H i Hi Hne.
    assert (Hin : In i [0; 1; 2]) by (simpl; lia).
    specialize (H i Hin). apply orb_true_iff in H.
    destruct H as [H|H]; [apply Z.eqb_eq in H; contradiction | now apply Z.eqb_eq].
  - intros H i Hin. apply orb_true_iff.
    destruct (Z.eq_dec (Z.of_nat i) axis) as [Heq|Hne].
    + left. now apply Z.eqb_eq.
    + right. apply Z.eqb_eq. apply H; [simpl in Hin; lia | assumption].
Qed.

Lemma compatible_shapes (base other : Grid) (a : nat) :
  a < 3 ->
  dims_compatible (dimensions base) (dimensions other) (Z.of_nat a) = true ->
  (firstn a (point_shape base) = firstn a (point_shape other)
   /\ skipn (S a) (point_shape base) = skipn (S a) (point_shape other))
  /\ (firstn a (cell_shape base) = firstn a (cell_shape other)
      /\ skipn (S a) (cell_shape base) = skipn (S a) (cell_shape other)).
Proof.
  intros Ha H. rewrite dims_compatible_nth in H.
  unfold point_shape, cell_shape.
  destruct (dimensions base) as [[x1 y1] z1], (dimensions other) as [[x2 y2] z2].
  pose proof (H 0) as H0. pose proof (H 1) as H1. pose proof (H 2) as H2.
  simpl in H0, H1, H2.
  destruct a as [|[|[|a]]]; [| | |lia]; simpl;
    try rewrite H0 by lia; try rewrite H1 by lia; try rewrite H2 by lia; auto.
Qed.

(** ** The seam comparison *)

Lemma combine_app {A B : Type} (a1 a2 : list A) (b1 b2 : list B) :
  length a1 = length b1 ->
  combine (a1 ++ a2) (b1 ++ b2) = combine a1 b1 ++ combine a2 b2.
Proof.
  revert b1; induction a1 as [|x a1 IH]; intros [|y b1] H; simpl in *; try lia.
  - reflexivity.
  - f_equal. apply IH. lia.
Qed.

Lemma forallb_combine_map {A : Type} (c : A -> Q) (f : Q -> Q -> bool)
    (l1 l2 : list A) :
  forallb (fun p => f (fst p) (snd p)) (combine (map c l1) (map c l2))
  = forallb (fun pq => f (c (fst pq)) (c (snd pq))) (combine l1 l2).
Proof.
  revert l2; induction l1 as [|x l1 IH]; intros [|y l2]; simpl; try reflexivity.
  now rewrite IH.
Qed.

Lemma forallb_and3 {A : Type} (f g h : A -> bool) (l : list A) :
  forallb f l && (forallb g l && forallb h l)
  = forallb (fun x => f x && g x && h x) l.
Proof.
  induction l as [|x l IH]; simpl.
  - reflexivity.
  - rewrite <- IH. destruct (f x), (g x), (h x); simpl;
      try reflexivity; try now rewrite ?andb_false_r.
Qed.

(** Comparing two layers coordinate by coordinate in the order numpy
    stores them is comparing them point by point. *)
Lemma forallb_combine_stack3 (f : Q -> Q -> bool) (l1 l2 : list point) :
  length l1 = length l2 ->
  forallb (fun p => f (fst p) (snd p)) (combine (stack3 l1) (stack3 l2))
  = forallb (fun pq => f (px (fst pq)) (px (snd pq))
                       && f (py (fst pq)) (py (snd pq))
                       && f (pz (fst pq)) (pz (snd pq)))
      (combine l1 l2).
Proof.
  intros H. unfold stack3.
  rewrite !combine_app by (rewrite !length_map; assumption).
  rewrite !forallb_app, !forallb_combine_map.
  apply forallb_and3.
Qed.

(** ** Joining two arrays along an axis *)

Lemma np_concatenate_dropping_seam (arr1 arr2 : ndarray) (a : nat) :
  ndim arr1 = ndim arr2 -> a < ndim arr1 ->
  firstn a (shape arr1) = firstn a (shape arr2) ->
  skipn (S a) (shape arr1) = skipn (S a) (shape arr2) ->
  np_concatenate (slice_axis arr1 a slice_drop_last) arr2 (Z.of_nat a)
  = Ok {| shape := set_nth a (extent (shape arr1) a - 1 + extent (shape arr2) a)
                     (shape arr1);
          data := join_dropping_seam (shape arr1) (shape arr2) a
                    (data arr1) (data arr2) |}.
Proof.
  intros Hd Ha Hf Hs.
  assert (Hl : a <= length (shape arr1)) by (unfold ndim in Ha; lia).
  rewrite np_concatenate_ok.
  - rewrite slice_axis_drop_last by assumption. cbn [shape data].
    unfold stride, extent, outer, join_dropping_seam.
    rewrite firstn_set_nth, skipn_set_nth, nth_set_nth, set_nth_set_nth by assumption.
    reflexivity.
  - now rewrite ndim_slice_axis.
  - now rewrite ndim_slice_axis.
  - rewrite slice_axis_drop_last by assumption. cbn [shape]. now rewrite firstn_set_nth.
  - rewrite slice_axis_drop_last by assumption. cbn [shape]. now rewrite skipn_set_nth.
Qed.

Lemma triple_count (cnt : nat) : cnt * prod [3] = cnt + (cnt + cnt).
Proof. simpl. lia. Qed.

Section Stacked.
Variables sh : list nat.
Variable a : nat.
Hypothesis Ha : a < length sh.
Variable pts : list point.
Hypothesis Hlen : length pts = prod sh.

(** A layer of the matrix of points holds the coordinates of the points
    of that layer. *)
Lemma take_layer_points_matrix (t : nat) :
  take_layer (stride (sh ++ [3]) a) (extent (sh ++ [3]) a)
    (outer (sh ++ [3]) a) t (stack3 pts)
  = stack3 (take_layer (stride sh a) (extent sh a) (outer sh a) t pts).
Proof.
  rewrite stride_app, extent_app, outer_app, triple_count by lia.
  apply take_layer_stack3. rewrite Hlen. now apply prod_axis.
Qed.

End Stacked.

Lemma join_dropping_seam_stack3 (sh1 sh2 : list nat) (a : nat)
    (pts1 pts2 : list point) :
  a < length sh1 -> a < length sh2 ->
  length pts1 = prod sh1 -> length pts2 = prod sh2 ->
  firstn a sh1 = firstn a sh2 -> skipn (S a) sh1 = skipn (S a) sh2 ->
  join_dropping_seam (sh1 ++ [3]) (sh2 ++ [3]) a (stack3 pts1) (stack3 pts2)
  = stack3 (join_dropping_seam sh1 sh2 a pts1 pts2).
Proof.
  intros Ha1 Ha2 H1 H2 Hf Hs. unfold join_dropping_seam.
  rewrite !stride_app, !extent_app, !outer_app, triple_count by lia.
  assert (Hb1 : length pts1 = outer sh1 a * (stride sh1 a * extent sh1 a))
    by (rewrite H1; now apply prod_axis).
  assert (Hb2 : length pts2 = outer sh1 a * (stride sh1 a * extent sh2 a)).
  { rewrite H2, (prod_axis sh2 a) by assumption. unfold outer, stride.
    now rewrite Hf, Hs. }
  rewrite slice_layers_stack3 by assumption.
  apply join_layers_stack3; [|assumption].
  apply slice_layers_length; [assumption | lia].
Qed.

(** ** The loops over the point and cell arrays *)

Section Loops.
Variables base other : Grid.
Variable a : nat.
Hypothesis Hb : valid_grid base.
Hypothesis Ho : valid_grid other.
Hypothesis Ha : a < 3.
Hypothesis Hc :
  dims_compatible (dimensions base) (dimensions other) (Z.of_nat a) = true.

Let spec := set_nth a slice_drop_last [slice_all; slice_all; slice_all].

Let merged_point (kv : string * list Q) : string * list Q :=
  (fst kv,
   join_dropping_seam (point_shape base) (point_shape other) a
     (snd kv) (values (point_arrays other) (fst kv))).

Let merged_cell (kv : string * list Q) : string * list Q :=
  (fst kv,
   join_keeping (cell_shape base) (cell_shape other) a
     (snd kv) (values (cell_arrays other) (fst kv))).

Lemma other_point_array (k : string) :
  In k (keys (point_arrays other)) ->
  dict_get (point_arrays other) k = Ok (values (point_arrays other) k)
  /\ length (values (point_arrays other) k) = n_points other.
Proof.
  intros H. destruct (dict_get_In _ _ H) as [v [Hv Hin]].
  unfold values. rewrite Hv. split; [reflexivity|].
  pose proof (valid_point_arrays other Ho) as Hf.
  rewrite Forall_forall in Hf. apply (Hf _ Hin).
Qed.

Lemma other_cell_array (k : string) :
  In k (keys (cell_arrays other)) ->
  dict_get (cell_arrays other) k = Ok (values (cell_arrays other) k)
  /\ length (values (cell_arrays other) k) = n_cells other.
Proof.
  intros H. destruct (dict_get_In _ _ H) as [v [Hv Hin]].
  unfold values. rewrite Hv. split; [reflexivity|].
  pose proof (valid_cell_arrays other Ho) as Hf.
  rewrite Forall_forall in Hf. apply (Hf _ Hin).
Qed.

Lemma join_point_arrays_spec (items acc : dict) :
  Forall (fun kv => length (snd kv) = n_points base) items ->
  Forall (fun kv => In (fst kv) (keys (point_arrays other))) items ->
  NoDup (keys (acc ++ items)) ->
  join_point_arrays base other (Z.of_nat a) spec items acc
  = match find (fun kv => negb (field_seam_equal base other a kv)) items with
    | Some kv => Raise (SeamFieldMismatch (Z.of_nat a) (fst kv))
    | None => Ok (acc ++ map merged_point items)
    end.
Proof.
  destruct (compatible_shapes base other a Ha Hc) as [[Hf Hs] _].
  unfold spec. revert acc. induction items as [|[name v] rest IH]; intros acc Hlen Hin Hnd.
  - simpl. now rewrite app_nil_r.
  - inversion_clear Hlen as [|? ? Hv Hlen']. inversion_clear Hin as [|? ? Hk Hin'].
    cbn [fst snd] in Hv, Hk.
    destruct (other_point_array name Hk) as [Hget Hv2].
    cbn [join_point_arrays find].
    rewrite reshape_point_array_valid by assumption. cbn [bind].
    rewrite Hget. cbn [bind].
    rewrite reshape_point_array_valid by assumption. cbn [bind].
    rewrite np_take_last, np_take_first;
      try (unfold ndim; cbn [shape]; rewrite length_point_shape; exact Ha);
      try (cbn [shape]; now apply extent_point_shape).
    cbn [bind shape data].
    unfold np_array_equal. cbn [shape data].
    rewrite Hf, Hs, list_eqb_refl. cbn [andb].
    change (forallb _ _) with (field_seam_equal base other a (name, v)).
    destruct (field_seam_equal base other a (name, v)); cbn [negb]; [|reflexivity].
    rewrite getitem_slice_spec;
      try (unfold ndim; cbn [shape]; rewrite length_point_shape; lia);
      try assumption.
    cbn [bind].
    rewrite np_concatenate_dropping_seam;
      try (unfold ndim; cbn [shape]; rewrite !length_point_shape; lia);
      try assumption.
    cbn [bind ravel_F data shape].
    rewrite dict_set_new.
    + rewrite IH; try assumption.
      * destruct (find _ rest); [reflexivity|].
        rewrite <- app_assoc. reflexivity.
      * rewrite !keys_app in *. rewrite <- app_assoc. exact Hnd.
    + rewrite keys_app in Hnd. cbn [keys map fst] in Hnd.
      apply NoDup_remove_2 in Hnd. intros Hacc. apply Hnd.
      apply in_or_app. now left.
Qed.

Lemma join_cell_arrays_spec (items acc : dict) :
  Forall (fun kv => length (snd kv) = n_cells base) items ->
  Forall (fun kv => In (fst kv) (keys (cell_arrays other))) items ->
  NoDup (keys (acc ++ items)) ->
  join_cell_arrays base other (Z.of_nat a) items acc
  = Ok (acc ++ map merged_cell items).
Proof.
  destruct (compatible_shapes base other a Ha Hc) as [_ [Hf Hs]].
  revert acc. induction items as [|[name v] rest IH]; intros acc Hlen Hin Hnd.
  - simpl. now rewrite app_nil_r.
  - inversion_clear Hlen as [|? ? Hv Hlen']. inversion_clear Hin as [|? ? Hk Hin'].
    cbn [fst snd] in Hv, Hk.
    destruct (other_cell_array name Hk) as [Hget Hv2].
    cbn [join_cell_arrays].
    rewrite reshape_cell_array_valid by assumption. cbn [bind].
    rewrite Hget. cbn [bind].
    rewrite reshape_cell_array_valid by assumption. cbn [bind].
    rewrite np_concatenate_ok;
      try (unfold ndim; cbn [shape]; rewrite !length_cell_shape; lia);
      try assumption.
    cbn [bind ravel_F data shape].
    rewrite dict_set_new.
    + rewrite IH; try assumption.
      * rewrite <- app_assoc. reflexivity.
      * rewrite !keys_app in *. rewrite <- app_assoc. exact Hnd.
    + rewrite keys_app in Hnd. cbn [keys map fst] in Hnd.
      apply NoDup_remove_2 in Hnd. intros Hacc. apply Hnd.
      apply in_or_app. now left.
Qed.
End Loops.

(** ** [concatenate] on grids that satisfy the invariant *)

Lemma compatible_matrix_shapes (sh1 sh2 c : list nat) (a : nat) :
  a < length sh1 -> a < length sh2 ->
  firstn a sh1 = firstn a sh2 -> skipn (S a) sh1 = skipn (S a) sh2 ->
  firstn a (sh1 ++ c) = firstn a (sh2 ++ c)
  /\ skipn (S a) (sh1 ++ c) = skipn (S a) (sh2 ++ c).
Proof.
  intros H1 H2 Hf Hs. rewrite !firstn_app, !skipn_app.
  replace (a - length sh1) with 0 by lia. replace (a - length sh2) with 0 by lia.
  replace (S a - length sh1) with 0 by lia. replace (S a - length sh2) with 0 by lia.
  now rewrite Hf, Hs.
Qed.

Lemma keys_map_fst (f : string * list Q -> list Q) (d : dict) :
  keys (map (fun kv => (fst kv, f kv)) d) = keys d.
Proof.
  unfold keys. rewrite map_map. now apply map_ext.
Qed.

Lemma layer_length (g : Grid) (a t : nat) :
  valid_grid g -> a < 3 -> t < extent (point_shape g) a ->
  length (layer g a t) = outer (point_shape g) a * stride (point_shape g) a.
Proof.
  intros Hv Ha Ht. unfold layer. apply take_layer_length; [|assumption].
  rewrite (valid_points g Hv). unfold n_points.
  apply prod_axis. now rewrite length_point_shape.
Qed.

(** On grids that satisfy the invariant and an axis in {0, 1, 2} the
    routine does what the specification describes. *)
Theorem concatenate_meets_spec (base other : Grid) (a : nat) (tolerance : Q) :
  valid_grid base -> valid_grid other -> a < 3 ->
  concatenate base other (Z.of_nat a) tolerance
  = concatenate_spec base other a tolerance.
Proof.
  intros Hb Ho Ha. unfold concatenate, concatenate_spec.
  destruct (Z.gtb_spec (Z.of_nat a) 2) as [Hgt|_]; [lia|].
  rewrite check_dimensions_spec.
  destruct (dims_compatible _ _ _) eqn:Hc; cbn [negb bind]; [|reflexivity].
  destruct (key_set_eqb (keys (point_arrays base)) _) eqn:Hpk; cbn [negb];
    [|reflexivity].
  destruct (key_set_eqb (keys (cell_arrays base)) _) eqn:Hck; cbn [negb];
    [|reflexivity].
  destruct (compatible_shapes base other a Ha Hc) as [[Hf Hs] _].
  pose proof (length_point_shape base) as Hl1.
  pose proof (length_point_shape other) as Hl2.
  destruct (compatible_matrix_shapes (point_shape base) (point_shape other) [3] a)
    as [Hf4 Hs4]; try assumption; try lia.
  destruct (extent_point_shape base Hb a Ha) as [_ Hn1].
  destruct (extent_point_shape other Ho a Ha) as [_ Hn2].
  rewrite !points_matrix_valid by assumption. cbn [bind].
  rewrite np_take_last, np_take_first;
    try (unfold ndim; cbn [shape]; rewrite length_app, length_point_shape; simpl; lia);
    try (cbn [shape]; rewrite extent_app by lia; assumption).
  cbn [bind shape data].
  unfold np_allclose. cbn [shape data].
  rewrite Hf4, Hs4, list_eqb_refl. cbn [bind].
  rewrite !take_layer_points_matrix
    by (try lia; try apply valid_points; assumption).
  rewrite extent_app by lia.
  rewrite forallb_combine_stack3.
  2:{ change (length (last_layer base a) = length (first_layer other a)).
      unfold last_layer, first_layer.
      rewrite !layer_length by (assumption || lia).
      unfold outer, stride. now rewrite Hf, Hs. }
  change (forallb _ _) with (seam_close base other a tolerance).
  destruct (seam_close base other a tolerance); cbn [negb]; [|reflexivity].
  unfold make_slice_spec. rewrite normalize_index_nat by assumption. cbn [bind].
  rewrite getitem_slice_spec;
    try (unfold ndim; cbn [shape]; rewrite length_app, length_point_shape; simpl; lia);
    try assumption;
    try (unfold well_shaped; cbn [shape data];
         rewrite stack3_length, prod_app, (valid_points base Hb);
         unfold n_points; simpl; lia).
  cbn [bind].
  rewrite np_concatenate_dropping_seam;
    try (unfold ndim; cbn [shape]; rewrite !length_app, !length_point_shape; simpl; lia);
    try assumption.
  cbn [bind shape data].
  rewrite join_dropping_seam_stack3
    by (try lia; try apply valid_points; assumption).
  pose proof (proj1 (key_set_eqb_spec _ _) Hpk) as Hpk'.
  pose proof (proj1 (key_set_eqb_spec _ _) Hck) as Hck'.
  rewrite (join_point_arrays_spec base other a Hb Ho Ha Hc).
  2:{ apply (valid_point_arrays base Hb). }
  2:{ apply Forall_forall. intros kv Hin. apply Hpk'. now apply in_map. }
  2:{ apply (valid_point_names base Hb). }
  destruct (find _ (point_arrays base)); [reflexivity|]. cbn [bind app].
  unfold compute_new_dims. rewrite normalize_index_nat by assumption. cbn [bind].
  rewrite (join_cell_arrays_spec base other a Hb Ho Ha Hc).
  2:{ apply (valid_cell_arrays base Hb). }
  2:{ apply Forall_forall. intros kv Hin. apply Hck'. now apply in_map. }
  2:{ apply (valid_cell_names base Hb). }
  cbn [bind app]. rewrite unstack3_stack3. cbn [bind].
  unfold merged_grid, update_cell_arrays, update_point_arrays, set_points,
    set_dimensions, StructuredGrid_new.
  cbn [dimensions points point_arrays cell_arrays field_arrays].
  rewrite !(dict_update_from [])
    by (cbn [app]; rewrite keys_map_fst;
        first [apply (valid_point_names base Hb) | apply (valid_cell_names base Hb)]).
  reflexivity.
Qed.

(** * Properties of [concatenate] *)

Lemma bind_Ok {A B : Type} (r : result A) (k : A -> result B) (b : B) :
  bind r k = Ok b -> exists x, r = Ok x /\ k x = Ok b.
Proof.
  destruct r as [x|e]; simpl; intros H.
  - exists x. auto.
  - discriminate.
Qed.

(** Walks down a successful run: every step returned, no guard raised. *)
Ltac run_ok H :=
  repeat match type of H with
    | bind ?r _ = Ok _ =>
        let x := fresh "x" in
        let Hx := fresh "Hx" in
        apply bind_Ok in H; destruct H as [x [Hx H]]
    | (if ?c then Raise _ else _) = Ok _ =>
        destruct c eqn:?; [discriminate H|]
    end.

(** C1.  Whenever [concatenate] succeeds on an axis in {0, 1, 2}, the
    dimension of the result along that axis is the sum of the two input
    dimensions along it minus one, and the dimensions along the two other
    axes are those of the base grid. *)
Theorem concatenate_dimensions (base other g : Grid) (a : nat) (tolerance : Q) :
  a < 3 ->
  concatenate base other (Z.of_nat a) tolerance = Ok g ->
  dim_at g a = (dim_at base a + dim_at other a - 1)%Z
  /\ (forall i, i < 3 -> i <> a -> dim_at g i = dim_at base i).
Proof.
  intros Ha H. unfold concatenate in H. run_ok H.
  injection H as <-.
  match goal with
  | Hn : compute_new_dims _ _ _ = Ok _ |- _ =>
      unfold compute_new_dims in Hn;
      rewrite normalize_index_nat in Hn by assumption; cbn [bind] in Hn;
      injection Hn as <-
  end.
  unfold dim_at. cbn [dimensions update_cell_arrays update_point_arrays
                        set_points set_dimensions].
  destruct (dimensions base) as [[bx by_] bz], (dimensions other) as [[ox oy] oz].
  destruct a as [|[|[|a]]]; [| | |lia]; cbn; (split; [lia|]);
    intros [|[|[|i]]] Hi Hne; cbn; try reflexivity; lia.
Qed.

(** The scenario of the specification (section 8): joining A and B along
    axis 0 with tolerance 0 gives the 3 x 2 x 1 grid, no column doubled. *)
Lemma concatenate_scenario : concatenate grid_A grid_B 0 0 = Ok grid_AB.
Proof. vm_compute. reflexivity. Qed.

Lemma concatenate_dimensions_witness :
  0 < 3
  /\ concatenate grid_A grid_B (Z.of_nat 0) 0 = Ok grid_AB
  /\ dim_at grid_AB 0 = (dim_at grid_A 0 + dim_at grid_B 0 - 1)%Z
  /\ (forall i, i < 3 -> i <> 0 -> dim_at grid_AB i = dim_at grid_A i).
Proof.
  assert (Ha : 0 < 3) by lia.
  assert (Hrun : concatenate grid_A grid_B (Z.of_nat 0) 0 = Ok grid_AB)
    by (vm_compute; reflexivity).
  split; [exact Ha|]. split; [exact Hrun|].
  exact (concatenate_dimensions grid_A grid_B grid_AB 0 0 Ha Hrun).
Defined.

(** The guard on the axis. *)
Lemma axis_above_two (base other : Grid) (axis : Z) (tolerance : Q) :
  (2 < axis)%Z -> concatenate base other axis tolerance = Raise InvalidAxis.
Proof.
  intros H. unfold concatenate.
  destruct (Z.gtb_spec axis 2); [reflexivity | lia].
Qed.

(** C5.  With a valid axis, dimensions that differ on another axis make
    [concatenate] raise the dimension-mismatch error, which carries the
    dimension triples of both grids; the call does not succeed. *)
Theorem dimension_mismatch_signalled (base other : Grid) (a i : nat) (tolerance : Q) :
  a < 3 -> i < 3 -> i <> a -> dim_at base i <> dim_at other i ->
  concatenate base other (Z.of_nat a) tolerance
  = Raise (DimensionMismatch (dimensions base) (dimensions other)).
Proof.
  intros Ha Hi Hne Hd. unfold concatenate.
  destruct (Z.gtb_spec (Z.of_nat a) 2); [lia|].
  rewrite check_dimensions_spec.
  destruct (dims_compatible _ _ _) eqn:Hc; [|reflexivity].
  exfalso. apply Hd. unfold dim_at.
  apply (proj1 (dims_compatible_nth _ _ _) Hc); [assumption | lia].
Qed.

(** The example of the specification: dimensions (2,2,1) against (2,3,1)
    joined along axis 0. *)
Lemma dimension_mismatch_signalled_witness :
  0 < 3 /\ 1 < 3 /\ 1 <> 0 /\ dim_at grid_A 1 <> dim_at grid_C 1
  /\ concatenate grid_A grid_C (Z.of_nat 0) 0
     = Raise (DimensionMismatch (dimensions grid_A) (dimensions grid_C)).
Proof.
  assert (Ha : 0 < 3) by lia.
  assert (Hi : 1 < 3) by lia.
  assert (Hne : 1 <> 0) by lia.
  assert (Hd : dim_at grid_A 1 <> dim_at grid_C 1) by (vm_compute; discriminate).
  repeat (split; [assumption|]).
  exact (dimension_mismatch_signalled grid_A grid_C 0 1 0 Ha Hi Hne Hd).
Defined.

(** C6 (as amended).  When the axis passes the guard and the dimensions
    agree off the axis, grids whose sets of point-field names differ get
    the field-name-mismatch error.  Nothing is assumed about the points or
    the tolerance: the verdict is reached before the seam is looked at. *)
Theorem point_names_checked_before_seam (base other : Grid) (axis : Z) (tolerance : Q) :
  (axis <= 2)%Z ->
  (forall i, i < 3 -> Z.of_nat i <> axis -> dim_at base i = dim_at other i) ->
  ~ (forall k, In k (keys (point_arrays base)) <-> In k (keys (point_arrays other))) ->
  concatenate base other axis tolerance = Raise PointFieldNameMismatch.
Proof.
  intros Hax Hd Hk. unfold concatenate.
  destruct (Z.gtb_spec axis 2); [lia|].
  rewrite check_dimensions_spec.
  rewrite (proj2 (dims_compatible_nth _ _ _) Hd). cbn [bind].
  destruct (key_set_eqb _ _) eqn:Hs; [|reflexivity].
  exfalso. apply Hk. now apply key_set_eqb_spec.
Qed.

(** [grid_D] has the dimensions of [grid_A], another field name, and
    points that do not meet those of [grid_A] at the seam. *)
Lemma point_names_checked_before_seam_witness :
  concatenate grid_A grid_D 0 0 = Raise PointFieldNameMismatch.
Proof.
  apply point_names_checked_before_seam.
  - lia.
  - intros [|[|[|i]]] Hi Hne; try reflexivity; lia.
  - intros H. destruct (H "t"%string) as [H1 _].
    simpl in H1. destruct H1 as [H1|[]]; [now left | discriminate H1].
Defined.

(** C6, the claim as stated fails: the point-field names of [grid_A] and
    [grid_C] differ, but their dimensions differ too, and the dimension
    check comes first. *)
Lemma point_names_not_first_check :
  ~ (forall k, In k (keys (point_arrays grid_A)) <-> In k (keys (point_arrays grid_C)))
  /\ concatenate grid_A grid_C 0 0
     = Raise (DimensionMismatch (dimensions grid_A) (dimensions grid_C))
  /\ concatenate grid_A grid_C 0 0 <> Raise PointFieldNameMismatch.
Proof.
  split; [|split].
  - intros H. destruct (H "t"%string) as [H1 _].
    simpl in H1. destruct H1 as [H1|[]]; [now left | discriminate H1].
  - vm_compute. reflexivity.
  - vm_compute. discriminate.
Qed.

(** ** Field arrays *)

Lemma join_point_arrays_field_arrays (f1 f2 : dict) (base other : Grid) (axis : Z)
    (slice_spec : list pyslice) (items acc : dict) :
  join_point_arrays (with_field_arrays f1 base) (with_field_arrays f2 other)
    axis slice_spec items acc
  = join_point_arrays base other axis slice_spec items acc.
Proof.
  revert acc. induction items as [|[name v] rest IH]; intros acc.
  - reflexivity.
  - cbn [join_point_arrays].
    change (_reshape_point_array (with_field_arrays f1 base))
      with (_reshape_point_array base).
    change (_reshape_point_array (with_field_arrays f2 other))
      with (_reshape_point_array other).
    change (point_arrays (with_field_arrays f2 other)) with (point_arrays other).
    destruct (_reshape_point_array base v); [|reflexivity]. cbn [bind].
    destruct (dict_get (point_arrays other) name); [|reflexivity]. cbn [bind].
    destruct (_reshape_point_array other _); [|reflexivity]. cbn [bind].
    destruct (np_take _ (-1) axis); [|reflexivity]. cbn [bind].
    destruct (np_take _ 0 axis); [|reflexivity]. cbn [bind].
    destruct (negb _); [reflexivity|].
    destruct (getitem _ _); [|reflexivity]. cbn [bind].
    destruct (np_concatenate _ _ _); [|reflexivity]. cbn [bind].
    apply IH.
Qed.

Lemma join_cell_arrays_field_arrays (f1 f2 : dict) (base other : Grid) (axis : Z)
    (items acc : dict) :
  join_cell_arrays (with_field_arrays f1 base) (with_field_arrays f2 other)
    axis items acc
  = join_cell_arrays base other axis items acc.
Proof.
  revert acc. induction items as [|[name v] rest IH]; intros acc.
  - reflexivity.
  - cbn [join_cell_arrays].
    change (_reshape_cell_array (with_field_arrays f1 base))
      with (_reshape_cell_array base).
    change (_reshape_cell_array (with_field_arrays f2 other))
      with (_reshape_cell_array other).
    change (cell_arrays (with_field_arrays f2 other)) with (cell_arrays other).
    destruct (_reshape_cell_array base v); [|reflexivity]. cbn [bind].
    destruct (dict_get (cell_arrays other) name); [|reflexivity]. cbn [bind].
    destruct (_reshape_cell_array other _); [|reflexivity]. cbn [bind].
    destruct (np_concatenate _ _ _); [|reflexivity]. cbn [bind].
    apply IH.
Qed.

(** [concatenate] never reads the field arrays of its arguments. *)
Lemma concatenate_field_arrays (f1 f2 : dict) (base other : Grid) (axis : Z)
    (tolerance : Q) :
  concatenate (with_field_arrays f1 base) (with_field_arrays f2 other) axis tolerance
  = concatenate base other axis tolerance.
Proof.
  unfold concatenate.
  change (dimensions (with_field_arrays f1 base)) with (dimensions base).
  change (dimensions (with_field_arrays f2 other)) with (dimensions other).
  change (point_arrays (with_field_arrays f1 base)) with (point_arrays base).
  change (point_arrays (with_field_arrays f2 other)) with (point_arrays other).
  change (cell_arrays (with_field_arrays f1 base)) with (cell_arrays base).
  change (cell_arrays (with_field_arrays f2 other)) with (cell_arrays other).
  change (points_matrix (with_field_arrays f1 base)) with (points_matrix base).
  change (points_matrix (with_field_arrays f2 other)) with (points_matrix other).
  destruct (axis >? 2)%Z; [reflexivity|].
  destruct (check_dimensions _ _ _ _); [|reflexivity]. cbn [bind].
  destruct (negb _); [reflexivity|].
  destruct (negb _); [reflexivity|].
  destruct (points_matrix base); [|reflexivity]. cbn [bind].
  destruct (np_take _ (-1) axis); [|reflexivity]. cbn [bind].
  destruct (points_matrix other); [|reflexivity]. cbn [bind].
  destruct (np_take _ 0 axis); [|reflexivity]. cbn [bind].
  destruct (np_allclose _ _ _); [|reflexivity]. cbn [bind].
  destruct (negb _); [reflexivity|].
  destruct (make_slice_spec axis); [|reflexivity]. cbn [bind].
  destruct (getitem _ _); [|reflexivity]. cbn [bind].
  destruct (np_concatenate _ _ _); [|reflexivity]. cbn [bind].
  rewrite join_point_arrays_field_arrays.
  destruct (join_point_arrays _ _ _ _ _ _); [|reflexivity]. cbn [bind].
  destruct (compute_new_dims _ _ _); [|reflexivity]. cbn [bind].
  rewrite join_cell_arrays_field_arrays.
  reflexivity.
Qed.

Lemma keys_dict_set (k : string) (v : list Q) (d : dict) :
  incl (keys (dict_set k v d)) (k :: keys d).
Proof.
  induction d as [|[k' v'] d IH]; simpl.
  - apply incl_refl.
  - destruct (String.eqb_spec k' k) as [->|Hne]; simpl.
    + intros x [Hx|Hx]; [now left | now right; right].
    + intros x [Hx|Hx]; [right; now left|].
      destruct (IH x Hx) as [H|H]; [now left | right; now right].
Qed.

Lemma keys_dict_update (d e : dict) :
  incl (keys (dict_update d e)) (keys d ++ keys e).
Proof.
  revert d. induction e as [|[k v] e IH]; intros d; unfold dict_update; simpl.
  - rewrite app_nil_r. apply incl_refl.
  - intros x Hx. apply IH in Hx. apply in_app_or in Hx.
    apply in_or_app. destruct Hx as [Hx|Hx].
    + apply keys_dict_set in Hx. destruct Hx as [->|Hx]; [right; now left | now left].
    + right. now right.
Qed.

Lemma keys_join_point_arrays (base other : Grid) (axis : Z)
    (slice_spec : list pyslice) (items acc r : dict) :
  join_point_arrays base other axis slice_spec items acc = Ok r ->
  incl (keys r) (keys acc ++ keys items).
Proof.
  revert acc. induction items as [|[name v] rest IH]; intros acc H.
  - injection H as <-. rewrite app_nil_r. apply incl_refl.
  - cbn [join_point_arrays] in H. run_ok H.
    apply IH in H. intros k Hk. apply H in Hk.
    apply in_app_or in Hk. apply in_or_app. destruct Hk as [Hk|Hk].
    + apply keys_dict_set in Hk. destruct Hk as [->|Hk]; [right; now left | now left].
    + right. now right.
Qed.

Lemma keys_join_cell_arrays (base other : Grid) (axis : Z) (items acc r : dict) :
  join_cell_arrays base other axis items acc = Ok r ->
  incl (keys r) (keys acc ++ keys items).
Proof.
  revert acc. induction items as [|[name v] rest IH]; intros acc H.
  - injection H as <-. rewrite app_nil_r. apply incl_refl.
  - cbn [join_cell_arrays] in H. run_ok H.
    apply IH in H. intros k Hk. apply H in Hk.
    apply in_app_or in Hk. apply in_or_app. destruct Hk as [Hk|Hk].
    + apply keys_dict_set in Hk. destruct Hk as [->|Hk]; [right; now left | now left].
    + right. now right.
Qed.



(** ** The seam tolerance *)

Local Open Scope Q_scope.

Lemma isclose_true (atol a b : Q) :
  isclose atol a b = true <-> Qabs (a - b) <= atol + rtol * Qabs b.
Proof. unfold isclose. apply Qle_bool_iff. Qed.

Lemma isclose_false (atol a b : Q) :
  isclose atol a b = false <-> atol + rtol * Qabs b < Qabs (a - b).
Proof.
  split.
  - intros H. apply Qnot_le_lt. intros Hle.
    apply isclose_true in Hle. congruence.
  - intros H. destruct (isclose atol a b) eqn:E; [|reflexivity].
    apply isclose_true in E. exfalso. apply (Qlt_not_le _ _ H E).
Qed.

Lemma rtol_term_nonneg (b : Q) : 0 <= rtol * Qabs b.
Proof.
  apply Qmult_le_0_compat; [unfold rtol; discriminate | apply Qabs_nonneg].
Qed.

(** A difference within the absolute tolerance is close, the bound
    included. *)
Lemma isclose_within (atol a b : Q) : Qabs (a - b) <= atol -> isclose atol a b = true.
Proof.
  intros H. apply isclose_true. pose proof (rtol_term_nonneg b). lra.
Qed.

Local Close Scope Q_scope.

(** The seam comparison looks at every pair of corresponding
    coordinates. *)
Lemma seam_close_pairs (base other : Grid) (a : nat) (tolerance : Q) :
  seam_close base other a tolerance
  = forallb (fun ab => isclose tolerance (fst ab) (snd ab)) (seam_pairs base other a).
Proof.
  unfold seam_close, seam_pairs.
  induction (combine (last_layer base a) (first_layer other a)) as [|[p q] l IH].
  - reflexivity.
  - cbn [forallb flat_map coord_pairs fst snd app]. rewrite IH.
    unfold close3. cbn [forallb fst snd].
    now rewrite <- !andb_assoc.
Qed.


(** Settles the invariant of a grid that is given in full. *)
Ltac prove_valid :=
  constructor; cbn;
  repeat first
    [ apply Forall_nil | apply Forall_cons
    | apply NoDup_nil | apply NoDup_cons
    | reflexivity | lia
    | (intros Hin; cbn in Hin; intuition discriminate) ].

Lemma valid_grid_A : valid_grid grid_A.
Proof. prove_valid. Qed.

Lemma valid_grid_B : valid_grid grid_B.
Proof. prove_valid. Qed.

Lemma valid_grid_far_1 : valid_grid grid_far_1.
Proof. prove_valid. Qed.

Lemma valid_grid_far_2 : valid_grid grid_far_2.
Proof. prove_valid. Qed.



(** ** The grid returned on success *)

(** A successful run on grids that satisfy the invariant passed every
    check and returned the merged grid. *)
Lemma concatenate_Ok_merged (base other g : Grid) (a : nat) (tolerance : Q) :
  valid_grid base -> valid_grid other -> a < 3 ->
  concatenate base other (Z.of_nat a) tolerance = Ok g ->
  g = merged_grid base other a
  /\ dims_compatible (dimensions base) (dimensions other) (Z.of_nat a) = true
  /\ key_set_eqb (keys (point_arrays base)) (keys (point_arrays other)) = true
  /\ key_set_eqb (keys (cell_arrays base)) (keys (cell_arrays other)) = true
  /\ seam_close base other a tolerance = true
  /\ find (fun kv => negb (field_seam_equal base other a kv)) (point_arrays base)
     = None.
Proof.
  intros Hb Ho Ha H. rewrite concatenate_meets_spec in H by assumption.
  unfold concatenate_spec in H.
  destruct (dims_compatible _ _ _); [|discriminate H].
  destruct (key_set_eqb (keys (point_arrays base)) _); [|discriminate H].
  destruct (key_set_eqb (keys (cell_arrays base)) _); [|discriminate H].
  destruct (seam_close _ _ _ _); [|discriminate H].
  cbn [negb] in H. destruct (find _ _); [discriminate H|].
  injection H as <-. repeat split; reflexivity.
Qed.

Lemma point_shape_merged (base other : Grid) (a : nat) :
  valid_grid base -> valid_grid other -> a < 3 ->
  point_shape (merged_grid base other a)
  = set_nth a (extent (point_shape base) a - 1 + extent (point_shape other) a)
      (point_shape base).
Proof.
  intros Hb Ho Ha.
  destruct (extent_point_shape base Hb a Ha) as [E1 P1].
  destruct (extent_point_shape other Ho a Ha) as [E2 P2].
  replace (extent (point_shape base) a - 1 + extent (point_shape other) a)
    with (Z.to_nat (dim_at base a + (dim_at other a - 1))) by lia.
  unfold point_shape, merged_grid. cbn [dimensions].
  generalize (dim_at base a + (dim_at other a - 1))%Z. intros v.
  destruct (dimensions base) as [[x y] z].
  destruct a as [|[|[|a]]]; [reflexivity | reflexivity | reflexivity | lia].
Qed.

Section MergedLayers.
Variables base other : Grid.
Variable a : nat.
Hypothesis Hb : valid_grid base.
Hypothesis Ho : valid_grid other.
Hypothesis Ha : a < 3.
Hypothesis Hc :
  dims_compatible (dimensions base) (dimensions other) (Z.of_nat a) = true.

Let s := stride (point_shape base) a.
Let cnt := outer (point_shape base) a.
Let n1 := extent (point_shape base) a.
Let n2 := extent (point_shape other) a.

Lemma base_points_blocks : length (points base) = cnt * (s * n1).
Proof.
  rewrite (valid_points base Hb). unfold n_points.
  apply prod_axis. now rewrite length_point_shape.
Qed.

Lemma other_strides :
  stride (point_shape other) a = s /\ outer (point_shape other) a = cnt.
Proof.
  destruct (compatible_shapes base other a Ha Hc) as [[Hf Hs] _].
  unfold s, cnt, stride, outer. now rewrite Hf, Hs.
Qed.

Lemma other_points_blocks : length (points other) = cnt * (s * n2).
Proof.
  destruct other_strides as [Es Ec].
  rewrite (valid_points other Ho). unfold n_points.
  rewrite (prod_axis (point_shape other) a) by now rewrite length_point_shape.
  now rewrite Es, Ec.
Qed.

Lemma layer_merged (t : nat) :
  layer (merged_grid base other a) a t
  = take_layer s (n1 - 1 + n2) cnt t
      (join_layers s (n1 - 1) n2 cnt
         (slice_layers s n1 cnt 0 (n1 - 1) (points base)) (points other)).
Proof.
  unfold layer. rewrite point_shape_merged by assumption.
  unfold stride, extent, outer.
  rewrite firstn_set_nth, skipn_set_nth, nth_set_nth
    by (rewrite length_point_shape; lia).
  reflexivity.
Qed.

(** The layers of the merged grid below the seam are those of base. *)
Lemma layer_merged_base (t : nat) :
  t < n1 - 1 -> layer (merged_grid base other a) a t = layer base a t.
Proof.
  intros Ht. rewrite layer_merged.
  rewrite take_layer_join_l.
  - rewrite take_layer_slice by (try apply base_points_blocks; lia).
    reflexivity.
  - apply slice_layers_length; [apply base_points_blocks | lia].
  - apply other_points_blocks.
  - assumption.
Qed.

(** From the seam on, the layers of the merged grid are those of
    other. *)
Lemma layer_merged_other (t : nat) :
  layer (merged_grid base other a) a (n1 - 1 + t) = layer other a t.
Proof.
  rewrite layer_merged.
  rewrite take_layer_join_r.
  - destruct other_strides as [Es Ec]. unfold layer. now rewrite Es, Ec.
  - apply slice_layers_length; [apply base_points_blocks | lia].
  - apply other_points_blocks.
Qed.
End MergedLayers.

(** C9.  On success the merged grid has base's layers below the seam and
    other's layers from the seam on: the seam layer of the output is the
    first layer of other, and when base's last layer is not the same list
    of points, it is not what the output holds at the seam. *)
Theorem seam_layer_from_other (base other g : Grid) (a : nat) (tolerance : Q) :
  valid_grid base -> valid_grid other -> a < 3 ->
  concatenate base other (Z.of_nat a) tolerance = Ok g ->
  let n1 := extent (point_shape base) a in
  layer g a (n1 - 1) = first_layer other a
  /\ (forall t, t < n1 - 1 -> layer g a t = layer base a t)
  /\ (forall t, layer g a (n1 - 1 + t) = layer other a t)
  /\ (last_layer base a <> first_layer other a ->
      layer g a (n1 - 1) <> last_layer base a).
Proof.
  intros Hb Ho Ha H n1.
  destruct (concatenate_Ok_merged base other g a tolerance Hb Ho Ha H)
    as [-> [Hc _]].
  assert (Hseam : layer (merged_grid base other a) a (n1 - 1) = first_layer other a).
  { replace (n1 - 1) with (n1 - 1 + 0) by lia.
    now apply layer_merged_other. }
  split; [exact Hseam|]. split; [|split].
  - intros t Ht. now apply layer_merged_base.
  - intros t. now apply layer_merged_other.
  - intros Hne Heq. apply Hne. now rewrite <- Heq.
Qed.

Lemma seam_layer_from_other_witness :
  let n1 := extent (point_shape grid_far_1) 0 in
  layer grid_far_12 0 (n1 - 1) = first_layer grid_far_2 0
  /\ (forall t, t < n1 - 1 -> layer grid_far_12 0 t = layer grid_far_1 0 t)
  /\ (forall t, layer grid_far_12 0 (n1 - 1 + t) = layer grid_far_2 0 t)
  /\ (last_layer grid_far_1 0 <> first_layer grid_far_2 0 ->
      layer grid_far_12 0 (n1 - 1) <> last_layer grid_far_1 0).
Proof.
  apply (seam_layer_from_other grid_far_1 grid_far_2 grid_far_12 0 0).
  - exact valid_grid_far_1.
  - exact valid_grid_far_2.
  - lia.
  - vm_compute. reflexivity.
Defined.

(** ** Cell fields *)

Lemma per_block_join_permutation {A : Type} (m1 m2 cnt : nat) (l1 l2 : list A) :
  Permutation
    (per_block cnt (fun o => block m1 o l1 ++ block m2 o l2))
    (firstn (cnt * m1) l1 ++ firstn (cnt * m2) l2).
Proof.
  induction cnt as [|cnt IH].
  - apply Permutation_refl.
  - rewrite per_block_S.
    replace (S cnt * m1) with (cnt * m1 + m1) by lia.
    replace (S cnt * m2) with (cnt * m2 + m2) by lia.
    rewrite !firstn_add. fold (block m1 cnt l1). fold (block m2 cnt l2).
    rewrite <- !app_assoc.
    eapply Permutation_trans; [apply Permutation_app_tail; exact IH|].
    rewrite <- !app_assoc. apply Permutation_app_head.
    rewrite !app_assoc. apply Permutation_app_tail.
    apply Permutation_app_comm.
Qed.

(** Joining along an axis without dropping a layer keeps every value of
    both sequences. *)
Lemma join_layers_permutation {A : Type} (s n1 n2 cnt : nat) (l1 l2 : list A) :
  length l1 = cnt * (s * n1) -> length l2 = cnt * (s * n2) ->
  Permutation (join_layers s n1 n2 cnt l1 l2) (l1 ++ l2).
Proof.
  intros H1 H2. unfold join_layers.
  eapply Permutation_trans; [apply per_block_join_permutation|].
  rewrite <- H1, <- H2, !firstn_all. apply Permutation_refl.
Qed.



(** ** Validity of the merged grid *)

Lemma prod_set_nth (sh : list nat) (a v : nat) :
  a < length sh -> prod (set_nth a v sh) = outer sh a * (stride sh a * v).
Proof.
  intros H. rewrite (prod_axis (set_nth a v sh) a) by now rewrite length_set_nth.
  unfold outer, stride, extent.
  now rewrite skipn_set_nth, firstn_set_nth, nth_set_nth by lia.
Qed.

Section JoinLengths.
Context {A : Type}.
Variables sh1 sh2 : list nat.
Variable a : nat.
Hypothesis Ha1 : a < length sh1.
Hypothesis Ha2 : a < length sh2.
Hypothesis Hf : firstn a sh1 = firstn a sh2.
Hypothesis Hs : skipn (S a) sh1 = skipn (S a) sh2.
Variables l1 l2 : list A.
Hypothesis H1 : length l1 = prod sh1.
Hypothesis H2 : length l2 = prod sh2.

Lemma blocks_1 : length l1 = outer sh1 a * (stride sh1 a * extent sh1 a).
Proof. rewrite H1. now apply prod_axis. Qed.

Lemma blocks_2 : length l2 = outer sh1 a * (stride sh1 a * extent sh2 a).
Proof.
  rewrite H2, (prod_axis sh2 a) by assumption.
  unfold outer, stride. now rewrite Hf, Hs.
Qed.

Lemma join_dropping_seam_length :
  length (join_dropping_seam sh1 sh2 a l1 l2)
  = prod (set_nth a (extent sh1 a - 1 + extent sh2 a) sh1).
Proof.
  unfold join_dropping_seam. rewrite prod_set_nth by assumption.
  apply join_layers_length; [|apply blocks_2].
  apply slice_layers_length; [apply blocks_1 | lia].
Qed.

Lemma join_keeping_length :
  length (join_keeping sh1 sh2 a l1 l2)
  = prod (set_nth a (extent sh1 a + extent sh2 a) sh1).
Proof.
  unfold join_keeping. rewrite prod_set_nth by assumption.
  apply join_layers_length; [apply blocks_1 | apply blocks_2].
Qed.
End JoinLengths.

Lemma cell_shape_merged (base other : Grid) (a : nat) :
  a < 3 -> (2 <= dim_at base a)%Z -> (2 <= dim_at other a)%Z ->
  cell_shape (merged_grid base other a)
  = set_nth a (extent (cell_shape base) a + extent (cell_shape other) a)
      (cell_shape base).
Proof.
  intros Ha. unfold cell_shape, merged_grid, dim_at, extent, cell_extent.
  cbn [dimensions].
  destruct (dimensions base) as [[x1 y1] z1], (dimensions other) as [[x2 y2] z2].
  destruct a as [|[|[|a]]]; [| | |lia]; cbn [dims_list nth]; intros D1 D2;
    cbn [set_nth firstn skipn app dims_of_list dims_list nth map];
    repeat match goal with
      | |- context [(?z =? 0)%Z] => destruct (Z.eqb_spec z 0)
      end;
    repeat f_equal; lia.
Qed.

Section MergedValid.
Variables base other : Grid.
Variable a : nat.
Hypothesis Hb : valid_grid base.
Hypothesis Ho : valid_grid other.
Hypothesis Ha : a < 3.
Hypothesis Hc :
  dims_compatible (dimensions base) (dimensions other) (Z.of_nat a) = true.
Hypothesis Hpk :
  forall k, In k (keys (point_arrays base)) <-> In k (keys (point_arrays other)).
Hypothesis Hck :
  forall k, In k (keys (cell_arrays base)) <-> In k (keys (cell_arrays other)).

Lemma merged_dims_positive :
  Forall (fun d => (1 <= d)%Z) (dims_list (dimensions (merged_grid base other a))).
Proof.
  destruct (extent_point_shape base Hb a Ha) as [E1 P1].
  destruct (extent_point_shape other Ho a Ha) as [E2 P2].
  pose proof (valid_dims base Hb) as Hd.
  assert (Hv : (1 <= dim_at base a + (dim_at other a - 1))%Z) by lia.
  unfold merged_grid. cbn [dimensions].
  revert Hv. generalize (dim_at base a + (dim_at other a - 1))%Z. intros v Hv.
  destruct (dimensions base) as [[x y] z]. cbn [dims_list] in Hd.
  inversion_clear Hd as [|? ? Hx Hd']. inversion_clear Hd' as [|? ? Hy Hd''].
  inversion_clear Hd'' as [|? ? Hz _].
  destruct a as [|[|[|a']]]; [| | |lia]; cbn; repeat constructor; assumption.
Qed.

Lemma merged_valid_point_data : valid_point_data (merged_grid base other a).
Proof.
  destruct (compatible_shapes base other a Ha Hc) as [[Hf Hs] _].
  pose proof (length_point_shape base) as L1.
  pose proof (length_point_shape other) as L2.
  constructor.
  - apply merged_dims_positive.
  - unfold n_points. rewrite point_shape_merged by assumption.
    cbn [points merged_grid].
    apply join_dropping_seam_length; try assumption; try lia.
    + apply (valid_points base Hb).
    + apply (valid_points other Ho).
  - unfold n_points. rewrite point_shape_merged by assumption.
    cbn [point_arrays merged_grid].
    apply Forall_map. apply Forall_forall. intros kv Hin. cbn [snd].
    apply join_dropping_seam_length; try assumption; try lia.
    + pose proof (valid_point_arrays base Hb) as Hl.
      rewrite Forall_forall in Hl. apply (Hl kv Hin).
    + apply (other_point_array other Ho). apply Hpk. now apply in_map.
  - cbn [point_arrays merged_grid]. rewrite keys_map_fst.
    apply (valid_point_names base Hb).
  - cbn [cell_arrays merged_grid]. rewrite keys_map_fst.
    apply (valid_cell_names base Hb).
Qed.

Lemma merged_valid_cell_arrays :
  (2 <= dim_at base a)%Z -> (2 <= dim_at other a)%Z ->
  Forall (fun kv => length (snd kv) = n_cells (merged_grid base other a))
    (cell_arrays (merged_grid base other a)).
Proof.
  intros D1 D2.
  destruct (compatible_shapes base other a Ha Hc) as [_ [Hf Hs]].
  pose proof (length_cell_shape base) as L1.
  pose proof (length_cell_shape other) as L2.
  unfold n_cells. rewrite cell_shape_merged by assumption.
  cbn [cell_arrays merged_grid].
  apply Forall_map. apply Forall_forall. intros kv Hin. cbn [snd].
  apply join_keeping_length; try assumption; try lia.
  - pose proof (valid_cell_arrays base Hb) as Hl.
    rewrite Forall_forall in Hl. apply (Hl kv Hin).
  - apply (other_cell_array other Ho). apply Hck. now apply in_map.
Qed.
End MergedValid.

(** ** Splitting and joining back *)

Lemma point_shape_with_dim (G A : Grid) (a m : nat) :
  a < 3 -> dimensions A = with_dim (dimensions G) a (Z.of_nat m) ->
  point_shape A = set_nth a m (point_shape G).
Proof.
  intros Ha H. unfold point_shape. rewrite H. unfold with_dim.
  destruct (dimensions G) as [[x y] z].
  destruct a as [|[|[|a]]]; [| | |lia]; cbn; now rewrite Nat2Z.id.
Qed.

Lemma dims_compatible_with_dim (d : dims) (a : nat) (v1 v2 : Z) :
  a < 3 -> dims_compatible (with_dim d a v1) (with_dim d a v2) (Z.of_nat a) = true.
Proof.
  intros Ha. apply dims_compatible_nth. intros i Hi Hne.
  destruct d as [[x y] z]. unfold with_dim.
  destruct a as [|[|[|a]]]; [| | |lia];
    destruct i as [|[|[|i]]]; try lia; try reflexivity; cbn in Hne; lia.
Qed.

Lemma with_dim_restore (G A : Grid) (a : nat) (v : Z) :
  a < 3 -> dimensions A = with_dim (dimensions G) a v ->
  with_dim (dimensions A) a (dim_at G a) = dimensions G.
Proof.
  intros Ha ->. unfold with_dim, dim_at.
  destruct (dimensions G) as [[x y] z].
  destruct a as [|[|[|a]]]; [reflexivity | reflexivity | reflexivity | lia].
Qed.

Lemma dim_at_with_dim (G A : Grid) (a : nat) (v : Z) :
  a < 3 -> dimensions A = with_dim (dimensions G) a v -> dim_at A a = v.
Proof.
  intros Ha H. unfold dim_at. rewrite H. unfold with_dim.
  destruct (dimensions G) as [[x y] z].
  destruct a as [|[|[|a]]]; [reflexivity | reflexivity | reflexivity | lia].
Qed.

Lemma key_set_eqb_refl (l : list string) : key_set_eqb l l = true.
Proof. apply key_set_eqb_spec. intros k. reflexivity. Qed.

Lemma find_all_false {A : Type} (f : A -> bool) (l : list A) :
  (forall x, In x l -> f x = false) -> find f l = None.
Proof.
  induction l as [|x l IH]; intros H; simpl.
  - reflexivity.
  - rewrite (H x) by now left. apply IH. intros y Hy. apply H. now right.
Qed.

Lemma dict_get_map (f : string * list Q -> list Q) (d : dict) (k : string) (v : list Q) :
  NoDup (keys d) -> In (k, v) d ->
  dict_get (map (fun kv => (fst kv, f kv)) d) k = Ok (f (k, v)).
Proof.
  induction d as [|[k' v'] d IH]; intros Hnd Hin; simpl in *.
  - contradiction.
  - inversion_clear Hnd as [|? ? Hk' Hnd'].
    destruct Hin as [Heq|Hin].
    + injection Heq as -> ->. now rewrite String.eqb_refl.
    + destruct (String.eqb_spec k' k) as [->|Hne].
      * exfalso. apply Hk'. change k with (fst (k, v)). now apply in_map.
      * now apply IH.
Qed.

Lemma forallb_combine_same {A : Type} (f : A -> A -> bool) (l : list A) :
  (forall x, f x x = true) ->
  forallb (fun p => f (fst p) (snd p)) (combine l l) = true.
Proof.
  intros H. induction l as [|x l IH]; simpl.
  - reflexivity.
  - now rewrite H, IH.
Qed.

Local Open Scope Q_scope.

(** With a tolerance that is not negative a number is close to itself. *)
Lemma isclose_same (atol x : Q) : 0 <= atol -> isclose atol x x = true.
Proof.
  intros H. apply isclose_within.
  setoid_replace (x - x) with 0 by ring. exact H.
Qed.

Local Close Scope Q_scope.

Lemma close3_same (atol : Q) (p : point) : (0 <= atol)%Q -> close3 atol p p = true.
Proof.
  intros H. unfold close3. now rewrite !isclose_same.
Qed.

Section SplitFacts.
Variables G A B : Grid.
Variables a seam : nat.
Hypothesis HG : valid_grid G.
Hypothesis Ha : a < 3.
Hypothesis Hsplit : is_split G a seam A B.

Let s := stride (point_shape G) a.
Let n := extent (point_shape G) a.
Let cnt := outer (point_shape G) a.

Lemma split_shape_A :
  stride (point_shape A) a = s /\ extent (point_shape A) a = seam + 1
  /\ outer (point_shape A) a = cnt.
Proof.
  rewrite (point_shape_with_dim G A a (seam + 1) Ha (split_dims_A _ _ _ _ _ Hsplit)).
  unfold stride, extent, outer.
  now rewrite firstn_set_nth, skipn_set_nth, nth_set_nth
    by (rewrite length_point_shape; lia).
Qed.

Lemma split_shape_B :
  stride (point_shape B) a = s /\ extent (point_shape B) a = n - seam
  /\ outer (point_shape B) a = cnt.
Proof.
  rewrite (point_shape_with_dim G B a (n - seam) Ha (split_dims_B _ _ _ _ _ Hsplit)).
  unfold stride, extent, outer.
  now rewrite firstn_set_nth, skipn_set_nth, nth_set_nth
    by (rewrite length_point_shape; lia).
Qed.

Lemma lattice_blocks {T : Type} (l : list T) :
  length l = n_points G -> length l = cnt * (s * n).
Proof.
  intros ->. unfold n_points. apply prod_axis. now rewrite length_point_shape.
Qed.

(** The last layer of [A] and the first layer of [B] are both the seam
    layer of [G], for the points and for any point field. *)
Lemma split_last_layer_A {T : Type} (l : list T) :
  length l = n_points G ->
  take_layer s (seam + 1) cnt (seam + 1 - 1) (sub_layers G a 0 (seam + 1) l)
  = take_layer s n cnt seam l.
Proof.
  intros Hl. pose proof (split_seam _ _ _ _ _ Hsplit) as Hs. fold n in Hs.
  unfold sub_layers. fold s n cnt.
  rewrite take_layer_slice by (try apply lattice_blocks; auto; lia).
  f_equal. lia.
Qed.

Lemma split_first_layer_B {T : Type} (l : list T) :
  length l = n_points G ->
  take_layer s (n - seam) cnt 0 (sub_layers G a seam (n - seam) l)
  = take_layer s n cnt seam l.
Proof.
  intros Hl. pose proof (split_seam _ _ _ _ _ Hsplit) as Hs. fold n in Hs.
  unfold sub_layers. fold s n cnt.
  rewrite take_layer_slice by (try apply lattice_blocks; auto; lia).
  f_equal. lia.
Qed.

(** Dropping the seam from the first part and joining the second part
    gives the whole back. *)
Lemma split_join {T : Type} (l : list T) :
  length l = n_points G ->
  join_dropping_seam (point_shape A) (point_shape B) a
    (sub_layers G a 0 (seam + 1) l) (sub_layers G a seam (n - seam) l)
  = l.
Proof.
  intros Hl. pose proof (split_seam _ _ _ _ _ Hsplit) as Hs. fold n in Hs.
  unfold join_dropping_seam.
  destruct split_shape_A as [-> [-> ->]].
  destruct split_shape_B as [_ [-> _]].
  unfold sub_layers. fold s n cnt.
  rewrite slice_layers_slice by (try apply lattice_blocks; auto; lia).
  replace (seam + 1 - 1) with seam by lia. cbn [Nat.add].
  apply join_layers_split; [now apply lattice_blocks | lia].
Qed.

Lemma split_seam_close (tolerance : Q) :
  (0 <= tolerance)%Q -> seam_close A B a tolerance = true.
Proof.
  intros Ht. unfold seam_close, last_layer, first_layer, layer.
  destruct split_shape_A as [-> [-> ->]].
  destruct split_shape_B as [-> [-> ->]].
  rewrite (split_points_A _ _ _ _ _ Hsplit), (split_points_B _ _ _ _ _ Hsplit).
  fold n.
  rewrite split_last_layer_A, split_first_layer_B by apply (valid_points G HG).
  apply (forallb_combine_same (close3 tolerance)).
  intros p. now apply close3_same.
Qed.

Lemma split_fields_equal :
  find (fun kv => negb (field_seam_equal A B a kv)) (point_arrays A) = None.
Proof.
  apply find_all_false. intros kv Hin.
  rewrite (split_point_arrays_A _ _ _ _ _ Hsplit) in Hin.
  apply in_map_iff in Hin. destruct Hin as [[k v] [<- Hin]]. cbn [fst snd].
  apply negb_false_iff. unfold field_seam_equal. cbv zeta. cbn [fst snd].
  destruct split_shape_A as [-> [-> ->]].
  destruct split_shape_B as [-> [-> ->]].
  unfold values. rewrite (split_point_arrays_B _ _ _ _ _ Hsplit).
  rewrite (dict_get_map
             (fun kv => sub_layers G a seam (extent (point_shape G) a - seam) (snd kv))
             (point_arrays G) k v (valid_point_names G HG) Hin).
  cbn [snd]. fold n.
  pose proof (valid_point_arrays G HG) as Hl. rewrite Forall_forall in Hl.
  specialize (Hl (k, v) Hin). cbn [snd] in Hl.
  rewrite split_last_layer_A, split_first_layer_B by assumption.
  apply (forallb_combine_same Qeq_bool). intros x. apply Qeq_bool_refl.
Qed.
End SplitFacts.


Lemma valid_grid_AB : valid_grid grid_AB.
Proof. prove_valid. Qed.

(** [grid_A] and [grid_B] are the two halves of [grid_AB] along the first
    axis, sharing its middle column. *)
Lemma split_grid_AB : is_split grid_AB 0 1 grid_A grid_B.
Proof.
  constructor; try reflexivity.
  - vm_compute. lia.
  - exact valid_grid_A.
  - exact valid_grid_B.
Qed.


(** ** Where the errors come from *)

Lemma bind_Raise {A B : Type} (r : result A) (k : A -> result B) (e : error) :
  bind r k = Raise e -> r = Raise e \/ exists x, r = Ok x /\ k x = Raise e.
Proof.
  destruct r as [x|e']; simpl; intros H.
  - right. exists x. auto.
  - left. now injection H as ->.
Qed.

Lemma normalize_index_library (le : library_error) (n : nat) (i : Z) (e : error) :
  normalize_index le n i = Raise e -> is_library_error e.
Proof.
  unfold normalize_index, raise_lib.
  destruct (_ && _); [discriminate|]. destruct (_ && _); [discriminate|].
  intros H. injection H as <-. exact I.
Qed.

Lemma reshape_F_library (sh : list nat) (l : list Q) (e : error) :
  reshape_F sh l = Raise e -> is_library_error e.
Proof.
  unfold reshape_F, raise_lib. destruct (_ =? _); [discriminate|].
  intros H. injection H as <-. exact I.
Qed.

Lemma shape_of_library (l : list Z) (e : error) :
  shape_of l = Raise e -> is_library_error e.
Proof.
  unfold shape_of, raise_lib. destruct (forallb _ _); [discriminate|].
  intros H. injection H as <-. exact I.
Qed.

(** Splits a failed run at the step that raised. *)
Ltac run_raise H :=
  repeat match type of H with
    | bind ?r _ = Raise _ =>
        let x := fresh "x" in
        let Hx := fresh "Hx" in
        apply bind_Raise in H; destruct H as [H | [x [Hx H]]]
    end.

Lemma points_matrix_library (g : Grid) (e : error) :
  points_matrix g = Raise e -> is_library_error e.
Proof.
  unfold points_matrix. intros H. run_raise H.
  - now apply shape_of_library in H.
  - now apply reshape_F_library in H.
Qed.

Lemma reshape_point_array_library (g : Grid) (v : list Q) (e : error) :
  _reshape_point_array g v = Raise e -> is_library_error e.
Proof.
  unfold _reshape_point_array. intros H. run_raise H.
  - now apply shape_of_library in H.
  - now apply reshape_F_library in H.
Qed.

Lemma reshape_cell_array_library (g : Grid) (v : list Q) (e : error) :
  _reshape_cell_array g v = Raise e -> is_library_error e.
Proof.
  unfold _reshape_cell_array. intros H. run_raise H.
  - now apply shape_of_library in H.
  - now apply reshape_F_library in H.
Qed.

Lemma np_take_library (a : ndarray) (i axis : Z) (e : error) :
  np_take a i axis = Raise e -> is_library_error e.
Proof.
  unfold np_take. intros H. run_raise H.
  - now apply normalize_index_library in H.
  - now apply normalize_index_library in H.
  - discriminate H.
Qed.

Lemma np_allclose_library (a b : ndarray) (atol : Q) (e : error) :
  np_allclose a b atol = Raise e -> is_library_error e.
Proof.
  unfold np_allclose, raise_lib. destruct (list_eqb _ _); [discriminate|].
  intros H. injection H as <-. exact I.
Qed.

Lemma getitem_from_library (ax : nat) (a : ndarray) (spec : list pyslice) (e : error) :
  getitem_from ax a spec = Raise e -> is_library_error e.
Proof.
  revert ax a. induction spec as [|s rest IH]; intros ax a H; simpl in H.
  - discriminate H.
  - destruct (ax <? ndim a).
    + now apply IH in H.
    + injection H as <-. exact I.
Qed.

Lemma np_concatenate_library (a b : ndarray) (axis : Z) (e : error) :
  np_concatenate a b axis = Raise e -> is_library_error e.
Proof.
  unfold np_concatenate, raise_lib.
  destruct (ndim a =? 0); [intros H; injection H as <-; exact I|].
  intros H. run_raise H.
  - now apply normalize_index_library in H.
  - destruct (negb (ndim a =? ndim b)); [injection H as <-; exact I|].
    destruct (negb (list_eqb _ _)); [injection H as <-; exact I | discriminate H].
Qed.

Lemma dict_get_library (d : dict) (k : string) (e : error) :
  dict_get d k = Raise e -> is_library_error e.
Proof.
  induction d as [|[k' v] d IH]; simpl; intros H.
  - injection H as <-. exact I.
  - destruct (String.eqb k' k); [discriminate H | now apply IH].
Qed.

Lemma unstack3_library (l : list Q) (e : error) :
  unstack3 l = Raise e -> is_library_error e.
Proof.
  unfold unstack3, raise_lib. destruct (_ =? _); [discriminate|].
  intros H. injection H as <-. exact I.
Qed.

Lemma check_dimensions_error (i : Z) (pairs : list (Z * Z)) (axis : Z) (e e' : error) :
  check_dimensions i pairs axis e = Raise e' -> e' = e.
Proof.
  revert i. induction pairs as [|[dim1 dim2] rest IH]; intros i H; simpl in H.
  - discriminate H.
  - destruct (i =? axis)%Z; [now apply IH in H|].
    destruct (negb (dim1 =? dim2)%Z); [now injection H | now apply IH in H].
Qed.

Lemma join_point_arrays_error (base other : Grid) (axis : Z)
    (slice_spec : list pyslice) (items acc : dict) (e : error) :
  join_point_arrays base other axis slice_spec items acc = Raise e ->
  is_library_error e \/ exists name, e = SeamFieldMismatch axis name /\ In name (keys items).
Proof.
  revert acc. induction items as [|[name v] rest IH]; intros acc H.
  - discriminate H.
  - cbn [join_point_arrays] in H. run_raise H.
    + left. now apply reshape_point_array_library in H.
    + left. now apply dict_get_library in H.
    + left. now apply reshape_point_array_library in H.
    + left. now apply np_take_library in H.
    + left. now apply np_take_library in H.
    + destruct (negb (np_array_equal _ _)).
      * injection H as <-. right. exists name. split; [reflexivity | now left].
      * run_raise H.
        -- left. now apply getitem_from_library in H.
        -- left. now apply np_concatenate_library in H.
        -- apply IH in H. destruct H as [H | [name' [-> Hin]]]; [now left|].
           right. exists name'. split; [reflexivity | now right].
Qed.

Lemma join_cell_arrays_error (base other : Grid) (axis : Z) (items acc : dict)
    (e : error) :
  join_cell_arrays base other axis items acc = Raise e -> is_library_error e.
Proof.
  revert acc. induction items as [|[name v] rest IH]; intros acc H.
  - discriminate H.
  - cbn [join_cell_arrays] in H. run_raise H.
    + now apply reshape_cell_array_library in H.
    + now apply dict_get_library in H.
    + now apply reshape_cell_array_library in H.
    + now apply np_concatenate_library in H.
    + now apply IH in H.
Qed.

Lemma make_slice_spec_library (axis : Z) (e : error) :
  make_slice_spec axis = Raise e -> is_library_error e.
Proof.
  unfold make_slice_spec. intros H. run_raise H.
  - now apply normalize_index_library in H.
  - discriminate H.
Qed.

Lemma compute_new_dims_library (d1 d2 : dims) (axis : Z) (e : error) :
  compute_new_dims d1 d2 axis = Raise e -> is_library_error e.
Proof.
  unfold compute_new_dims. intros H. run_raise H.
  - now apply normalize_index_library in H.
  - discriminate H.
Qed.

Lemma library_error_context (base other : Grid) (axis : Z) (tolerance : Q) (e : error) :
  (axis <= 2)%Z -> is_library_error e -> error_context base other axis tolerance e.
Proof.
  intros Hax He. destruct e; try contradiction. exact Hax.
Qed.

(** Every error of [concatenate] carries the context of the check that
    raised it; in particular the invalid-axis error is raised for an axis
    above 2 and for no other. *)
Lemma concatenate_error_context (base other : Grid) (axis : Z) (tolerance : Q)
    (e : error) :
  concatenate base other axis tolerance = Raise e ->
  error_context base other axis tolerance e.
Proof.
  unfold concatenate. destruct (Z.gtb_spec axis 2) as [Hgt|Hle].
  - intros H. injection H as <-. simpl. lia.
  - intros H. run_raise H.
    + apply check_dimensions_error in H. subst e. simpl. auto.
    + destruct (negb _); [injection H as <-; exact Hle|].
      destruct (negb _); [injection H as <-; exact Hle|].
      run_raise H;
        try (apply library_error_context; [exact Hle|];
             first [ now apply points_matrix_library in H
                   | now apply np_take_library in H
                   | now apply np_allclose_library in H ]).
      destruct (negb _); [injection H as <-; simpl; auto|].
      run_raise H;
        try (apply library_error_context; [exact Hle|];
             first [ now apply make_slice_spec_library in H
                   | now apply compute_new_dims_library in H
                   | now apply getitem_from_library in H
                   | now apply np_concatenate_library in H
                   | now apply join_cell_arrays_error in H
                   | now apply unstack3_library in H ]).
      * apply join_point_arrays_error in H.
        destruct H as [H | [name [-> Hin]]].
        -- now apply library_error_context.
        -- simpl. auto.
      * discriminate H.
Qed.

(** ** Negative axes *)

Lemma normalize_index_negative (le : library_error) (n : nat) (i : Z) (k : nat) :
  (i < 0)%Z -> normalize_index le n i = Ok k ->
  k < n /\ Z.of_nat k = (i + Z.of_nat n)%Z.
Proof.
  intros Hi. unfold normalize_index.
  destruct (Z.leb_spec 0 i) as [Hp|_]; [lia|]. cbn [andb].
  destruct (Z.leb_spec (- Z.of_nat n) i) as [Hlo|_]; cbn [andb].
  - destruct (Z.ltb_spec i 0) as [_|Hge]; [|lia].
    intros Hk. injection Hk as <-. lia.
  - discriminate.
Qed.

(** With a negative axis no index of the dimension loop is skipped, so the
    check passes only on equal dimensions. *)
Lemma dims_compatible_negative (d1 d2 : dims) (axis : Z) :
  (axis < 0)%Z -> dims_compatible d1 d2 axis = true -> d1 = d2.
Proof.
  intros Hax H. rewrite dims_compatible_nth in H.
  destruct d1 as [[x1 y1] z1], d2 as [[x2 y2] z2].
  pose proof (H 0) as H0. pose proof (H 1) as H1. pose proof (H 2) as H2.
  simpl in H0, H1, H2.
  rewrite H0, H1, H2 by lia. reflexivity.
Qed.

(** On grids that satisfy the invariant a negative axis never yields a
    grid: the call that gets past the checks stops in numpy, the sliced
    base being one layer short of other off the axis numpy counts from
    the end of the four-dimensional matrix of points. *)
Lemma negative_axis_never_returns (base other g : Grid) (axis : Z) (tolerance : Q) :
  valid_grid base -> valid_grid other -> (axis < 0)%Z ->
  concatenate base other axis tolerance <> Ok g.
Proof.
  intros Hb Ho Hax H. unfold concatenate in H. run_ok H.
  match goal with
  | Hd : check_dimensions _ _ _ _ = Ok _ |- _ =>
      rewrite check_dimensions_spec in Hd;
      destruct (dims_compatible _ _ _) eqn:Hc; [clear Hd | discriminate Hd]
  end.
  apply dims_compatible_negative in Hc; [|assumption].
  rewrite points_matrix_valid in * by assumption.
  repeat match goal with
    | Hp : Ok _ = Ok ?x |- _ => injection Hp as Hp; subst x
    end.
  match goal with
  | Hs : make_slice_spec _ = Ok _ |- _ =>
      unfold make_slice_spec in Hs; apply bind_Ok in Hs;
      destruct Hs as [i [Hi Hs]]; injection Hs as Hs;
      apply normalize_index_negative in Hi; [destruct Hi as [Hi3 Hi] | assumption]
  end.
  subst.
  match goal with
  | Hg : getitem _ _ = Ok _ |- _ =>
      rewrite getitem_slice_spec in Hg;
      [ injection Hg as Hg
      | unfold well_shaped; cbn [shape data];
        rewrite stack3_length, prod_app, (valid_points base Hb);
        unfold n_points; simpl; lia
      | unfold ndim; cbn [shape]; rewrite length_app, length_point_shape; simpl; lia
      | assumption ]
  end.
  subst.
  match goal with
  | Hn : np_concatenate _ _ _ = Ok _ |- _ =>
      unfold np_concatenate in Hn;
      destruct (ndim _ =? 0); [discriminate Hn|];
      apply bind_Ok in Hn; destruct Hn as [j [Hj Hn]];
      apply normalize_index_negative in Hj; [destruct Hj as [_ Hj] | assumption];
      destruct (negb (ndim _ =? ndim _)); [discriminate Hn|];
      destruct (list_eqb _ _) eqn:Heq; [clear Hn | discriminate Hn]
  end.
  apply list_eqb_eq in Heq.
  rewrite slice_axis_drop_last in Heq
    by (unfold ndim; cbn [shape]; rewrite length_app, length_point_shape; simpl; lia).
  assert (Hji : j = S i).
  { rewrite ndim_slice_axis in Hj
      by (unfold ndim; cbn [shape]; rewrite length_app, length_point_shape; simpl; lia).
    unfold ndim in Hj. cbn [shape] in Hj.
    rewrite length_app, length_point_shape in Hj. simpl length in Hj. lia. }
  subst j. cbn [shape] in Heq.
  destruct (extent_point_shape base Hb i Hi3) as [_ Hpos].
  unfold extent in Heq, Hpos. unfold point_shape in Heq, Hpos. rewrite Hc in Heq, Hpos.
  destruct (dimensions other) as [[dx dy] dz].
  destruct i as [|[|[|i]]]; [| | |lia]; cbn in Heq, Hpos;
    injection Heq; intros; lia.
Qed.

(** ** The axis and the errors *)

(** C4 (as amended).  The invalid-axis error is raised exactly for the
    axes above 2, whatever the grids and the tolerance, and then no grid
    is returned.  A negative axis gets past the guard; on grids that
    satisfy the invariant such a call returns no grid either, it ends in
    another error. *)
Theorem invalid_axis_exactly_above_two (base other : Grid) (axis : Z) (tolerance : Q) :
  (concatenate base other axis tolerance = Raise InvalidAxis <-> (2 < axis)%Z)
  /\ ((2 < axis)%Z -> forall g, concatenate base other axis tolerance <> Ok g)
  /\ ((axis < 0)%Z -> valid_grid base -> valid_grid other ->
      exists e, concatenate base other axis tolerance = Raise e /\ e <> InvalidAxis).
Proof.
  split; [|split].
  - split.
    + intros H. apply concatenate_error_context in H. exact H.
    + apply axis_above_two.
  - intros H g. rewrite axis_above_two by assumption. discriminate.
  - intros Hax Hb Ho.
    destruct (concatenate base other axis tolerance) as [g|e] eqn:E.
    + exfalso. exact (negative_axis_never_returns base other g axis tolerance Hb Ho Hax E).
    + exists e. split; [reflexivity|].
      intros ->. apply concatenate_error_context in E. simpl in E. lia.
Qed.

Lemma invalid_axis_exactly_above_two_witness :
  (concatenate grid_A grid_B 3 0 = Raise InvalidAxis <-> (2 < 3)%Z)
  /\ ((2 < 3)%Z -> forall g, concatenate grid_A grid_B 3 0 <> Ok g)
  /\ ((3 < 0)%Z -> valid_grid grid_A -> valid_grid grid_B ->
      exists e, concatenate grid_A grid_B 3 0 = Raise e /\ e <> InvalidAxis).
Proof.
  exact (invalid_axis_exactly_above_two grid_A grid_B 3 0).
Defined.

(** C4, the claim as stated fails: the axis -1 is outside {0, 1, 2}, yet
    the guard [axis > 2] lets it through; on one-point grids the call ends
    in numpy.concatenate, which raises ValueError, not the invalid-axis
    error. *)
Lemma negative_axis_not_invalid_axis :
  ~ (0 <= -1 <= 2)%Z
  /\ concatenate grid_origin grid_origin (-1) 0 = Raise (LibraryError ValueError)
  /\ concatenate grid_origin grid_origin (-1) 0 <> Raise InvalidAxis.
Proof.
  split; [lia|]. split; [vm_compute; reflexivity|].
  vm_compute. discriminate.
Qed.




(** * Further properties of [concatenate] *)

(** ** The checks that the claims leave out *)

(** X1.  When the axis passes the guard, the dimensions agree off the
    axis and the point-field names are the same on both grids, cell-field
    name sets that differ get the cell-field-name error, whatever the
    points and the tolerance. *)
Theorem cell_names_checked_before_seam (base other : Grid) (axis : Z) (tolerance : Q) :
  (axis <= 2)%Z ->
  (forall i, i < 3 -> Z.of_nat i <> axis -> dim_at base i = dim_at other i) ->
  (forall k, In k (keys (point_arrays base)) <-> In k (keys (point_arrays other))) ->
  ~ (forall k, In k (keys (cell_arrays base)) <-> In k (keys (cell_arrays other))) ->
  concatenate base other axis tolerance = Raise CellFieldNameMismatch.
Proof.
  intros Hax Hd Hp Hk. unfold concatenate.
  destruct (Z.gtb_spec axis 2); [lia|].
  rewrite check_dimensions_spec.
  rewrite (proj2 (dims_compatible_nth _ _ _) Hd). cbn [bind].
  rewrite (proj2 (key_set_eqb_spec _ _) Hp). cbn [negb].
  destruct (key_set_eqb _ _) eqn:Hs; [|reflexivity].
  exfalso. apply Hk. now apply key_set_eqb_spec.
Qed.

Lemma cell_names_checked_before_seam_witness :
  concatenate grid_A grid_E 0 0 = Raise CellFieldNameMismatch.
Proof.
  apply cell_names_checked_before_seam.
  - lia.
  - intros [|[|[|i]]] Hi Hne; try reflexivity; lia.
  - intros k. reflexivity.
  - intros H. destruct (H "c"%string) as [H1 _].
    simpl in H1. destruct H1 as [H1|[]]; [now left | discriminate H1].
Defined.

(** X2.  A negative axis is no index of the loop over the dimensions, so
    no axis is skipped: grids whose dimensions differ anywhere get the
    dimension-mismatch error. *)
Theorem negative_axis_compares_all_dimensions (base other : Grid) (axis : Z)
    (tolerance : Q) :
  (axis < 0)%Z -> dimensions base <> dimensions other ->
  concatenate base other axis tolerance
  = Raise (DimensionMismatch (dimensions base) (dimensions other)).
Proof.
  intros Hax Hd. unfold concatenate.
  destruct (Z.gtb_spec axis 2); [lia|].
  rewrite check_dimensions_spec.
  destruct (dims_compatible _ _ _) eqn:Hc; [|reflexivity].
  exfalso. apply Hd. now apply (dims_compatible_negative _ _ axis).
Qed.

Lemma negative_axis_compares_all_dimensions_witness :
  concatenate grid_A grid_AB (-3) 0
  = Raise (DimensionMismatch (dimensions grid_A) (dimensions grid_AB)).
Proof.
  apply negative_axis_compares_all_dimensions.
  - lia.
  - discriminate.
Defined.

(** ** The tolerance *)

Lemma isclose_monotone (t t' a b : Q) :
  (t <= t')%Q -> isclose t a b = true -> isclose t' a b = true.
Proof.
  intros Ht H. apply isclose_true in H. apply isclose_true.
  eapply Qle_trans; [exact H|]. apply Qplus_le_compat; [exact Ht | apply Qle_refl].
Qed.

Lemma np_allclose_monotone (a b : ndarray) (t t' : Q) :
  (t <= t')%Q -> np_allclose a b t = Ok true -> np_allclose a b t' = Ok true.
Proof.
  intros Ht. unfold np_allclose. destruct (list_eqb _ _); [|discriminate].
  intros H. injection H as H. f_equal.
  rewrite forallb_forall in H. apply forallb_forall.
  intros p Hp. apply (isclose_monotone t t'); auto.
Qed.

(** X3.  The tolerance decides whether the grids are joined, never what
    the joined grid is: a call that succeeds with one tolerance succeeds
    with every larger one and returns the same grid. *)
Theorem larger_tolerance_same_grid (base other g : Grid) (axis : Z) (t t' : Q) :
  (t <= t')%Q ->
  concatenate base other axis t = Ok g ->
  concatenate base other axis t' = Ok g.
Proof.
  intros Ht H. unfold concatenate in *.
  destruct (axis >? 2)%Z; [discriminate H|].
  destruct (check_dimensions _ _ _ _); [|discriminate H]. cbn [bind] in *.
  destruct (negb _); [discriminate H|].
  destruct (negb _); [discriminate H|].
  destruct (points_matrix base); [|discriminate H]. cbn [bind] in *.
  destruct (np_take _ (-1) axis); [|discriminate H]. cbn [bind] in *.
  destruct (points_matrix other); [|discriminate H]. cbn [bind] in *.
  destruct (np_take _ 0 axis); [|discriminate H]. cbn [bind] in *.
  destruct (np_allclose _ _ t) as [close|] eqn:Hclose; [|discriminate H].
  cbn [bind] in H. destruct close; [|discriminate H]. cbn [negb] in H.
  rewrite (np_allclose_monotone _ _ t t' Ht Hclose). cbn [bind negb].
  exact H.
Qed.

Lemma larger_tolerance_same_grid_witness :
  concatenate grid_A grid_B 0 (1 # 2) = Ok grid_AB.
Proof.
  apply (larger_tolerance_same_grid grid_A grid_B grid_AB 0 0 (1 # 2)).
  - discriminate.
  - vm_compute. reflexivity.
Defined.

(** ** Success *)

Lemma seam_close_true (base other : Grid) (a : nat) (tolerance : Q) :
  seam_close base other a tolerance = true
  <-> Forall (fun ab => (Qabs (fst ab - snd ab) <= tolerance + rtol * Qabs (snd ab))%Q)
        (seam_pairs base other a).
Proof.
  rewrite seam_close_pairs, forallb_forall, Forall_forall.
  split; intros H ab Hin; apply isclose_true; now apply H.
Qed.

Lemma find_None_Forall {A : Type} (f : A -> bool) (l : list A) :
  find (fun x => negb (f x)) l = None <-> Forall (fun x => f x = true) l.
Proof.
  rewrite Forall_forall. split.
  - intros H x Hin. apply (find_none _ _ H) in Hin. now apply negb_false_iff.
  - intros H. apply find_all_false. intros x Hin.
    apply negb_false_iff. now apply H.
Qed.


Lemma joinable_A_B : joinable grid_A grid_B 0 0.
Proof.
  constructor.
  - intros [|[|[|i]]] Hi Hne; try reflexivity; lia.
  - intros k. reflexivity.
  - intros k. reflexivity.
  - apply seam_close_true. vm_compute. reflexivity.
  - repeat constructor.
Qed.


(** ** The point fields at the seam *)

Lemma find_first {A : Type} (f : A -> bool) (l : list A) (x : A) :
  find f l = Some x
  <-> exists before after,
        l = before ++ x :: after /\ f x = true
        /\ Forall (fun y => f y = false) before.
Proof.
  split.
  - induction l as [|y l IH]; simpl; intros H.
    + discriminate H.
    + destruct (f y) eqn:Hy.
      * injection H as ->. exists [], l. auto.
      * destruct (IH H) as [before [after [-> [Hx Hb]]]].
        exists (y :: before), after. auto.
  - intros [before [after [-> [Hx Hb]]]].
    induction Hb as [|y before Hy Hb IH]; simpl.
    + now rewrite Hx.
    + now rewrite Hy.
Qed.

(** X5.  When the grids pass the checks up to the coincidence of the
    seam points, the seam-field error is raised with a name exactly when
    that name is the first point field of base, in the order of its
    dictionary, whose values on the last layer of base are not all equal
    to those of the same-named field on the first layer of other. *)
Theorem seam_field_error_names_first_field (base other : Grid) (a : nat)
    (tolerance : Q) (name : string) :
  valid_grid base -> valid_grid other -> a < 3 ->
  (forall i, i < 3 -> i <> a -> dim_at base i = dim_at other i) ->
  (forall k, In k (keys (point_arrays base)) <-> In k (keys (point_arrays other))) ->
  (forall k, In k (keys (cell_arrays base)) <-> In k (keys (cell_arrays other))) ->
  Forall (fun ab => (Qabs (fst ab - snd ab) <= tolerance + rtol * Qabs (snd ab))%Q)
    (seam_pairs base other a) ->
  (concatenate base other (Z.of_nat a) tolerance
     = Raise (SeamFieldMismatch (Z.of_nat a) name)
   <-> exists before v after,
         point_arrays base = before ++ (name, v) :: after
         /\ field_seam_equal base other a (name, v) = false
         /\ Forall (fun kv => field_seam_equal base other a kv = true) before).
Proof.
  intros Hb Ho Ha Hd Hpk Hck Hs.
  rewrite concatenate_meets_spec by assumption. unfold concatenate_spec.
  assert (Hc : dims_compatible (dimensions base) (dimensions other) (Z.of_nat a) = true).
  { apply dims_compatible_nth. intros i Hi Hne. apply Hd; [assumption | lia]. }
  rewrite Hc, (proj2 (key_set_eqb_spec _ _) Hpk), (proj2 (key_set_eqb_spec _ _) Hck).
  rewrite (proj2 (seam_close_true _ _ _ _) Hs). cbn [negb].
  split.
  - intros H. destruct (find _ _) as [[k v]|] eqn:Hf; [|discriminate H].
    injection H as <-. cbn [fst].
    apply find_first in Hf. destruct Hf as [before [after [Heq [Hx Hbefore]]]].
    exists before, v, after. split; [exact Heq|]. split.
    + now apply negb_true_iff.
    + eapply Forall_impl; [|exact Hbefore].
      intros kv Hkv. now apply negb_false_iff.
  - intros [before [v [after [Heq [Hx Hbefore]]]]].
    replace (find _ (point_arrays base)) with (Some (name, v)); [reflexivity|].
    symmetry. apply find_first. exists before, after. split; [exact Heq|]. split.
    + now apply negb_true_iff.
    + eapply Forall_impl; [|exact Hbefore].
      intros kv Hkv. now apply negb_false_iff.
Qed.

Lemma valid_grid_F : valid_grid grid_F.
Proof. prove_valid. Qed.

Lemma valid_grid_G : valid_grid grid_G.
Proof. prove_valid. Qed.

Lemma seam_field_error_names_first_field_witness :
  concatenate grid_F grid_G (Z.of_nat 0) 0 = Raise (SeamFieldMismatch (Z.of_nat 0) "p")
  <-> exists before v after,
        point_arrays grid_F = before ++ ("p"%string, v) :: after
        /\ field_seam_equal grid_F grid_G 0 ("p"%string, v) = false
        /\ Forall (fun kv => field_seam_equal grid_F grid_G 0 kv = true) before.
Proof.
  apply (seam_field_error_names_first_field grid_F grid_G 0 0 "p"
           valid_grid_F valid_grid_G).
  - lia.
  - intros [|[|[|i]]] Hi Hne; try reflexivity; lia.
  - intros k. simpl. tauto.
  - intros k. reflexivity.
  - apply seam_close_true. vm_compute. reflexivity.
Defined.

(** The field [p] is reported though [q] differs too and comes first in
    the dictionary of other. *)
Lemma seam_field_error_example :
  concatenate grid_F grid_G 0 0 = Raise (SeamFieldMismatch 0 "p").
Proof. vm_compute. reflexivity. Qed.

(** ** The fields of the result *)

(** X6.  The point and cell fields of the result are those of base, in
    the order of base, whatever the order of the fields of other. *)
Theorem result_fields_in_base_order (base other g : Grid) (a : nat) (tolerance : Q) :
  valid_grid base -> valid_grid other -> a < 3 ->
  concatenate base other (Z.of_nat a) tolerance = Ok g ->
  keys (point_arrays g) = keys (point_arrays base)
  /\ keys (cell_arrays g) = keys (cell_arrays base).
Proof.
  intros Hb Ho Ha H.
  destruct (concatenate_Ok_merged base other g a tolerance Hb Ho Ha H) as [-> _].
  cbn [point_arrays cell_arrays merged_grid].
  now rewrite !keys_map_fst.
Qed.

Lemma dict_get_unique (d : dict) (k : string) (v : list Q) :
  NoDup (keys d) -> In (k, v) d -> dict_get d k = Ok v.
Proof.
  induction d as [|[k' v'] d IH]; intros Hnd Hin; simpl in *.
  - contradiction.
  - inversion_clear Hnd as [|? ? Hk' Hnd'].
    destruct Hin as [Heq|Hin].
    + injection Heq as -> ->. now rewrite String.eqb_refl.
    + destruct (String.eqb_spec k' k) as [->|Hne].
      * exfalso. apply Hk'. change k with (fst (k, v)). now apply in_map.
      * now apply IH.
Qed.

Lemma values_unique (d : dict) (k : string) (v : list Q) :
  NoDup (keys d) -> In (k, v) d -> values d k = v.
Proof.
  intros Hnd Hin. unfold values. now rewrite (dict_get_unique d k v).
Qed.

Lemma values_map (f : string * list Q -> list Q) (d : dict) (k : string) (v : list Q) :
  NoDup (keys d) -> In (k, v) d ->
  values (map (fun kv => (fst kv, f kv)) d) k = f (k, v).
Proof.
  intros Hnd Hin. unfold values. now rewrite (dict_get_map f d k v).
Qed.

Section JoinedLayers.
Context {T : Type}.
Variables sh1 sh2 : list nat.
Variable a : nat.
Hypothesis Ha1 : a < length sh1.
Hypothesis Ha2 : a < length sh2.
Hypothesis Hf : firstn a sh1 = firstn a sh2.
Hypothesis Hs : skipn (S a) sh1 = skipn (S a) sh2.
Variables l1 l2 : list T.
Hypothesis H1 : length l1 = prod sh1.
Hypothesis H2 : length l2 = prod sh2.

Lemma field_layer_set_nth (v t : nat) (l : list T) :
  field_layer (set_nth a v sh1) a t l
  = take_layer (stride sh1 a) v (outer sh1 a) t l.
Proof.
  unfold field_layer, stride, extent, outer.
  now rewrite firstn_set_nth, skipn_set_nth, nth_set_nth by lia.
Qed.

Lemma field_layer_other (t : nat) :
  field_layer sh2 a t l2
  = take_layer (stride sh1 a) (extent sh2 a) (outer sh1 a) t l2.
Proof.
  unfold field_layer, stride, outer. now rewrite Hf, Hs.
Qed.

(** Below the seam the layers of a join that drops the seam are those of
    the first sequence. *)
Lemma join_dropping_seam_layer_l (t : nat) :
  t < extent sh1 a - 1 ->
  field_layer (set_nth a (extent sh1 a - 1 + extent sh2 a) sh1) a t
    (join_dropping_seam sh1 sh2 a l1 l2)
  = field_layer sh1 a t l1.
Proof.
  intros Ht. rewrite field_layer_set_nth. unfold join_dropping_seam.
  rewrite take_layer_join_l.
  - rewrite take_layer_slice by (try apply (blocks_1 sh1 a Ha1 l1 H1); lia).
    reflexivity.
  - apply slice_layers_length; [apply (blocks_1 sh1 a Ha1 l1 H1) | lia].
  - apply (blocks_2 sh1 sh2 a Ha2 Hf Hs l2 H2).
  - assumption.
Qed.

(** From the seam on they are the layers of the second. *)
Lemma join_dropping_seam_layer_r (t : nat) :
  field_layer (set_nth a (extent sh1 a - 1 + extent sh2 a) sh1) a
    (extent sh1 a - 1 + t) (join_dropping_seam sh1 sh2 a l1 l2)
  = field_layer sh2 a t l2.
Proof.
  rewrite field_layer_set_nth, field_layer_other. unfold join_dropping_seam.
  apply take_layer_join_r.
  - apply slice_layers_length; [apply (blocks_1 sh1 a Ha1 l1 H1) | lia].
  - apply (blocks_2 sh1 sh2 a Ha2 Hf Hs l2 H2).
Qed.

(** The layers of a join that keeps everything: first those of the first
    sequence, then those of the second. *)
Lemma join_keeping_layer_l (t : nat) :
  t < extent sh1 a ->
  field_layer (set_nth a (extent sh1 a + extent sh2 a) sh1) a t
    (join_keeping sh1 sh2 a l1 l2)
  = field_layer sh1 a t l1.
Proof.
  intros Ht. rewrite field_layer_set_nth. unfold join_keeping.
  apply take_layer_join_l.
  - apply (blocks_1 sh1 a Ha1 l1 H1).
  - apply (blocks_2 sh1 sh2 a Ha2 Hf Hs l2 H2).
  - assumption.
Qed.

Lemma join_keeping_layer_r (t : nat) :
  field_layer (set_nth a (extent sh1 a + extent sh2 a) sh1) a
    (extent sh1 a + t) (join_keeping sh1 sh2 a l1 l2)
  = field_layer sh2 a t l2.
Proof.
  rewrite field_layer_set_nth, field_layer_other. unfold join_keeping.
  apply take_layer_join_r.
  - apply (blocks_1 sh1 a Ha1 l1 H1).
  - apply (blocks_2 sh1 sh2 a Ha2 Hf Hs l2 H2).
Qed.
End JoinedLayers.

(** X7.  Every point field of the result has, below the seam, the
    values of the field of base, layer by layer, and from the seam on the
    values of the field of that name of other: the values of base on its
    last layer are the ones left out. *)
Theorem point_field_layers (base other g : Grid) (a : nat) (tolerance : Q)
    (k : string) (v : list Q) :
  valid_grid base -> valid_grid other -> a < 3 ->
  concatenate base other (Z.of_nat a) tolerance = Ok g ->
  In (k, v) (point_arrays base) ->
  let n1 := extent (point_shape base) a in
  let w := values (point_arrays g) k in
  (forall t, t < n1 - 1 ->
     field_layer (point_shape g) a t w = field_layer (point_shape base) a t v)
  /\ (forall t,
        field_layer (point_shape g) a (n1 - 1 + t) w
        = field_layer (point_shape other) a t (values (point_arrays other) k)).
Proof.
  intros Hb Ho Ha H Hin n1 w.
  destruct (concatenate_Ok_merged base other g a tolerance Hb Ho Ha H)
    as [-> [Hc [Hpk _]]].
  destruct (compatible_shapes base other a Ha Hc) as [[Hf Hs] _].
  pose proof (length_point_shape base) as L1.
  pose proof (length_point_shape other) as L2.
  assert (Hv : length v = prod (point_shape base)).
  { pose proof (valid_point_arrays base Hb) as Hl. rewrite Forall_forall in Hl.
    apply (Hl (k, v) Hin). }
  assert (Hv2 : length (values (point_arrays other) k) = prod (point_shape other)).
  { apply (other_point_array other Ho). apply (proj1 (key_set_eqb_spec _ _) Hpk).
    change k with (fst (k, v)). now apply in_map. }
  subst w. cbn [point_arrays merged_grid].
  rewrite (values_map
             (fun kv => join_dropping_seam (point_shape base) (point_shape other) a
                          (snd kv) (values (point_arrays other) (fst kv)))
             (point_arrays base) k v (valid_point_names base Hb) Hin).
  cbn [fst snd]. rewrite point_shape_merged by assumption.
  split.
  - intros t Ht. apply join_dropping_seam_layer_l; try assumption; lia.
  - intros t. apply join_dropping_seam_layer_r; try assumption; lia.
Qed.

Lemma point_field_layers_witness :
  let n1 := extent (point_shape grid_A) 0 in
  let w := values (point_arrays grid_AB) "t" in
  (forall t, t < n1 - 1 ->
     field_layer (point_shape grid_AB) 0 t w
     = field_layer (point_shape grid_A) 0 t [1; 2; 3; 4]%Q)
  /\ (forall t,
        field_layer (point_shape grid_AB) 0 (n1 - 1 + t) w
        = field_layer (point_shape grid_B) 0 t (values (point_arrays grid_B) "t")).
Proof.
  apply (point_field_layers grid_A grid_B grid_AB 0 0 "t" [1; 2; 3; 4]%Q
           valid_grid_A valid_grid_B).
  - lia.
  - vm_compute. reflexivity.
  - now left.
Defined.

(** X8.  Every cell field of the result is the cell field of base
    followed along the axis, layer of cells by layer of cells, by the cell
    field of that name of other; no layer of cells is dropped. *)
Theorem cell_field_layers (base other g : Grid) (a : nat) (tolerance : Q)
    (k : string) (v : list Q) :
  valid_grid base -> valid_grid other -> a < 3 ->
  concatenate base other (Z.of_nat a) tolerance = Ok g ->
  In (k, v) (cell_arrays base) ->
  let c1 := extent (cell_shape base) a in
  let c2 := extent (cell_shape other) a in
  let sh := set_nth a (c1 + c2) (cell_shape base) in
  let w := values (cell_arrays g) k in
  length w = prod sh
  /\ (forall t, t < c1 -> field_layer sh a t w = field_layer (cell_shape base) a t v)
  /\ (forall t,
        field_layer sh a (c1 + t) w
        = field_layer (cell_shape other) a t (values (cell_arrays other) k)).
Proof.
  intros Hb Ho Ha H Hin c1 c2 sh w.
  destruct (concatenate_Ok_merged base other g a tolerance Hb Ho Ha H)
    as [-> [Hc [_ [Hck _]]]].
  destruct (compatible_shapes base other a Ha Hc) as [_ [Hf Hs]].
  pose proof (length_cell_shape base) as L1.
  pose proof (length_cell_shape other) as L2.
  assert (Hv : length v = prod (cell_shape base)).
  { pose proof (valid_cell_arrays base Hb) as Hl. rewrite Forall_forall in Hl.
    apply (Hl (k, v) Hin). }
  assert (Hv2 : length (values (cell_arrays other) k) = prod (cell_shape other)).
  { apply (other_cell_array other Ho). apply (proj1 (key_set_eqb_spec _ _) Hck).
    change k with (fst (k, v)). now apply in_map. }
  subst w sh c1 c2. cbn [cell_arrays merged_grid].
  rewrite (values_map
             (fun kv => join_keeping (cell_shape base) (cell_shape other) a
                          (snd kv) (values (cell_arrays other) (fst kv)))
             (cell_arrays base) k v (valid_cell_names base Hb) Hin).
  cbn [fst snd]. split; [|split].
  - apply join_keeping_length; try assumption; lia.
  - intros t Ht. apply join_keeping_layer_l; try assumption; lia.
  - intros t. apply join_keeping_layer_r; try assumption; lia.
Qed.

Lemma cell_field_layers_witness :
  let c1 := extent (cell_shape grid_A) 0 in
  let c2 := extent (cell_shape grid_B) 0 in
  let sh := set_nth 0 (c1 + c2) (cell_shape grid_A) in
  let w := values (cell_arrays grid_AB) "c" in
  length w = prod sh
  /\ (forall t, t < c1 -> field_layer sh 0 t w = field_layer (cell_shape grid_A) 0 t [7]%Q)
  /\ (forall t,
        field_layer sh 0 (c1 + t) w
        = field_layer (cell_shape grid_B) 0 t (values (cell_arrays grid_B) "c")).
Proof.
  apply (cell_field_layers grid_A grid_B grid_AB 0 0 "c" [7]%Q
           valid_grid_A valid_grid_B).
  - lia.
  - vm_compute. reflexivity.
  - now left.
Defined.

Lemma result_fields_in_base_order_witness :
  keys (point_arrays grid_AB) = keys (point_arrays grid_A)
  /\ keys (cell_arrays grid_AB) = keys (cell_arrays grid_A).
Proof.
  apply (result_fields_in_base_order grid_A grid_B grid_AB 0 0
           valid_grid_A valid_grid_B).
  - lia.
  - vm_compute. reflexivity.
Defined.

(** ** A base grid of a single layer *)

Lemma join_layers_nothing_first {T : Type} (s n2 cnt : nat) (l1 l2 : list T) :
  length l2 = cnt * (s * n2) -> join_layers s 0 n2 cnt l1 l2 = l2.
Proof.
  intros H. unfold join_layers.
  transitivity (per_block cnt (fun o => block (s * n2) o l2)).
  - apply per_block_ext. intros o _. rewrite Nat.mul_0_r. reflexivity.
  - now apply per_block_blocks.
Qed.

Lemma join_dropping_seam_single {T : Type} (sh1 sh2 : list nat) (a : nat)
    (l1 l2 : list T) :
  a < length sh2 ->
  firstn a sh1 = firstn a sh2 -> skipn (S a) sh1 = skipn (S a) sh2 ->
  length l2 = prod sh2 -> extent sh1 a = 1 ->
  join_dropping_seam sh1 sh2 a l1 l2 = l2.
Proof.
  intros Ha2 Hf Hs H2 H1. unfold join_dropping_seam. rewrite H1. cbn [Nat.sub].
  apply join_layers_nothing_first.
  rewrite H2, (prod_axis sh2 a) by assumption.
  unfold outer, stride. now rewrite Hf, Hs.
Qed.

Lemma merged_dimensions_single (base other : Grid) (a : nat) :
  a < 3 ->
  dims_compatible (dimensions base) (dimensions other) (Z.of_nat a) = true ->
  dim_at base a = 1%Z ->
  dimensions (merged_grid base other a) = dimensions other.
Proof.
  intros Ha Hc H1. rewrite dims_compatible_nth in Hc.
  unfold merged_grid. cbn [dimensions]. rewrite H1.
  replace (1 + (dim_at other a - 1))%Z with (dim_at other a) by lia.
  unfold dim_at in *.
  pose proof (Hc 0) as H0. pose proof (Hc 1) as H1'. pose proof (Hc 2) as H2.
  destruct (dimensions base) as [[x1 y1] z1], (dimensions other) as [[x2 y2] z2].
  cbn [dims_list nth] in H0, H1', H2.
  destruct a as [|[|[|a]]]; [| | |lia];
    cbn [set_nth firstn skipn app dims_list nth dims_of_list];
    cbn [Z.of_nat] in H0, H1', H2;
    try rewrite H0 by (lia || discriminate);
    try rewrite H1' by (lia || discriminate);
    try rewrite H2 by (lia || discriminate);
    reflexivity.
Qed.

(** X9.  When base has a single layer of points along the axis, that
    layer is the one cut off: a successful call returns the dimensions,
    the points and the point-field values of other. *)
Theorem single_layer_base_gives_other (base other g : Grid) (a : nat) (tolerance : Q) :
  valid_grid base -> valid_grid other -> a < 3 ->
  dim_at base a = 1%Z ->
  concatenate base other (Z.of_nat a) tolerance = Ok g ->
  dimensions g = dimensions other
  /\ points g = points other
  /\ (forall k v, In (k, v) (point_arrays base) ->
        values (point_arrays g) k = values (point_arrays other) k).
Proof.
  intros Hb Ho Ha H1 H.
  destruct (concatenate_Ok_merged base other g a tolerance Hb Ho Ha H)
    as [-> [Hc [Hpk _]]].
  destruct (compatible_shapes base other a Ha Hc) as [[Hf Hs] _].
  pose proof (length_point_shape other) as L2.
  destruct (extent_point_shape base Hb a Ha) as [E1 _].
  assert (Hn1 : extent (point_shape base) a = 1) by lia.
  split; [|split].
  - now apply merged_dimensions_single.
  - cbn [points merged_grid].
    apply join_dropping_seam_single; try assumption; try lia.
    apply (valid_points other Ho).
  - intros k v Hin. cbn [point_arrays merged_grid].
    rewrite (values_map
               (fun kv => join_dropping_seam (point_shape base) (point_shape other) a
                            (snd kv) (values (point_arrays other) (fst kv)))
               (point_arrays base) k v (valid_point_names base Hb) Hin).
    cbn [fst snd].
    apply join_dropping_seam_single; try assumption; try lia.
    apply (other_point_array other Ho). apply (proj1 (key_set_eqb_spec _ _) Hpk).
    change k with (fst (k, v)). now apply in_map.
Qed.

Lemma valid_grid_column : valid_grid grid_column.
Proof. prove_valid. Qed.

Lemma valid_grid_B0 : valid_grid grid_B0.
Proof. prove_valid. Qed.

Lemma single_layer_base_gives_other_witness :
  dim_at grid_column 0 = 1%Z
  /\ concatenate grid_column grid_B0 (Z.of_nat 0) 0 = Ok grid_B0
  /\ dimensions grid_B0 = dimensions grid_B0
  /\ points grid_B0 = points grid_B0
  /\ (forall k v, In (k, v) (point_arrays grid_column) ->
        values (point_arrays grid_B0) k = values (point_arrays grid_B0) k).
Proof.
  assert (H1 : dim_at grid_column 0 = 1%Z) by reflexivity.
  assert (Hrun : concatenate grid_column grid_B0 (Z.of_nat 0) 0 = Ok grid_B0)
    by (vm_compute; reflexivity).
  split; [exact H1|]. split; [exact Hrun|].
  apply (single_layer_base_gives_other grid_column grid_B0 grid_B0 0 0
           valid_grid_column valid_grid_B0); [lia | exact H1 | exact Hrun].
Defined.

(** ** Splitting and joining back, the point fields *)

(** The two parts of a split pass every check. *)
Lemma split_parts_join (G A B : Grid) (a seam : nat) (tolerance : Q) :
  valid_grid G -> a < 3 -> is_split G a seam A B -> (0 <= tolerance)%Q ->
  concatenate A B (Z.of_nat a) tolerance = Ok (merged_grid A B a).
Proof.
  intros HG Ha Hsplit Ht.
  pose proof (split_valid_A _ _ _ _ _ Hsplit) as HA.
  pose proof (split_valid_B _ _ _ _ _ Hsplit) as HB.
  rewrite concatenate_meets_spec by assumption. unfold concatenate_spec.
  rewrite (split_dims_A _ _ _ _ _ Hsplit), (split_dims_B _ _ _ _ _ Hsplit).
  rewrite dims_compatible_with_dim by assumption. cbn [negb].
  rewrite (split_point_arrays_A _ _ _ _ _ Hsplit),
    (split_point_arrays_B _ _ _ _ _ Hsplit), !keys_map_fst, key_set_eqb_refl.
  cbn [negb].
  rewrite (proj2 (key_set_eqb_spec _ _) (split_cell_names _ _ _ _ _ Hsplit)).
  cbn [negb].
  rewrite (split_seam_close G A B a seam HG Ha Hsplit tolerance Ht). cbn [negb].
  rewrite <- (split_point_arrays_A _ _ _ _ _ Hsplit).
  now rewrite (split_fields_equal G A B a seam HG Ha Hsplit).
Qed.



(** ** The order of the fields of other *)

Lemma dict_get_missing (d : dict) (k : string) :
  ~ In k (keys d) -> dict_get d k = raise_lib KeyError.
Proof.
  induction d as [|[k' v] d IH]; simpl; intros H.
  - reflexivity.
  - destruct (String.eqb_spec k' k) as [->|Hne].
    + exfalso. auto.
    + apply IH. auto.
Qed.

Lemma keys_permutation (d d' : dict) : Permutation d d' -> Permutation (keys d) (keys d').
Proof. apply Permutation_map. Qed.

(** Looking a name up does not depend on the order of a dictionary. *)
Lemma values_permutation (d d' : dict) (k : string) :
  NoDup (keys d) -> Permutation d d' -> values d' k = values d k.
Proof.
  intros Hnd Hp.
  assert (Hnd' : NoDup (keys d'))
    by (eapply Permutation_NoDup; [apply keys_permutation; eassumption | assumption]).
  destruct (in_dec string_dec k (keys d)) as [Hin|Hout].
  - destruct (dict_get_In d k Hin) as [v [_ Hv]].
    rewrite (values_unique d k v Hnd Hv).
    apply values_unique; [assumption|]. eapply Permutation_in; eassumption.
  - unfold values. rewrite (dict_get_missing d k Hout).
    rewrite (dict_get_missing d' k); [reflexivity|].
    intros Hin. apply Hout.
    eapply Permutation_in; [apply Permutation_sym, keys_permutation; eassumption|].
    assumption.
Qed.

Lemma bool_eq_iff (b1 b2 : bool) : (b1 = true <-> b2 = true) -> b1 = b2.
Proof.
  destruct b1, b2; intros [H1 H2]; try reflexivity.
  - symmetry. now apply H1.
  - now apply H2.
Qed.

Lemma key_set_eqb_permutation (l1 l2 l2' : list string) :
  Permutation l2 l2' -> key_set_eqb l1 l2' = key_set_eqb l1 l2.
Proof.
  intros Hp. apply bool_eq_iff. rewrite !key_set_eqb_spec.
  split; intros H k; rewrite H; split; intros Hin.
  - eapply Permutation_in; [apply Permutation_sym|]; eassumption.
  - eapply Permutation_in; eassumption.
  - eapply Permutation_in; eassumption.
  - eapply Permutation_in; [apply Permutation_sym|]; eassumption.
Qed.

Lemma find_ext_all {A : Type} (f g : A -> bool) (l : list A) :
  (forall x, f x = g x) -> find f l = find g l.
Proof.
  intros H. induction l as [|x l IH]; simpl.
  - reflexivity.
  - now rewrite H, IH.
Qed.

Lemma valid_with_arrays (g : Grid) (p c : dict) :
  valid_grid g -> Permutation (point_arrays g) p -> Permutation (cell_arrays g) c ->
  valid_grid (with_arrays p c g).
Proof.
  intros [V1 V2 V3 V4 V5 V6] Hp Hc. constructor; cbn [with_arrays dimensions points
    point_arrays cell_arrays]; try assumption.
  - change (n_points (with_arrays p c g)) with (n_points g).
    eapply Permutation_Forall; eassumption.
  - change (n_cells (with_arrays p c g)) with (n_cells g).
    eapply Permutation_Forall; eassumption.
  - eapply Permutation_NoDup; [apply keys_permutation; eassumption | assumption].
  - eapply Permutation_NoDup; [apply keys_permutation; eassumption | assumption].
Qed.

(** X11.  The fields of other are found by name: putting its point
    fields and its cell fields in any other order changes nothing, neither
    the grid returned nor the error raised. *)
Theorem other_field_order_irrelevant (base other : Grid) (a : nat) (tolerance : Q)
    (p c : dict) :
  valid_grid base -> valid_grid other -> a < 3 ->
  Permutation (point_arrays other) p -> Permutation (cell_arrays other) c ->
  concatenate base (with_arrays p c other) (Z.of_nat a) tolerance
  = concatenate base other (Z.of_nat a) tolerance.
Proof.
  intros Hb Ho Ha Hp Hc.
  pose proof (valid_with_arrays other p c Ho Hp Hc) as Ho'.
  rewrite !concatenate_meets_spec by assumption.
  unfold concatenate_spec.
  change (dimensions (with_arrays p c other)) with (dimensions other).
  change (point_arrays (with_arrays p c other)) with p.
  change (cell_arrays (with_arrays p c other)) with c.
  change (seam_close base (with_arrays p c other) a tolerance)
    with (seam_close base other a tolerance).
  rewrite (key_set_eqb_permutation _ _ _ (keys_permutation _ _ Hp)).
  rewrite (key_set_eqb_permutation _ _ _ (keys_permutation _ _ Hc)).
  assert (Hvp : forall k, values p k = values (point_arrays other) k)
    by (intros k; apply values_permutation;
        [apply (valid_point_names other Ho) | assumption]).
  assert (Hvc : forall k, values c k = values (cell_arrays other) k)
    by (intros k; apply values_permutation;
        [apply (valid_cell_names other Ho) | assumption]).
  rewrite (find_ext_all
             (fun kv => negb (field_seam_equal base (with_arrays p c other) a kv))
             (fun kv => negb (field_seam_equal base other a kv))).
  2:{ intros kv. unfold field_seam_equal.
      change (point_shape (with_arrays p c other)) with (point_shape other).
      change (point_arrays (with_arrays p c other)) with p.
      now rewrite Hvp. }
  replace (merged_grid base (with_arrays p c other) a) with (merged_grid base other a);
    [reflexivity|].
  unfold merged_grid.
  change (dim_at (with_arrays p c other) a) with (dim_at other a).
  change (point_shape (with_arrays p c other)) with (point_shape other).
  change (cell_shape (with_arrays p c other)) with (cell_shape other).
  change (points (with_arrays p c other)) with (points other).
  change (point_arrays (with_arrays p c other)) with p.
  change (cell_arrays (with_arrays p c other)) with c.
  f_equal.
  - apply map_ext. intros kv. now rewrite Hvp.
  - apply map_ext. intros kv. now rewrite Hvc.
Qed.

Lemma other_field_order_irrelevant_witness :
  concatenate grid_F grid_G' (Z.of_nat 0) 0 = concatenate grid_F grid_G (Z.of_nat 0) 0.
Proof.
  apply (other_field_order_irrelevant grid_F grid_G 0 0
           [("p"%string, [1; 5; 0; 5]%Q); ("q"%string, [3; 1; 3; 1]%Q);
            ("t"%string, [2; 5; 4; 6]%Q)] [] valid_grid_F valid_grid_G).
  - lia.
  - cbn [point_arrays grid_G].
    apply Permutation_sym, (Permutation_cons_app [_; _] []). apply Permutation_refl.
  - apply Permutation_refl.
Defined.

(** ** Looking the fields of other up *)

Lemma normalize_index_array_error (le : library_error) (n : nat) (i : Z) (e : error) :
  le <> KeyError -> normalize_index le n i = Raise e -> is_array_error e.
Proof.
  intros Hle. unfold normalize_index, raise_lib.
  destruct (_ && _); [discriminate|]. destruct (_ && _); [discriminate|].
  intros H. injection H as <-. destruct le; try exact I. now elim Hle.
Qed.

Lemma shape_of_array_error (l : list Z) (e : error) :
  shape_of l = Raise e -> is_array_error e.
Proof.
  unfold shape_of, raise_lib. destruct (forallb _ _); [discriminate|].
  intros H. injection H as <-. exact I.
Qed.

Lemma reshape_F_array_error (sh : list nat) (l : list Q) (e : error) :
  reshape_F sh l = Raise e -> is_array_error e.
Proof.
  unfold reshape_F, raise_lib. destruct (_ =? _); [discriminate|].
  intros H. injection H as <-. exact I.
Qed.

Lemma points_matrix_array_error (g : Grid) (e : error) :
  points_matrix g = Raise e -> is_array_error e.
Proof.
  unfold points_matrix. intros H. run_raise H.
  - now apply shape_of_array_error in H.
  - now apply reshape_F_array_error in H.
Qed.

Lemma reshape_point_array_array_error (g : Grid) (v : list Q) (e : error) :
  _reshape_point_array g v = Raise e -> is_array_error e.
Proof.
  unfold _reshape_point_array. intros H. run_raise H.
  - now apply shape_of_array_error in H.
  - now apply reshape_F_array_error in H.
Qed.

Lemma reshape_cell_array_array_error (g : Grid) (v : list Q) (e : error) :
  _reshape_cell_array g v = Raise e -> is_array_error e.
Proof.
  unfold _reshape_cell_array. intros H. run_raise H.
  - now apply shape_of_array_error in H.
  - now apply reshape_F_array_error in H.
Qed.

Lemma np_take_array_error (a : ndarray) (i axis : Z) (e : error) :
  np_take a i axis = Raise e -> is_array_error e.
Proof.
  unfold np_take. intros H. run_raise H.
  - apply normalize_index_array_error in H; [assumption | discriminate].
  - apply normalize_index_array_error in H; [assumption | discriminate].
  - discriminate H.
Qed.

Lemma np_allclose_array_error (a b : ndarray) (atol : Q) (e : error) :
  np_allclose a b atol = Raise e -> is_array_error e.
Proof.
  unfold np_allclose, raise_lib. destruct (list_eqb _ _); [discriminate|].
  intros H. injection H as <-. exact I.
Qed.

Lemma getitem_from_array_error (ax : nat) (a : ndarray) (spec : list pyslice)
    (e : error) :
  getitem_from ax a spec = Raise e -> is_array_error e.
Proof.
  revert ax a. induction spec as [|s rest IH]; intros ax a H; simpl in H.
  - discriminate H.
  - destruct (ax <? ndim a).
    + now apply IH in H.
    + injection H as <-. exact I.
Qed.

Lemma np_concatenate_array_error (a b : ndarray) (axis : Z) (e : error) :
  np_concatenate a b axis = Raise e -> is_array_error e.
Proof.
  unfold np_concatenate, raise_lib.
  destruct (ndim a =? 0); [intros H; injection H as <-; exact I|].
  intros H. run_raise H.
  - apply normalize_index_array_error in H; [assumption | discriminate].
  - destruct (negb (ndim a =? ndim b)); [injection H as <-; exact I|].
    destruct (negb (list_eqb _ _)); [injection H as <-; exact I | discriminate H].
Qed.

Lemma unstack3_array_error (l : list Q) (e : error) :
  unstack3 l = Raise e -> is_array_error e.
Proof.
  unfold unstack3, raise_lib. destruct (_ =? _); [discriminate|].
  intros H. injection H as <-. exact I.
Qed.

Lemma make_slice_spec_array_error (axis : Z) (e : error) :
  make_slice_spec axis = Raise e -> is_array_error e.
Proof.
  unfold make_slice_spec. intros H. run_raise H.
  - apply normalize_index_array_error in H; [assumption | discriminate].
  - discriminate H.
Qed.

Lemma compute_new_dims_array_error (d1 d2 : dims) (axis : Z) (e : error) :
  compute_new_dims d1 d2 axis = Raise e -> is_array_error e.
Proof.
  unfold compute_new_dims. intros H. run_raise H.
  - apply normalize_index_array_error in H; [assumption | discriminate].
  - discriminate H.
Qed.

Lemma array_error_not_key (e : error) : is_array_error e -> e <> LibraryError KeyError.
Proof. intros H ->. exact H. Qed.

(** In the loops the names come from base; when each of them is a name
    of other too, the look-up in other finds it. *)
Lemma join_point_arrays_no_key_error (base other : Grid) (axis : Z)
    (slice_spec : list pyslice) (items acc : dict) :
  (forall k, In k (keys items) -> In k (keys (point_arrays other))) ->
  join_point_arrays base other axis slice_spec items acc
  <> Raise (LibraryError KeyError).
Proof.
  revert acc. induction items as [|[name v] rest IH]; intros acc Hk H.
  - discriminate H.
  - cbn [join_point_arrays] in H. run_raise H.
    + now apply reshape_point_array_array_error in H.
    + destruct (dict_get_In (point_arrays other) name) as [w [Hw _]].
      * apply Hk. now left.
      * congruence.
    + now apply reshape_point_array_array_error in H.
    + now apply np_take_array_error in H.
    + now apply np_take_array_error in H.
    + destruct (negb (np_array_equal _ _)); [discriminate H|].
      run_raise H.
      * now apply getitem_from_array_error in H.
      * now apply np_concatenate_array_error in H.
      * revert H. apply IH. intros k Hin. apply Hk. now right.
Qed.

Lemma join_cell_arrays_no_key_error (base other : Grid) (axis : Z) (items acc : dict) :
  (forall k, In k (keys items) -> In k (keys (cell_arrays other))) ->
  join_cell_arrays base other axis items acc <> Raise (LibraryError KeyError).
Proof.
  revert acc. induction items as [|[name v] rest IH]; intros acc Hk H.
  - discriminate H.
  - cbn [join_cell_arrays] in H. run_raise H.
    + now apply reshape_cell_array_array_error in H.
    + destruct (dict_get_In (cell_arrays other) name) as [w [Hw _]].
      * apply Hk. now left.
      * congruence.
    + now apply reshape_cell_array_array_error in H.
    + now apply np_concatenate_array_error in H.
    + revert H. apply IH. intros k Hin. apply Hk. now right.
Qed.

(** X12.  Whatever the grids, the axis and the tolerance, [concatenate]
    never fails on a missing key: the two look-ups [other.point_arrays[name]]
    and [other.cell_arrays[name]] come after the comparison of the sets of
    names, which leaves no name of base without a field in other. *)
Theorem never_missing_key (base other : Grid) (axis : Z) (tolerance : Q) :
  concatenate base other axis tolerance <> Raise (LibraryError KeyError).
Proof.
  unfold concatenate. destruct (axis >? 2)%Z; [discriminate|].
  intros H. run_raise H.
  - apply check_dimensions_error in H. discriminate H.
  - destruct (key_set_eqb (keys (point_arrays base)) _) eqn:Hpk;
      cbn [negb] in H; [|discriminate H].
    destruct (key_set_eqb (keys (cell_arrays base)) _) eqn:Hck;
      cbn [negb] in H; [|discriminate H].
    pose proof (proj1 (key_set_eqb_spec _ _) Hpk) as Hpk'.
    pose proof (proj1 (key_set_eqb_spec _ _) Hck) as Hck'.
    run_raise H;
      try (first [ now apply points_matrix_array_error in H
                 | now apply np_take_array_error in H
                 | now apply np_allclose_array_error in H ]).
    destruct (negb _); [discriminate H|].
    run_raise H;
      try (first [ now apply make_slice_spec_array_error in H
                 | now apply compute_new_dims_array_error in H
                 | now apply getitem_from_array_error in H
                 | now apply np_concatenate_array_error in H
                 | now apply unstack3_array_error in H ]).
    + revert H. apply join_point_arrays_no_key_error. intros k. apply Hpk'.
    + revert H. apply join_cell_arrays_no_key_error. intros k. apply Hck'.
    + discriminate H.
Qed.

(** ** Joining three sequences *)

Section JoinThree.
Context {T : Type}.
Variables s cnt : nat.

Lemma join_layers_assoc (m k n3 : nat) (X Y Z : list T) :
  length X = cnt * (s * m) -> length Y = cnt * (s * k) ->
  length Z = cnt * (s * n3) ->
  join_layers s (m + k) n3 cnt (join_layers s m k cnt X Y) Z
  = join_layers s m (k + n3) cnt X (join_layers s k n3 cnt Y Z).
Proof.
  intros HX HY HZ. apply per_block_ext. intros o Ho.
  rewrite !block_join_layers by assumption.
  now rewrite app_assoc.
Qed.

(** Cutting the last layer off a join cuts it off its second part. *)
Lemma slice_join_drop_last (m n2 : nat) (X l2 : list T) :
  length X = cnt * (s * m) -> length l2 = cnt * (s * n2) -> 1 <= n2 ->
  slice_layers s (m + n2) cnt 0 (m + n2 - 1) (join_layers s m n2 cnt X l2)
  = join_layers s m (n2 - 1) cnt X (slice_layers s n2 cnt 0 (n2 - 1) l2).
Proof.
  intros HX H2 Hn. apply per_block_ext. intros o Ho.
  rewrite block_join_layers by assumption.
  rewrite block_slice_layers by (assumption || lia).
  cbn [Nat.mul skipn].
  rewrite firstn_app, (sub_block_length s cnt m o X HX Ho).
  rewrite firstn_all2 by (rewrite (sub_block_length s cnt m o X HX Ho); nia).
  f_equal. f_equal. nia.
Qed.
End JoinThree.

Section JoinThreeShapes.
Context {T : Type}.
Variables sh1 sh2 sh3 : list nat.
Variable a : nat.
Hypothesis Ha1 : a < length sh1.
Hypothesis Ha2 : a < length sh2.
Hypothesis Ha3 : a < length sh3.
Hypothesis Hf12 : firstn a sh1 = firstn a sh2.
Hypothesis Hs12 : skipn (S a) sh1 = skipn (S a) sh2.
Hypothesis Hf23 : firstn a sh2 = firstn a sh3.
Hypothesis Hs23 : skipn (S a) sh2 = skipn (S a) sh3.
Variables l1 l2 l3 : list T.
Hypothesis H1 : length l1 = prod sh1.
Hypothesis H2 : length l2 = prod sh2.
Hypothesis H3 : length l3 = prod sh3.

Let s := stride sh1 a.
Let cnt := outer sh1 a.

Lemma three_blocks :
  length l1 = cnt * (s * extent sh1 a)
  /\ length l2 = cnt * (s * extent sh2 a)
  /\ length l3 = cnt * (s * extent sh3 a).
Proof.
  unfold s, cnt. split; [|split].
  - rewrite H1. now apply prod_axis.
  - rewrite H2, (prod_axis sh2 a) by assumption.
    unfold outer, stride. now rewrite Hf12, Hs12.
  - rewrite H3, (prod_axis sh3 a) by assumption.
    unfold outer, stride. now rewrite Hf12, Hs12, Hf23, Hs23.
Qed.

Lemma strides_2 : stride sh2 a = s /\ outer sh2 a = cnt.
Proof. unfold s, cnt, stride, outer. now rewrite Hf12, Hs12. Qed.

Lemma strides_set_nth (sh : list nat) (v : nat) :
  a < length sh ->
  stride (set_nth a v sh) a = stride sh a
  /\ extent (set_nth a v sh) a = v
  /\ outer (set_nth a v sh) a = outer sh a.
Proof.
  intros H. unfold stride, extent, outer.
  now rewrite firstn_set_nth, skipn_set_nth, nth_set_nth by lia.
Qed.

(** Joining three sequences along an axis, each seam dropped once, gives
    the same whichever two are joined first. *)
Lemma join_dropping_seam_assoc :
  1 <= extent sh1 a -> 1 <= extent sh2 a ->
  join_dropping_seam (set_nth a (extent sh1 a - 1 + extent sh2 a) sh1) sh3 a
    (join_dropping_seam sh1 sh2 a l1 l2) l3
  = join_dropping_seam sh1 (set_nth a (extent sh2 a - 1 + extent sh3 a) sh2) a
      l1 (join_dropping_seam sh2 sh3 a l2 l3).
Proof.
  intros Hn1 Hn2.
  destruct three_blocks as [B1 [B2 B3]].
  destruct strides_2 as [S2 C2].
  unfold join_dropping_seam.
  destruct (strides_set_nth sh1 (extent sh1 a - 1 + extent sh2 a) Ha1) as [-> [-> ->]].
  destruct (strides_set_nth sh2 (extent sh2 a - 1 + extent sh3 a) Ha2) as [_ [-> _]].
  rewrite S2, C2. fold s cnt.
  assert (LX : length (slice_layers s (extent sh1 a) cnt 0 (extent sh1 a - 1) l1)
               = cnt * (s * (extent sh1 a - 1)))
    by (apply slice_layers_length; [assumption | lia]).
  assert (LY : length (slice_layers s (extent sh2 a) cnt 0 (extent sh2 a - 1) l2)
               = cnt * (s * (extent sh2 a - 1)))
    by (apply slice_layers_length; [assumption | lia]).
  rewrite slice_join_drop_last by assumption.
  replace (extent sh1 a - 1 + extent sh2 a - 1)
    with (extent sh1 a - 1 + (extent sh2 a - 1)) by lia.
  now apply join_layers_assoc.
Qed.

(** The same for joins that drop nothing. *)
Lemma join_keeping_assoc :
  join_keeping (set_nth a (extent sh1 a + extent sh2 a) sh1) sh3 a
    (join_keeping sh1 sh2 a l1 l2) l3
  = join_keeping sh1 (set_nth a (extent sh2 a + extent sh3 a) sh2) a
      l1 (join_keeping sh2 sh3 a l2 l3).
Proof.
  destruct three_blocks as [B1 [B2 B3]].
  destruct strides_2 as [S2 C2].
  unfold join_keeping.
  destruct (strides_set_nth sh1 (extent sh1 a + extent sh2 a) Ha1) as [-> [-> ->]].
  destruct (strides_set_nth sh2 (extent sh2 a + extent sh3 a) Ha2) as [_ [-> _]].
  rewrite S2, C2. fold s cnt.
  now apply join_layers_assoc.
Qed.
End JoinThreeShapes.

(** ** Joining three grids *)

Lemma joinable_compatible (base other : Grid) (a : nat) (tolerance : Q) :
  joinable base other a tolerance ->
  dims_compatible (dimensions base) (dimensions other) (Z.of_nat a) = true.
Proof.
  intros J. apply dims_compatible_nth. intros i Hi Hne.
  apply (joinable_dims _ _ _ _ J); [assumption | lia].
Qed.

Lemma joinable_concatenate (base other : Grid) (a : nat) (tolerance : Q) :
  valid_grid base -> valid_grid other -> a < 3 ->
  joinable base other a tolerance ->
  concatenate base other (Z.of_nat a) tolerance = Ok (merged_grid base other a).
Proof.
  intros Hb Ho Ha J. rewrite concatenate_meets_spec by assumption.
  unfold concatenate_spec.
  rewrite (joinable_compatible _ _ _ _ J).
  rewrite (proj2 (key_set_eqb_spec _ _) (joinable_point_names _ _ _ _ J)).
  rewrite (proj2 (key_set_eqb_spec _ _) (joinable_cell_names _ _ _ _ J)).
  rewrite (proj2 (seam_close_true _ _ _ _) (joinable_seam _ _ _ _ J)). cbn [negb].
  now rewrite (proj2 (find_None_Forall _ _) (joinable_fields _ _ _ _ J)).
Qed.

Lemma concatenate_joinable (base other g : Grid) (a : nat) (tolerance : Q) :
  valid_grid base -> valid_grid other -> a < 3 ->
  concatenate base other (Z.of_nat a) tolerance = Ok g ->
  joinable base other a tolerance /\ g = merged_grid base other a.
Proof.
  intros Hb Ho Ha H.
  destruct (concatenate_Ok_merged base other g a tolerance Hb Ho Ha H)
    as [-> [Hc [Hpk [Hck [Hs Hf]]]]].
  split; [|reflexivity]. constructor.
  - intros i Hi Hne. apply (proj1 (dims_compatible_nth _ _ _) Hc); [assumption | lia].
  - now apply key_set_eqb_spec.
  - now apply key_set_eqb_spec.
  - now apply seam_close_true.
  - now apply find_None_Forall.
Qed.

Lemma dim_at_merged_axis (base other : Grid) (a : nat) :
  a < 3 ->
  dim_at (merged_grid base other a) a = (dim_at base a + (dim_at other a - 1))%Z.
Proof.
  intros Ha. unfold merged_grid. unfold dim_at at 1. cbn [dimensions].
  generalize (dim_at base a + (dim_at other a - 1))%Z. intros v.
  destruct (dimensions base) as [[x y] z].
  destruct a as [|[|[|a]]]; [reflexivity | reflexivity | reflexivity | lia].
Qed.

Lemma dim_at_merged_other (base other : Grid) (a i : nat) :
  a < 3 -> i < 3 -> i <> a ->
  dim_at (merged_grid base other a) i = dim_at base i.
Proof.
  intros Ha Hi Hne. unfold merged_grid. unfold dim_at. cbn [dimensions].
  generalize (nth a (dims_list (dimensions base)) 0
              + (nth a (dims_list (dimensions other)) 0 - 1))%Z. intros v.
  destruct (dimensions base) as [[x y] z].
  destruct a as [|[|[|a]]]; [| | |lia];
    destruct i as [|[|[|i]]]; try lia; reflexivity.
Qed.

(** The merged grid of two grids with at least two points along the
    axis satisfies the invariant. *)
Lemma merged_valid (base other : Grid) (a : nat) (tolerance : Q) :
  valid_grid base -> valid_grid other -> a < 3 ->
  joinable base other a tolerance ->
  (2 <= dim_at base a)%Z -> (2 <= dim_at other a)%Z ->
  valid_grid (merged_grid base other a).
Proof.
  intros Hb Ho Ha J T1 T2.
  pose proof (joinable_compatible _ _ _ _ J) as Hc.
  destruct (merged_valid_point_data base other a Hb Ho Ha Hc
              (joinable_point_names _ _ _ _ J)) as [P1 P2 P3 P4 P5].
  constructor; try assumption.
  apply merged_valid_cell_arrays; try assumption.
  apply (joinable_cell_names _ _ _ _ J).
Qed.

Lemma Forall_by_name (P : string -> Prop) (d1 d2 : dict) :
  (forall k, In k (keys d1) <-> In k (keys d2)) ->
  Forall (fun kv => P (fst kv)) d1 <-> Forall (fun kv => P (fst kv)) d2.
Proof.
  intros Hk. rewrite !Forall_forall. split; intros H kv Hin.
  - assert (Hin' : In (fst kv) (keys d1)) by (apply Hk; now apply in_map).
    apply in_map_iff in Hin'. destruct Hin' as [kv' [Heq Hin']].
    rewrite <- Heq. now apply H.
  - assert (Hin' : In (fst kv) (keys d2)) by (apply Hk; now apply in_map).
    apply in_map_iff in Hin'. destruct Hin' as [kv' [Heq Hin']].
    rewrite <- Heq. now apply H.
Qed.

Lemma Forall_named_values (P : string * list Q -> Prop) (d : dict) :
  NoDup (keys d) ->
  Forall P d <-> Forall (fun kv => P (fst kv, values d (fst kv))) d.
Proof.
  intros Hnd. rewrite !Forall_forall.
  split; intros H [k v] Hin; specialize (H (k, v) Hin); cbn [fst] in *.
  - now rewrite (values_unique d k v Hnd Hin).
  - now rewrite (values_unique d k v Hnd Hin) in H.
Qed.

Lemma Forall_iff_in {T : Type} (P R : T -> Prop) (l : list T) :
  (forall x, In x l -> (P x <-> R x)) -> (Forall P l <-> Forall R l).
Proof.
  intros H. rewrite !Forall_forall. split; intros HF x Hin; apply (H x Hin); auto.
Qed.

Section MergedSeams.
Variables X Y : Grid.
Variable a : nat.
Hypothesis HX : valid_grid X.
Hypothesis HY : valid_grid Y.
Hypothesis Ha : a < 3.
Hypothesis Hc : dims_compatible (dimensions X) (dimensions Y) (Z.of_nat a) = true.

Lemma extent_merged :
  extent (point_shape (merged_grid X Y a)) a
  = extent (point_shape X) a - 1 + extent (point_shape Y) a.
Proof.
  rewrite point_shape_merged by assumption. unfold extent.
  apply nth_set_nth. rewrite length_point_shape. lia.
Qed.

(** The last layer of points of the merged grid is the last layer of the
    second grid. *)
Lemma last_layer_merged : last_layer (merged_grid X Y a) a = last_layer Y a.
Proof.
  destruct (extent_point_shape Y HY a Ha) as [_ P2].
  unfold last_layer. rewrite extent_merged.
  replace (extent (point_shape X) a - 1 + extent (point_shape Y) a - 1)
    with (extent (point_shape X) a - 1 + (extent (point_shape Y) a - 1)) by lia.
  now apply layer_merged_other.
Qed.

(** Its first layer is the first layer of the first grid, when that one
    has a layer left after the cut. *)
Lemma first_layer_merged :
  2 <= extent (point_shape X) a ->
  first_layer (merged_grid X Y a) a = first_layer X a.
Proof.
  intros H2. unfold first_layer. apply layer_merged_base; try assumption. lia.
Qed.

Variables v w : list Q.
Hypothesis Hv : length v = n_points X.
Hypothesis Hw : length w = n_points Y.

Lemma field_last_layer_merged :
  field_layer (point_shape (merged_grid X Y a)) a
    (extent (point_shape (merged_grid X Y a)) a - 1)
    (join_dropping_seam (point_shape X) (point_shape Y) a v w)
  = field_layer (point_shape Y) a (extent (point_shape Y) a - 1) w.
Proof.
  destruct (extent_point_shape Y HY a Ha) as [_ P2].
  destruct (compatible_shapes X Y a Ha Hc) as [[Hf Hs] _].
  rewrite extent_merged, point_shape_merged by assumption.
  replace (extent (point_shape X) a - 1 + extent (point_shape Y) a - 1)
    with (extent (point_shape X) a - 1 + (extent (point_shape Y) a - 1)) by lia.
  apply join_dropping_seam_layer_r; try assumption;
    rewrite ?length_point_shape; lia.
Qed.

Lemma field_first_layer_merged :
  2 <= extent (point_shape X) a ->
  field_layer (point_shape (merged_grid X Y a)) a 0
    (join_dropping_seam (point_shape X) (point_shape Y) a v w)
  = field_layer (point_shape X) a 0 v.
Proof.
  intros H2.
  destruct (compatible_shapes X Y a Ha Hc) as [[Hf Hs] _].
  rewrite point_shape_merged by assumption.
  apply join_dropping_seam_layer_l; try assumption;
    rewrite ?length_point_shape; lia.
Qed.
End MergedSeams.

Section ThreeGrids.
Variables A B C : Grid.
Variable a : nat.
Variable tolerance : Q.
Hypothesis HA : valid_grid A.
Hypothesis HB : valid_grid B.
Hypothesis HC : valid_grid C.
Hypothesis Ha : a < 3.
Hypothesis TA : (2 <= dim_at A a)%Z.
Hypothesis TB : (2 <= dim_at B a)%Z.
Hypothesis TC : (2 <= dim_at C a)%Z.

Lemma thick_B : 2 <= extent (point_shape B) a.
Proof. destruct (extent_point_shape B HB a Ha) as [E _]. lia. Qed.

Section FirstPair.
Hypothesis JAB : joinable A B a tolerance.

Let HcAB := joinable_compatible A B a tolerance JAB.

Lemma other_value_length (k : string) :
  In k (keys (point_arrays A)) ->
  length (values (point_arrays B) k) = n_points B.
Proof.
  intros Hin. apply (other_point_array B HB).
  now apply (joinable_point_names _ _ _ _ JAB).
Qed.

Lemma field_seam_equal_merged_l (k : string) (vA : list Q) :
  In (k, vA) (point_arrays A) ->
  field_seam_equal (merged_grid A B a) C a
    (k, join_dropping_seam (point_shape A) (point_shape B) a vA
          (values (point_arrays B) k))
  = field_seam_equal B C a (k, values (point_arrays B) k).
Proof.
  intros Hin. unfold field_seam_equal. cbv zeta. cbn [fst snd].
  pose proof (valid_point_arrays A HA) as Hl. rewrite Forall_forall in Hl.
  pose proof (Hl (k, vA) Hin) as HvA. cbn [snd] in HvA.
  assert (HvB : length (values (point_arrays B) k) = n_points B).
  { apply other_value_length. change k with (fst (k, vA)). now apply in_map. }
  pose proof (field_last_layer_merged A B a HA HB Ha HcAB vA
                (values (point_arrays B) k) HvA HvB) as E.
  unfold field_layer in E. now rewrite E.
Qed.

(** With the first two grids joined, the third can be joined to the
    result exactly when it can be joined to the second. *)
Lemma joinable_merged_l :
  joinable (merged_grid A B a) C a tolerance <-> joinable B C a tolerance.
Proof.
  assert (Hd : forall i, i < 3 -> i <> a ->
                 dim_at (merged_grid A B a) i = dim_at B i).
  { intros i Hi Hne. rewrite dim_at_merged_other by assumption.
    now apply (joinable_dims _ _ _ _ JAB). }
  assert (Hpk : forall k, In k (keys (point_arrays (merged_grid A B a)))
                          <-> In k (keys (point_arrays B))).
  { intros k. cbn [point_arrays merged_grid]. rewrite keys_map_fst.
    apply (joinable_point_names _ _ _ _ JAB). }
  assert (Hck : forall k, In k (keys (cell_arrays (merged_grid A B a)))
                          <-> In k (keys (cell_arrays B))).
  { intros k. cbn [cell_arrays merged_grid]. rewrite keys_map_fst.
    apply (joinable_cell_names _ _ _ _ JAB). }
  assert (Hs : seam_pairs (merged_grid A B a) C a = seam_pairs B C a).
  { unfold seam_pairs. now rewrite last_layer_merged. }
  assert (Hf : Forall (fun kv => field_seam_equal (merged_grid A B a) C a kv = true)
                 (point_arrays (merged_grid A B a))
               <-> Forall (fun kv => field_seam_equal B C a kv = true) (point_arrays B)).
  { cbn [point_arrays merged_grid]. rewrite Forall_map.
    rewrite (Forall_named_values _ (point_arrays B) (valid_point_names B HB)).
    rewrite <- (Forall_by_name
                  (fun k => field_seam_equal B C a (k, values (point_arrays B) k) = true)
                  (point_arrays A) (point_arrays B)
                  (joinable_point_names _ _ _ _ JAB)).
    apply Forall_iff_in. intros [k vA] Hin. cbn [fst snd].
    now rewrite field_seam_equal_merged_l. }
  split; intros [J1 J2 J3 J4 J5]; constructor.
  - intros i Hi Hne. rewrite <- Hd by assumption. now apply J1.
  - intros k. rewrite <- Hpk. apply J2.
  - intros k. rewrite <- Hck. apply J3.
  - now rewrite <- Hs.
  - now apply Hf.
  - intros i Hi Hne. rewrite Hd by assumption. now apply J1.
  - intros k. rewrite Hpk. apply J2.
  - intros k. rewrite Hck. apply J3.
  - now rewrite Hs.
  - now apply Hf.
Qed.
End FirstPair.

Section SecondPair.
Hypothesis JBC : joinable B C a tolerance.

Let HcBC := joinable_compatible B C a tolerance JBC.

Lemma value_of_merged_BC (k : string) :
  In k (keys (point_arrays B)) ->
  values (point_arrays (merged_grid B C a)) k
  = join_dropping_seam (point_shape B) (point_shape C) a
      (values (point_arrays B) k) (values (point_arrays C) k).
Proof.
  intros Hin. destruct (dict_get_In _ _ Hin) as [vB [_ HvB]].
  cbn [point_arrays merged_grid].
  rewrite (values_map
             (fun kv => join_dropping_seam (point_shape B) (point_shape C) a
                          (snd kv) (values (point_arrays C) (fst kv)))
             (point_arrays B) k vB (valid_point_names B HB) HvB).
  cbn [fst snd]. now rewrite (values_unique _ k vB (valid_point_names B HB) HvB).
Qed.

Lemma field_seam_equal_merged_r (kv : string * list Q) :
  In (fst kv) (keys (point_arrays B)) ->
  field_seam_equal A (merged_grid B C a) a kv = field_seam_equal A B a kv.
Proof.
  intros Hin. unfold field_seam_equal. cbv zeta.
  rewrite value_of_merged_BC by assumption.
  assert (HvB : length (values (point_arrays B) (fst kv)) = n_points B)
    by now apply (other_point_array B HB).
  assert (HvC : length (values (point_arrays C) (fst kv)) = n_points C).
  { apply (other_point_array C HC). now apply (joinable_point_names _ _ _ _ JBC). }
  pose proof (field_first_layer_merged B C a HB HC Ha HcBC
                (values (point_arrays B) (fst kv)) (values (point_arrays C) (fst kv))
                HvB HvC thick_B) as E.
  unfold field_layer in E. now rewrite E.
Qed.

(** With the last two grids joined, the first can be joined to the
    result exactly when it can be joined to the second. *)
Lemma joinable_merged_r :
  joinable A (merged_grid B C a) a tolerance <-> joinable A B a tolerance.
Proof.
  assert (Hd : forall i, i < 3 -> i <> a ->
                 dim_at (merged_grid B C a) i = dim_at B i).
  { intros i Hi Hne. now apply dim_at_merged_other. }
  assert (Hpk : keys (point_arrays (merged_grid B C a)) = keys (point_arrays B)).
  { cbn [point_arrays merged_grid]. apply keys_map_fst. }
  assert (Hck : keys (cell_arrays (merged_grid B C a)) = keys (cell_arrays B)).
  { cbn [cell_arrays merged_grid]. apply keys_map_fst. }
  assert (Hs : seam_pairs A (merged_grid B C a) a = seam_pairs A B a).
  { unfold seam_pairs. rewrite first_layer_merged; auto using thick_B. }
  assert (Hf : (forall k, In k (keys (point_arrays A)) <-> In k (keys (point_arrays B))) ->
               Forall (fun kv => field_seam_equal A (merged_grid B C a) a kv = true)
                 (point_arrays A)
               <-> Forall (fun kv => field_seam_equal A B a kv = true) (point_arrays A)).
  { intros Hn. apply Forall_iff_in. intros kv Hin.
    rewrite field_seam_equal_merged_r; [reflexivity|].
    apply Hn. now apply in_map. }
  split; intros [J1 J2 J3 J4 J5]; constructor.
  - intros i Hi Hne. rewrite <- Hd by assumption. now apply J1.
  - intros k. rewrite <- Hpk. apply J2.
  - intros k. rewrite <- Hck. apply J3.
  - now rewrite <- Hs.
  - apply Hf; [|assumption]. intros k. rewrite <- Hpk. apply J2.
  - intros i Hi Hne. rewrite Hd by assumption. now apply J1.
  - intros k. rewrite Hpk. apply J2.
  - intros k. rewrite Hck. apply J3.
  - now rewrite Hs.
  - apply Hf; assumption.
Qed.
End SecondPair.
End ThreeGrids.

Lemma merged_dimensions_assoc (A B C : Grid) (a : nat) :
  a < 3 ->
  dimensions (merged_grid (merged_grid A B a) C a)
  = dimensions (merged_grid A (merged_grid B C a) a).
Proof.
  intros Ha. unfold merged_grid at 1 3. cbn [dimensions].
  rewrite !dim_at_merged_axis by assumption.
  replace (dim_at A a + (dim_at B a + (dim_at C a - 1) - 1))%Z
    with (dim_at A a + (dim_at B a - 1) + (dim_at C a - 1))%Z by lia.
  unfold merged_grid. cbn [dimensions].
  generalize (dim_at A a + (dim_at B a - 1) + (dim_at C a - 1))%Z.
  generalize (dim_at A a + (dim_at B a - 1))%Z. intros v1 v2.
  destruct (dimensions A) as [[x y] z].
  destruct a as [|[|[|a]]]; [reflexivity | reflexivity | reflexivity | lia].
Qed.

Lemma named_value (d : dict) (k : string) :
  NoDup (keys d) -> In k (keys d) -> In (k, values d k) d.
Proof.
  intros Hnd Hin. destruct (dict_get_In d k Hin) as [v [_ Hv]].
  now rewrite (values_unique d k v Hnd Hv).
Qed.

(** Joining three grids gives the same merged grid whichever two are
    joined first. *)
Lemma merged_assoc (A B C : Grid) (a : nat) (tolerance : Q) :
  valid_grid A -> valid_grid B -> valid_grid C -> a < 3 ->
  (2 <= dim_at A a)%Z -> (2 <= dim_at B a)%Z -> (2 <= dim_at C a)%Z ->
  joinable A B a tolerance -> joinable B C a tolerance ->
  merged_grid (merged_grid A B a) C a = merged_grid A (merged_grid B C a) a.
Proof.
  intros HA HB HC Ha TA TB TC JAB JBC.
  pose proof (joinable_compatible _ _ _ _ JAB) as HcAB.
  pose proof (joinable_compatible _ _ _ _ JBC) as HcBC.
  destruct (compatible_shapes A B a Ha HcAB) as [[Hf12 Hs12] [Cf12 Cs12]].
  destruct (compatible_shapes B C a Ha HcBC) as [[Hf23 Hs23] [Cf23 Cs23]].
  pose proof (length_point_shape A) as LA. pose proof (length_point_shape B) as LB.
  pose proof (length_point_shape C) as LC.
  pose proof (length_cell_shape A) as KA. pose proof (length_cell_shape B) as KB.
  pose proof (length_cell_shape C) as KC.
  destruct (extent_point_shape A HA a Ha) as [_ PA].
  destruct (extent_point_shape B HB a Ha) as [_ PB].
  pose proof (merged_dimensions_assoc A B C a Ha) as Hdims.
  unfold merged_grid at 1 3. unfold merged_grid at 1 3 in Hdims.
  cbn [dimensions] in Hdims. rewrite Hdims. f_equal.
  - rewrite (point_shape_merged A B a), (point_shape_merged B C a) by assumption.
    cbn [points merged_grid].
    apply join_dropping_seam_assoc; try assumption; try lia.
    + apply (valid_points A HA).
    + apply (valid_points B HB).
    + apply (valid_points C HC).
  - rewrite (point_shape_merged A B a), (point_shape_merged B C a) by assumption.
    cbn [point_arrays merged_grid]. rewrite map_map.
    apply map_ext_in. intros [k vA] Hin. cbn [fst snd]. f_equal.
    assert (HkB : In k (keys (point_arrays B))).
    { apply (joinable_point_names _ _ _ _ JAB). change k with (fst (k, vA)).
      now apply in_map. }
    assert (HkC : In k (keys (point_arrays C)))
      by now apply (joinable_point_names _ _ _ _ JBC).
    rewrite (values_map
               (fun kv => join_dropping_seam (point_shape B) (point_shape C) a
                            (snd kv) (values (point_arrays C) (fst kv)))
               (point_arrays B) k (values (point_arrays B) k)
               (valid_point_names B HB)
               (named_value _ k (valid_point_names B HB) HkB)).
    cbn [fst snd].
    apply join_dropping_seam_assoc; try assumption; try lia.
    + pose proof (valid_point_arrays A HA) as Hl. rewrite Forall_forall in Hl.
      apply (Hl (k, vA) Hin).
    + now apply (other_point_array B HB).
    + now apply (other_point_array C HC).
  - rewrite (cell_shape_merged A B a), (cell_shape_merged B C a) by assumption.
    cbn [cell_arrays merged_grid]. rewrite map_map.
    apply map_ext_in. intros [k vA] Hin. cbn [fst snd]. f_equal.
    assert (HkB : In k (keys (cell_arrays B))).
    { apply (joinable_cell_names _ _ _ _ JAB). change k with (fst (k, vA)).
      now apply in_map. }
    assert (HkC : In k (keys (cell_arrays C)))
      by now apply (joinable_cell_names _ _ _ _ JBC).
    rewrite (values_map
               (fun kv => join_keeping (cell_shape B) (cell_shape C) a
                            (snd kv) (values (cell_arrays C) (fst kv)))
               (cell_arrays B) k (values (cell_arrays B) k)
               (valid_cell_names B HB)
               (named_value _ k (valid_cell_names B HB) HkB)).
    cbn [fst snd].
    apply join_keeping_assoc; try assumption; try lia.
    + pose proof (valid_cell_arrays A HA) as Hl. rewrite Forall_forall in Hl.
      apply (Hl (k, vA) Hin).
    + now apply (other_cell_array B HB).
    + now apply (other_cell_array C HC).
Qed.

(** X13.  Joining three grids with at least two points each along the
    axis: joining the first two and then the third succeeds and returns
    a grid exactly when joining the first to the join of the last two
    succeeds and returns that grid. *)
Theorem concatenate_associative (A B C R : Grid) (a : nat) (tolerance : Q) :
  valid_grid A -> valid_grid B -> valid_grid C -> a < 3 ->
  (2 <= dim_at A a)%Z -> (2 <= dim_at B a)%Z -> (2 <= dim_at C a)%Z ->
  (exists AB,
      concatenate A B (Z.of_nat a) tolerance = Ok AB
      /\ concatenate AB C (Z.of_nat a) tolerance = Ok R)
  <-> (exists BC,
         concatenate B C (Z.of_nat a) tolerance = Ok BC
         /\ concatenate A BC (Z.of_nat a) tolerance = Ok R).
Proof.
  intros HA HB HC Ha TA TB TC. split.
  - intros [AB [H1 H2]].
    destruct (concatenate_joinable A B AB a tolerance HA HB Ha H1) as [JAB ->].
    pose proof (merged_valid A B a tolerance HA HB Ha JAB TA TB) as HAB.
    destruct (concatenate_joinable _ C R a tolerance HAB HC Ha H2) as [JAB_C ->].
    assert (JBC : joinable B C a tolerance)
      by (apply -> (joinable_merged_l A B C a tolerance); assumption).
    pose proof (merged_valid B C a tolerance HB HC Ha JBC TB TC) as HBC.
    exists (merged_grid B C a). split.
    + now apply joinable_concatenate.
    + rewrite (merged_assoc A B C a tolerance) by assumption.
      apply joinable_concatenate; try assumption.
      apply <- (joinable_merged_r A B C a tolerance); assumption.
  - intros [BC [H1 H2]].
    destruct (concatenate_joinable B C BC a tolerance HB HC Ha H1) as [JBC ->].
    pose proof (merged_valid B C a tolerance HB HC Ha JBC TB TC) as HBC.
    destruct (concatenate_joinable A _ R a tolerance HA HBC Ha H2) as [JA_BC ->].
    assert (JAB : joinable A B a tolerance)
      by (apply -> (joinable_merged_r A B C a tolerance); assumption).
    pose proof (merged_valid A B a tolerance HA HB Ha JAB TA TB) as HAB.
    exists (merged_grid A B a). split.
    + now apply joinable_concatenate.
    + rewrite <- (merged_assoc A B C a tolerance) by assumption.
      apply joinable_concatenate; try assumption.
      apply <- (joinable_merged_l A B C a tolerance); assumption.
Qed.

Lemma valid_grid_H : valid_grid grid_H.
Proof. prove_valid. Qed.

(** The three example grids in a row: both ways of joining them give the
    4 x 2 x 1 grid. *)
Lemma three_grids_joined :
  (exists AB, concatenate grid_A grid_B 0 0 = Ok AB /\ concatenate AB grid_H 0 0 = Ok grid_ABH)
  /\ (exists BC, concatenate grid_B grid_H 0 0 = Ok BC /\ concatenate grid_A BC 0 0 = Ok grid_ABH).
Proof.
  split.
  - exists grid_AB. split; vm_compute; reflexivity.
  - eexists. split; [vm_compute; reflexivity|]. vm_compute. reflexivity.
Qed.

Lemma concatenate_associative_witness :
  (exists AB,
      concatenate grid_A grid_B (Z.of_nat 0) 0 = Ok AB
      /\ concatenate AB grid_H (Z.of_nat 0) 0 = Ok grid_ABH)
  <-> (exists BC,
         concatenate grid_B grid_H (Z.of_nat 0) 0 = Ok BC
         /\ concatenate grid_A BC (Z.of_nat 0) 0 = Ok grid_ABH).
Proof.
  apply (concatenate_associative grid_A grid_B grid_H grid_ABH 0 0
           valid_grid_A valid_grid_B valid_grid_H).
  - lia.
  - vm_compute. discriminate.
  - vm_compute. discriminate.
  - vm_compute. discriminate.
Defined.

(** ** What an error reports *)


